(** * Local Recall dashboard: the client side of the retrieval and generation
      interfaces

    A shallow embedding of the TypeScript front end (frontend-nextjs):
    - [Js]: the JavaScript values and primitives the code relies on;
    - [Api]: lib/api.ts, the shared fetch wrapper and the request builders;
    - [SearchTab]: components/tabs/search-tab.tsx, the search form, its
      submit handler and the consumer of the streaming answer channel;
    - [UploadTab]: the tag editor of the upload form;
    - [Home]: app/page.tsx, the notification poller;
    - [Bus], [Engine]: the two server-side collaborators the front end talks
      to, which are not part of the front end sources;
    - [Stream], [Sample]: the notions the properties are stated with, and
      the data of the examples.

    Definitions come first, the lemmas and theorems about them follow. *)

From Stdlib Require Import ZArith String Ascii List Bool Lia DecimalString Sorted SpecFloat.
Import ListNotations.

Set Warnings "-register-all".

Open Scope string_scope.
Open Scope Z_scope.

(* ===================================================================== *)
(** ** JavaScript values and primitives *)
(* ===================================================================== *)

Module Js.

(** A JavaScript value built from JSON data.  A number is kept as the text
    [String(n)] prints for it ("5", "0.87", "NaN"): the code below only
    copies numbers around, prints them and tests them for truthiness.
    Strings are sequences of code units below 256. *)
Inductive value :=
| VUndefined
| VNull
| VBool (b : bool)
| VNum (repr : string)
| VStr (s : string)
| VArr (elems : list value)
| VObj (props : list (string * value)).

(** What a [throw] carries: an [APIError] of lib/api.ts, any other [Error]
    instance (a [TypeError], a [SyntaxError], ...), or a value that is not
    an [Error]. *)
Inductive thrown :=
| APIError (status : Z) (message : string)
| JsError (name message : string)
| ThrownValue (v : value).

(** The outcome of an expression or of a settled promise. *)
Inductive res (A : Type) :=
| Ok (a : A)
| Throw (e : thrown).
Arguments Ok {A} a.
Arguments Throw {A} e.

Definition bind {A B} (r : res A) (f : A -> res B) : res B :=
  match r with
  | Ok a => f a
  | Throw e => Throw e
  end.

Notation "x <- r ;; k" := (bind r (fun x => k))
  (at level 61, r at next level, right associativity).

Fixpoint mapM {A B} (f : A -> res B) (l : list A) : res (list B) :=
  match l with
  | [] => Ok []
  | a :: rest => b <- f a ;; bs <- mapM f rest ;; Ok (b :: bs)
  end.

(** A number that is an integer or [NaN]: the form state [k], the optional
    [limit] and the result of [parseInt]. *)
Inductive number :=
| Int (z : Z)
| NaN.

Definition Z_to_string (z : Z) : string := NilZero.string_of_int (Z.to_int z).

(** [n.toString()] *)
Definition number_toString (n : number) : string :=
  match n with
  | Int z => Z_to_string z
  | NaN => "NaN"
  end.

Definition of_number (n : number) : value := VNum (number_toString n).

(** [b.toString()] *)
Definition bool_toString (b : bool) : string := if b then "true" else "false".

(** ToBoolean *)
Definition truthy (v : value) : bool :=
  match v with
  | VUndefined | VNull => false
  | VBool b => b
  | VNum r => negb (String.eqb r "0" || String.eqb r "NaN")
  | VStr s => negb (String.eqb s "")
  | VArr _ | VObj _ => true
  end.

Definition truthy_string (s : option string) : bool :=
  match s with
  | Some s => negb (String.eqb s "")
  | None => false
  end.

Definition truthy_number (n : option number) : bool :=
  match n with
  | Some (Int z) => negb (z =? 0)
  | Some NaN | None => false
  end.

(** ToString, as applied by [+] to the right operand when the left one is a
    string. *)
Fixpoint to_string (v : value) : string :=
  match v with
  | VUndefined => "undefined"
  | VNull => "null"
  | VBool b => bool_toString b
  | VNum r => r
  | VStr s => s
  | VArr l =>
      String.concat ","
        (map (fun x => match x with
                       | VUndefined | VNull => ""
                       | _ => to_string x
                       end) l)
  | VObj _ => "[object Object]"
  end.

(** [a || b] *)
Definition or_else (a b : value) : value := if truthy a then a else b.

(** [v === "s"] *)
Definition strict_eq_string (v : value) (s : string) : bool :=
  match v with
  | VStr t => String.eqb t s
  | _ => false
  end.

Fixpoint lookup (name : string) (props : list (string * value)) : value :=
  match props with
  | [] => VUndefined
  | (k, v) :: rest => if String.eqb k name then v else lookup name rest
  end.

(** [v.name] for a data property [name] (none of the built-in ones such as
    [length]): reading a property of [undefined] or [null] throws. *)
Definition get (v : value) (name : string) : res value :=
  match v with
  | VUndefined | VNull =>
      Throw (JsError "TypeError" ("Cannot read properties (reading '" ++ name ++ "')"))
  | VObj props => Ok (lookup name props)
  | _ => Ok VUndefined
  end.

(** [v.map(f)]: only an array has a callable [map]. *)
Definition array_map (f : value -> res value) (v : value) : res value :=
  match v with
  | VArr l => l' <- mapM f l ;; Ok (VArr l')
  | VUndefined | VNull =>
      Throw (JsError "TypeError" "Cannot read properties (reading 'map')")
  | _ => Throw (JsError "TypeError" "map is not a function")
  end.

(** White space and line terminators among the code units below 256. *)
Definition is_whitespace (c : ascii) : bool :=
  let n := N_of_ascii c in
  ((9 <=? n) && (n <=? 13) || (n =? 32) || (n =? 160))%N.

Fixpoint trimStart (s : string) : string :=
  match s with
  | String c rest => if is_whitespace c then trimStart rest else s
  | EmptyString => EmptyString
  end.

Fixpoint trimEnd (s : string) : string :=
  match s with
  | EmptyString => EmptyString
  | String c rest =>
      match trimEnd rest with
      | EmptyString => if is_whitespace c then EmptyString else String c EmptyString
      | rest' => String c rest'
      end
  end.

(** [s.trim()] *)
Definition trim (s : string) : string := trimEnd (trimStart s).

Definition digit_value (c : ascii) : option Z :=
  let n := Z.of_N (N_of_ascii c) in
  if (48 <=? n) && (n <=? 57) then Some (n - 48)
  else if (97 <=? n) && (n <=? 122) then Some (n - 87)
  else if (65 <=? n) && (n <=? 90) then Some (n - 55)
  else None.

(** The value of the longest prefix of digits of the radix, if not empty. *)
Fixpoint digits_prefix (radix : Z) (acc : option Z) (s : string) : option Z :=
  match s with
  | EmptyString => acc
  | String c rest =>
      match digit_value c with
      | Some d =>
          if d <? radix
          then digits_prefix radix
                 (Some (match acc with Some a => a * radix + d | None => d end)) rest
          else acc
      | None => acc
      end
  end.

Definition strip_sign (s : string) : Z * string :=
  match s with
  | String "-" rest => (-1, rest)
  | String "+" rest => (1, rest)
  | _ => (1, s)
  end.

Definition strip_hex_prefix (s : string) : Z * string :=
  match s with
  | String "0" (String "x" rest) | String "0" (String "X" rest) => (16, rest)
  | _ => (10, s)
  end.

(** [parseInt(s)] with no radix given (integers are exact here, without the
    rounding of large values to a double). *)
Definition parseInt (s : string) : number :=
  let '(sign, s1) := strip_sign (trimStart s) in
  let '(radix, s2) := strip_hex_prefix s1 in
  match digits_prefix radix None s2 with
  | Some n => Int (sign * n)
  | None => NaN
  end.

(** A number value: a double, as [ToNumber] gives it. *)
Definition double := spec_float.

Definition of_Z (z : Z) : double := binary_normalize 53 1024 z 0 false.

(** The double nearest to [m * 10 ^ e], ties to even. *)
Definition decimal (negative : bool) (m e : Z) : double :=
  match m with
  | Zpos p =>
      if 0 <=? e
      then binary_normalize 53 1024 (if negative then - (m * 10 ^ e) else m * 10 ^ e) 0 false
      else match 10 ^ (- e) with
           | Zpos d => SFdiv 53 1024 (S754_finite negative p 0) (S754_finite false d 0)
           | _ => S754_nan
           end
  | _ => S754_zero negative
  end.

(** The leading digits of [s] in the radix, most significant first, and what
    follows them. *)
Fixpoint take_digits (radix : Z) (s : string) : list Z * string :=
  match s with
  | String c rest =>
      match digit_value c with
      | Some d => if d <? radix
                  then let '(ds, r) := take_digits radix rest in (d :: ds, r)
                  else ([], s)
      | None => ([], s)
      end
  | EmptyString => ([], s)
  end.

Definition digits_value (radix : Z) (ds : list Z) : Z :=
  fold_left (fun a d => a * radix + d) ds 0.

(** An [ExponentPart], or nothing, up to the end of the string. *)
Definition exponent_part (s : string) : option Z :=
  match s with
  | EmptyString => Some 0
  | String c rest =>
      if (Ascii.eqb c "e" || Ascii.eqb c "E")%bool then
        let '(negative, rest) :=
          match rest with
          | String "-" r => (true, r)
          | String "+" r => (false, r)
          | _ => (false, rest)
          end in
        match take_digits 10 rest with
        | (d :: ds, EmptyString) =>
            Some (if negative then - digits_value 10 (d :: ds)
                  else digits_value 10 (d :: ds))
        | _ => None
        end
      else None
  end.

(** A [StrUnsignedDecimalLiteral]: Infinity, or digits with an optional
    fraction and exponent. *)
Definition unsigned_decimal (negative : bool) (s : string) : double :=
  if String.eqb s "Infinity" then S754_infinity negative
  else
    let '(int, r1) := take_digits 10 s in
    let '(frac, r2) :=
      match r1 with
      | String "." r => take_digits 10 r
      | _ => ([], r1)
      end in
    match (int ++ frac)%list, exponent_part r2 with
    | _ :: _, Some e =>
        decimal negative (digits_value 10 (int ++ frac)) (e - Z.of_nat (length frac))
    | _, _ => S754_nan
    end.

(** A [NonDecimalIntegerLiteral]: 0x, 0o and 0b. *)
Definition non_decimal (s : string) : option double :=
  let literal radix rest :=
    match take_digits radix rest with
    | (d :: ds, EmptyString) => Some (of_Z (digits_value radix (d :: ds)))
    | _ => Some S754_nan
    end in
  match s with
  | String "0" (String c rest) =>
      if (Ascii.eqb c "x" || Ascii.eqb c "X")%bool then literal 16 rest
      else if (Ascii.eqb c "o" || Ascii.eqb c "O")%bool then literal 8 rest
      else if (Ascii.eqb c "b" || Ascii.eqb c "B")%bool then literal 2 rest
      else None
  | _ => None
  end.

(** [StringToNumber]: the number a string stands for, [NaN] when it is not a
    numeric literal. *)
Definition StringToNumber (s : string) : double :=
  match trim s with
  | EmptyString => S754_zero false
  | String "-" rest => unsigned_decimal true rest
  | String "+" rest => unsigned_decimal false rest
  | t => match non_decimal t with
         | Some d => d
         | None => unsigned_decimal false t
         end
  end.

(** ToNumber; an array or object goes through its string. *)
Definition to_number (v : value) : double :=
  match v with
  | VUndefined => S754_nan
  | VNull => S754_zero false
  | VBool b => if b then of_Z 1 else S754_zero false
  | VNum r => StringToNumber r
  | VStr s => StringToNumber s
  | VArr _ | VObj _ => StringToNumber (to_string v)
  end.

(** [v > n] for a number literal [n]. *)
Definition gt (v : value) (n : Z) : bool := SFltb (of_Z n) (to_number v).

Definition of_nat (n : nat) : value := VNum (Z_to_string (Z.of_nat n)).

(** [v.length]: the length of a string or an array, the property of that
    name of an object. *)
Definition length_of (v : value) : res value :=
  match v with
  | VUndefined | VNull =>
      Throw (JsError "TypeError" "Cannot read properties (reading 'length')")
  | VStr s => Ok (of_nat (String.length s))
  | VArr l => Ok (of_nat (List.length l))
  | VObj props => Ok (lookup "length" props)
  | _ => Ok VUndefined
  end.

(** [v.length > n]: exact for the length of a string or an array. *)
Definition length_gt (v : value) (n : nat) : res bool :=
  match v with
  | VUndefined | VNull =>
      Throw (JsError "TypeError" "Cannot read properties (reading 'length')")
  | VStr s => Ok (n <? String.length s)%nat
  | VArr l => Ok (n <? List.length l)%nat
  | VObj props => Ok (gt (lookup "length" props) (Z.of_nat n))
  | _ => Ok false
  end.

(** The integer part of a finite double. *)
Definition truncate (d : double) : option Z :=
  match d with
  | S754_zero _ => Some 0
  | S754_finite s m e =>
      let a := if 0 <=? e then Zpos m * 2 ^ e else Zpos m / 2 ^ (- e) in
      Some (if s then - a else a)
  | _ => None
  end.

(** TimeClip: a time value is at most 8.64e15 ms away from the epoch. *)
Definition TimeClip (d : double) : option Z :=
  match truncate d with
  | Some t => if Z.abs t <=? 8640000000000000 then Some t else None
  | None => None
  end.

(** [new Date(value)]: the time value of the date, [None] for an invalid
    date.  A string is parsed, any other primitive is taken as a number of
    milliseconds; an array or object goes through its string.  [Date_parse]
    is [Date.parse]: outside one format it is left to the browser what the
    function accepts, so it is taken as given. *)
Definition new_Date (Date_parse : string -> option Z) (value : value) : option Z :=
  match value with
  | VStr s => Date_parse s
  | VArr _ | VObj _ => Date_parse (to_string value)
  | _ => TimeClip (to_number value)
  end.

(** What React accepts as a child: a string, a number, a boolean, [null],
    [undefined], and an array of children; a plain object is refused. *)
Fixpoint react_child (v : value) : bool :=
  match v with
  | VObj _ => false
  | VArr l => forallb react_child l
  | _ => true
  end.

End Js.

(* ===================================================================== *)
(** ** lib/api.ts *)
(* ===================================================================== *)

Module Api.
Import Js.

(** [process.env]: the two variables the module reads. *)
Record env := {
  NEXT_PUBLIC_API_BASE_URL : option string;
  NEXT_PUBLIC_USE_MOCK_API : option string
}.

Definition API_BASE_URL (e : env) : string :=
  match NEXT_PUBLIC_API_BASE_URL e with
  | Some s => if String.eqb s "" then "http://localhost:8000" else s
  | None => "http://localhost:8000"
  end.

Definition USE_MOCK_API (e : env) : bool :=
  match NEXT_PUBLIC_USE_MOCK_API e with
  | Some s => String.eqb s "true"
  | None => false
  end.

(** [URLSearchParams]: the appended pairs, in order. *)
Definition URLSearchParams := list (string * string).

Definition append (sp : URLSearchParams) (name val : string) : URLSearchParams :=
  (sp ++ [(name, val)])%list.

Definition has (sp : URLSearchParams) (name : string) : bool :=
  existsb (fun p => String.eqb (fst p) name) sp.

(** The endpoint string handed to [fetchAPI]: a path, and what follows the
    "?" when the template has one. *)
Record endpoint := {
  ep_path : string;
  ep_search : option URLSearchParams
}.

(** [RequestInit]; [body] holds the value given to [JSON.stringify]. *)
Record RequestInit := {
  method : option string;
  body : option value
}.

Record request := {
  req_base : string;
  req_endpoint : endpoint;
  req_method : option string;
  req_body : option value;
  req_headers : list (string * string)
}.

Record response := {
  ok : bool;
  status : Z;
  statusText : string;
  json : res value
}.

(** [fetch]: the promise rejects or resolves to a response. *)
Definition network := request -> res response.

(** The request [fetchAPI] hands to [fetch]. *)
Definition fetch_request (e : env) (ep : endpoint) (options : option RequestInit)
    : request :=
  {| req_base := API_BASE_URL e;
     req_endpoint := ep;
     req_method := match options with Some o => method o | None => None end;
     req_body := match options with Some o => body o | None => None end;
     req_headers := [("Content-Type", "application/json")] |}.

Definition fetchAPI (e : env) (fetch : network)
    (ep : endpoint) (options : option RequestInit) : res value :=
  response <- fetch (fetch_request e ep options) ;;
  if negb (ok response)
  then Throw (APIError (status response) ("API Error: " ++ statusText response))
  else json response.

Record getData_params := {
  gd_source : option string;
  gd_tag : option string;
  gd_limit : option number
}.

Record getNotifications_params := {
  since_id : option number;
  unread_only : option bool;
  limit : option number
}.

Record QueryRequest := {
  qr_query : string;
  qr_model : string;
  qr_k : number
}.

Record UploadRequest := {
  ur_text : string;
  ur_source : string;
  ur_tags : option (list string)
}.

(** [params?.field] *)
Definition opt_field {P A} (params : option P) (f : P -> option A) : option A :=
  match params with
  | Some p => f p
  | None => None
  end.

Definition getData_searchParams (params : option getData_params) : URLSearchParams :=
  let searchParams := [] in
  let searchParams :=
    match opt_field params gd_source with
    | Some s => if truthy_string (Some s) then append searchParams "source" s else searchParams
    | None => searchParams
    end in
  let searchParams :=
    match opt_field params gd_tag with
    | Some t => if truthy_string (Some t) then append searchParams "tag" t else searchParams
    | None => searchParams
    end in
  let searchParams :=
    match opt_field params gd_limit with
    | Some n => if truthy_number (Some n)
                then append searchParams "limit" (number_toString n) else searchParams
    | None => searchParams
    end in
  searchParams.

Definition getNotifications_searchParams
    (params : option getNotifications_params) : URLSearchParams :=
  let searchParams := [] in
  let searchParams :=
    match opt_field params since_id with
    | Some n => append searchParams "since_id" (number_toString n)
    | None => searchParams
    end in
  let searchParams :=
    match opt_field params unread_only with
    | Some b => append searchParams "unread_only" (bool_toString b)
    | None => searchParams
    end in
  let searchParams :=
    match opt_field params limit with
    | Some n => if truthy_number (Some n)
                then append searchParams "limit" (number_toString n) else searchParams
    | None => searchParams
    end in
  searchParams.

Definition queryStream_searchParams (request : QueryRequest) : URLSearchParams :=
  let searchParams := [] in
  let searchParams := append searchParams "query" (qr_query request) in
  let searchParams := append searchParams "model" (qr_model request) in
  let searchParams := append searchParams "k" (number_toString (qr_k request)) in
  searchParams.

Definition search_searchParams (query : string) (k : option number) : URLSearchParams :=
  let k := match k with Some k => k | None => Int 5 end in
  let searchParams := [] in
  let searchParams := append searchParams "query" query in
  let searchParams := append searchParams "k" (number_toString k) in
  searchParams.

(** The object literals given to [JSON.stringify]. *)
Definition QueryRequest_value (request : QueryRequest) : value :=
  VObj [("query", VStr (qr_query request));
        ("model", VStr (qr_model request));
        ("k", of_number (qr_k request))].

Definition UploadRequest_value (data : UploadRequest) : value :=
  VObj ([("text", VStr (ur_text data)); ("source", VStr (ur_source data))]
        ++ match ur_tags data with
           | Some tags => [("tags", VArr (map VStr tags))]
           | None => []
           end)%list.

(** The operations of the [api] object that return a promise. *)
Inductive operation :=
| getStats
| getStatus
| getData (params : option getData_params)
| deleteEntry (id : Z)
| createEntry (data : UploadRequest)
| query (request : QueryRequest)
| search (query : string) (k : option number)
| getKeybinds
| addSelectedTextKeybind (keySequence : string)
| addScreenshotKeybind (keySequence : string)
| getNotifications (params : option getNotifications_params)
| markNotificationRead (id : Z)
| markAllNotificationsRead
| startCapture
| stopCapture.

Definition plain (p : string) : endpoint := {| ep_path := p; ep_search := None |}.

Definition with_search (p : string) (sp : URLSearchParams) : endpoint :=
  {| ep_path := p; ep_search := Some sp |}.

Definition POST (b : option value) : option RequestInit :=
  Some {| method := Some "POST"; body := b |}.

(** The arguments each operation gives to [fetchAPI]. *)
Definition fetch_arguments (op : operation) : endpoint * option RequestInit :=
  match op with
  | getStats => (plain "/stats", None)
  | getStatus => (plain "/status", None)
  | getData params => (with_search "/data" (getData_searchParams params), None)
  | deleteEntry id =>
      (plain ("/data/" ++ Z_to_string id), Some {| method := Some "DELETE"; body := None |})
  | createEntry data => (plain "/data", POST (Some (UploadRequest_value data)))
  | query request => (plain "/query", POST (Some (QueryRequest_value request)))
  | search q k => (with_search "/search" (search_searchParams q k), None)
  | getKeybinds => (plain "/keybinds", None)
  | addSelectedTextKeybind keySequence =>
      (plain "/keybind/selected", POST (Some (VObj [("key_sequence", VStr keySequence)])))
  | addScreenshotKeybind keySequence =>
      (plain "/keybind/screenshot", POST (Some (VObj [("key_sequence", VStr keySequence)])))
  | getNotifications params =>
      (with_search "/notifications" (getNotifications_searchParams params), None)
  | markNotificationRead id =>
      (plain ("/notifications/" ++ Z_to_string id ++ "/read"), POST None)
  | markAllNotificationsRead => (plain "/notifications/read-all", POST None)
  | startCapture => (plain "/control/start", POST None)
  | stopCapture => (plain "/control/stop", POST None)
  end.

(** The operations written [USE_MOCK_API ? mockApi.op(...) : fetchAPI(...)]. *)
Definition has_mock (op : operation) : bool :=
  match op with
  | getStatus | startCapture | stopCapture => false
  | _ => true
  end.

(** An operation is routed through [fetchAPI] unless the mock is on and the
    operation has one. *)
Definition routed (e : env) (op : operation) : bool :=
  negb (USE_MOCK_API e && has_mock op).

(** Running an operation.  [mockApi] stands for the module ./mock-api, whose
    operations wait on timers and draw random numbers: each is taken as the
    outcome its promise settles with.  [getNotifications] wraps the mock's
    list as [{ notifications: ... }]. *)
Definition run (e : env) (mockApi : operation -> res value) (fetch : network)
    (op : operation) : res value :=
  if USE_MOCK_API e && has_mock op
  then match op with
       | getNotifications _ =>
           l <- mockApi op ;; Ok (VObj [("notifications", l)])
       | _ => mockApi op
       end
  else fetchAPI e fetch (fst (fetch_arguments op)) (snd (fetch_arguments op)).

(** The request an operation sends when it is routed through [fetchAPI]. *)
Definition request_for (e : env) (op : operation) : request :=
  fetch_request e (fst (fetch_arguments op)) (snd (fetch_arguments op)).

(** An [EventSource]: the URL it reads from and whether [close()] was
    called on it. *)
Record EventSource := {
  url : string * endpoint;
  closed : bool
}.

(** [eventSource.close()] *)
Definition close (es : EventSource) : EventSource :=
  {| url := url es; closed := true |}.

(** [api.queryStream]; [mock_queryStream] stands for [mockApi.queryStream],
    which hands out an event target of its own making. *)
Definition queryStream (e : env) (mock_queryStream : QueryRequest -> EventSource)
    (request : QueryRequest) : EventSource :=
  if USE_MOCK_API e then mock_queryStream request
  else {| url := (API_BASE_URL e,
                  with_search "/query/stream" (queryStream_searchParams request));
          closed := false |}.

End Api.

(* ===================================================================== *)
(** ** lib/hooks/use-toast.ts *)
(* ===================================================================== *)

Module Toasts.
Import Js.

(** A toast as the callers build it (the store adds a random [id], which
    nothing below reads). *)
Record Toast := {
  title : value;
  description : value;
  variant : string
}.

(** [addToast]: [toasts: [...state.toasts, { ...toast, id }]] *)
Definition addToast (toasts : list Toast) (t : Toast) : list Toast :=
  (toasts ++ [t])%list.

End Toasts.

(* ===================================================================== *)
(** ** components/ui/slider.tsx *)
(* ===================================================================== *)

Module Slider.
Import Js.

(** The value a range input reports after the user moves it to [pos]: the
    browser keeps it between [min] and [max] on the integer steps (this is
    the HTML range input, not code of the component). *)
Definition range_input_value (min max pos : Z) : string :=
  Z_to_string (Z.max min (Z.min max pos)).

(** [handleChange]: [onValueChange?.(parseInt(e.target.value))] *)
Definition handleChange {State} (onValueChange : option (number -> State -> State))
    (target_value : string) (s : State) : State :=
  match onValueChange with
  | Some f => f (parseInt target_value) s
  | None => s
  end.

End Slider.

(* ===================================================================== *)
(** ** components/tabs/search-tab.tsx: SearchTab *)
(* ===================================================================== *)

Module SearchTab.
Import Js.
Import Toasts.

(** The component state, with the toast store it writes to. *)
Record state := {
  query : string;
  model : string;
  useRag : bool;
  streamEnabled : bool;
  k : number;
  loading : bool;
  ragResponse : value;
  searchResults : value;
  streamingAnswer : string;
  toasts : list Toast
}.

Definition initial : state :=
  {| query := ""; model := "llama3.1:8b"; useRag := true; streamEnabled := true;
     k := Int 5; loading := false; ragResponse := VNull; searchResults := VArr [];
     streamingAnswer := ""; toasts := [] |}.

Definition setQuery (v : string) (s : state) : state :=
  {| query := v; model := model s; useRag := useRag s; streamEnabled := streamEnabled s;
     k := k s; loading := loading s; ragResponse := ragResponse s;
     searchResults := searchResults s; streamingAnswer := streamingAnswer s;
     toasts := toasts s |}.

Definition setModel (v : string) (s : state) : state :=
  {| query := query s; model := v; useRag := useRag s; streamEnabled := streamEnabled s;
     k := k s; loading := loading s; ragResponse := ragResponse s;
     searchResults := searchResults s; streamingAnswer := streamingAnswer s;
     toasts := toasts s |}.

Definition setUseRag (v : bool) (s : state) : state :=
  {| query := query s; model := model s; useRag := v; streamEnabled := streamEnabled s;
     k := k s; loading := loading s; ragResponse := ragResponse s;
     searchResults := searchResults s; streamingAnswer := streamingAnswer s;
     toasts := toasts s |}.

Definition setStreamEnabled (v : bool) (s : state) : state :=
  {| query := query s; model := model s; useRag := useRag s; streamEnabled := v;
     k := k s; loading := loading s; ragResponse := ragResponse s;
     searchResults := searchResults s; streamingAnswer := streamingAnswer s;
     toasts := toasts s |}.

Definition setK (v : number) (s : state) : state :=
  {| query := query s; model := model s; useRag := useRag s; streamEnabled := streamEnabled s;
     k := v; loading := loading s; ragResponse := ragResponse s;
     searchResults := searchResults s; streamingAnswer := streamingAnswer s;
     toasts := toasts s |}.

Definition setLoading (v : bool) (s : state) : state :=
  {| query := query s; model := model s; useRag := useRag s; streamEnabled := streamEnabled s;
     k := k s; loading := v; ragResponse := ragResponse s;
     searchResults := searchResults s; streamingAnswer := streamingAnswer s;
     toasts := toasts s |}.

Definition setRagResponse (v : value) (s : state) : state :=
  {| query := query s; model := model s; useRag := useRag s; streamEnabled := streamEnabled s;
     k := k s; loading := loading s; ragResponse := v;
     searchResults := searchResults s; streamingAnswer := streamingAnswer s;
     toasts := toasts s |}.

Definition setSearchResults (v : value) (s : state) : state :=
  {| query := query s; model := model s; useRag := useRag s; streamEnabled := streamEnabled s;
     k := k s; loading := loading s; ragResponse := ragResponse s;
     searchResults := v; streamingAnswer := streamingAnswer s;
     toasts := toasts s |}.

(** [setStreamingAnswer] takes an updater, as the stream handler uses it. *)
Definition setStreamingAnswer (f : string -> string) (s : state) : state :=
  {| query := query s; model := model s; useRag := useRag s; streamEnabled := streamEnabled s;
     k := k s; loading := loading s; ragResponse := ragResponse s;
     searchResults := searchResults s; streamingAnswer := f (streamingAnswer s);
     toasts := toasts s |}.

Definition toast (t : Toast) (s : state) : state :=
  {| query := query s; model := model s; useRag := useRag s; streamEnabled := streamEnabled s;
     k := k s; loading := loading s; ragResponse := ragResponse s;
     searchResults := searchResults s; streamingAnswer := streamingAnswer s;
     toasts := addToast (toasts s) t |}.

Definition error_toast (d : value) : Toast :=
  {| title := VStr "Error"; description := d; variant := "destructive" |}.

(** The sources of a [metadata] event, rewritten for the result list. *)
Definition transform (source : value) : res value :=
  id <- get source "id" ;;
  src <- get source "source" ;;
  timestamp <- get source "timestamp" ;;
  score <- get source "score" ;;
  Ok (VObj [("entry", VObj [("id", id); ("source", src); ("timestamp", timestamp)]);
            ("relevance_score", score)]).

(** [eventSource.onmessage]; [parsed] is the outcome of
    [JSON.parse(event.data)]. *)
Definition onmessage (es : Api.EventSource) (st : state) (parsed : res value)
    : res (Api.EventSource * state) :=
  data <- parsed ;;
  type <- get data "type" ;;
  if strict_eq_string type "answer_chunk" then
    content <- get data "content" ;;
    Ok (es, setStreamingAnswer (fun prev => prev ++ to_string content) st)
  else if strict_eq_string type "metadata" then
    sources <- get data "sources" ;;
    transformedSources <- array_map transform sources ;;
    Ok (es, setSearchResults transformedSources st)
  else if strict_eq_string type "done" then
    Ok (Api.close es, setLoading false st)
  else if strict_eq_string type "error" then
    content <- get data "content" ;;
    Ok (Api.close es,
        setLoading false (toast (error_toast (or_else content (VStr "Streaming failed"))) st))
  else Ok (es, st).

(** [eventSource.onerror] *)
Definition onerror (es : Api.EventSource) (st : state) : Api.EventSource * state :=
  (Api.close es, setLoading false (toast (error_toast (VStr "Streaming failed")) st)).

(** What the event source hands to the component: a message, or a failure of
    the connection. *)
Inductive channel_event :=
| Message (parsed : res value)
| ConnectionError.

(** A closed event source dispatches nothing; an exception thrown by a
    handler is reported and leaves the state as it was. *)
Definition dispatch (c : Api.EventSource * state) (ev : channel_event) : Api.EventSource * state :=
  if Api.closed (fst c) then c
  else match ev with
       | Message parsed =>
           match onmessage (fst c) (snd c) parsed with
           | Ok c' => c'
           | Throw _ => c
           end
       | ConnectionError => onerror (fst c) (snd c)
       end.

Definition deliver (evs : list channel_event) (c : Api.EventSource * state)
    : Api.EventSource * state :=
  fold_left dispatch evs c.

(** What [handleSearch] leaves running when its synchronous part ends. *)
Inductive pending :=
| NoRequest
| Streaming (es : Api.EventSource)
| Awaiting (op : Api.operation).

Definition request_of (st : state) : Api.QueryRequest :=
  {| Api.qr_query := query st; Api.qr_model := model st; Api.qr_k := k st |}.

(** [handleSearch], up to the first [await]. *)
Definition handleSearch (e : Api.env)
    (mock_queryStream : Api.QueryRequest -> Api.EventSource) (st : state)
    : state * pending :=
  if negb (truthy (VStr (trim (query st)))) then
    (toast (error_toast (VStr "Please enter a search query")) st, NoRequest)
  else
    let st := setLoading true st in
    let st := setRagResponse VNull st in
    let st := setSearchResults (VArr []) st in
    let st := setStreamingAnswer (fun _ => "") st in
    if useRag st then
      if streamEnabled st then
        (st, Streaming (Api.queryStream e mock_queryStream (request_of st)))
      else (st, Awaiting (Api.query (request_of st)))
    else (st, Awaiting (Api.search (query st) (Some (k st)))).

(** [error instanceof Error ? error.message : "Search failed"] *)
Definition failure_description (error : thrown) : value :=
  match error with
  | APIError _ message => VStr message
  | JsError _ message => VStr message
  | ThrownValue _ => VStr "Search failed"
  end.

(** [handleSearch] after the awaited promise has settled: the setters act on
    the state the tab has by then. *)
Definition handleSearch_resume (st : state) (op : Api.operation) (settled : res value)
    : state :=
  match settled with
  | Ok v =>
      match op with
      | Api.query _ => setLoading false (setRagResponse v st)
      | _ => setLoading false (setSearchResults v st)
      end
  | Throw error =>
      setLoading false (toast (error_toast (failure_description error)) st)
  end.

(** The text handed to the answer card:
    [streamingAnswer || ragResponse?.answer || ""] *)
Definition displayed_answer (st : state) : res value :=
  answer <- match ragResponse st with
            | VUndefined | VNull => Ok VUndefined
            | r => get r "answer"
            end ;;
  Ok (or_else (or_else (VStr (streamingAnswer st)) answer) (VStr "")).

(** [formatDistanceToNow(date, { addSuffix: true })] of date-fns, which
    throws a [RangeError] for an invalid date.  The words it returns ("about
    2 hours ago") depend on the clock: the card keeps the time they are
    computed from. *)
Definition formatDistanceToNow (date : option Z) : res Z :=
  match date with
  | Some time => Ok time
  | None => Throw (JsError "RangeError" "Invalid time value")
  end.

(** What [tags && tags.length > 0 && (...tags.map(...))] leaves in a card:
    one badge per tag, or the falsy value the test stopped at. *)
Inductive tag_block :=
| Badges (tags : list value)
| NoBadges (falsy : value).

(** What [content && (...)] leaves in a card: the text block with the printed
    text, the character count and the tags, or the falsy content. *)
Inductive content_block :=
| Content (text length : value) (tags : tag_block)
| NoContent (falsy : value).

(** One card of the result list: what is printed of [result].  The score is
    kept as it is (its colour and percentage are computed from it and cannot
    fail). *)
Record card := {
  card_id : value;
  card_source : value;
  card_score : value;
  card_time : Z;
  card_content : content_block;
  card_note : bool
}.

(** The excerpt printed for a textual content. *)
Definition excerpt (content : string) : string :=
  if (300 <? String.length content)%nat
  then substring 0 300 content ++ "..."
  else content.

(** [content.length > 300 ? content.substring(0, 300) + "..." : content];
    only a string has a [substring] to call. *)
Definition excerpt_of (content : value) : res value :=
  match content with
  | VStr s => Ok (VStr (excerpt s))
  | _ =>
      long <- length_gt content 300 ;;
      if long
      then Throw (JsError "TypeError" "result.entry.content.substring is not a function")
      else Ok content
  end.

(** [tags && tags.length > 0 && (<>...{tags.map(...)}</>)]; only an array
    has a [map] to call. *)
Definition tag_badges (tags : value) : res tag_block :=
  if truthy tags then
    some <- length_gt tags 0 ;;
    if some then
      match tags with
      | VArr l => Ok (Badges l)
      | _ => Throw (JsError "TypeError" "result.entry.tags.map is not a function")
      end
    else Ok (NoBadges (VBool false))
  else Ok (NoBadges tags).

(** The body of [searchResults.map((result, index) => ...)]: the expressions
    of one card, in the order they are evaluated. *)
Definition render_result (Date_parse : string -> option Z) (useRag : bool)
    (result : value) : res card :=
  entry <- get result "entry" ;;
  id <- get entry "id" ;;
  source <- get entry "source" ;;
  score <- get result "relevance_score" ;;
  timestamp <- get entry "timestamp" ;;
  time <- formatDistanceToNow (new_Date Date_parse timestamp) ;;
  content <- get entry "content" ;;
  block <- (if truthy content then
              text <- excerpt_of content ;;
              length <- length_of content ;;
              tags <- get entry "tags" ;;
              badges <- tag_badges tags ;;
              Ok (Content text length badges)
            else Ok (NoContent content)) ;;
  Ok {| card_id := id; card_source := source; card_score := score; card_time := time;
        card_content := block;
        card_note := negb (truthy content) && useRag |}.

(** The values of a card that are handed to React as children. *)
Definition card_children (c : card) : list value :=
  ([card_id c; card_source c]
   ++ match card_content c with
      | Content text length tags =>
          [text; length] ++ match tags with
                            | Badges l => l
                            | NoBadges falsy => [falsy]
                            end
      | NoContent falsy => [falsy]
      end)%list.

(** The cards under "Sources" / "Search Results", drawn when
    [searchResults.length > 0].  The expressions of all cards are evaluated
    first; React then refuses a card with a plain object among its
    children. *)
Definition render_results (Date_parse : string -> option Z) (st : state)
    : res (list card) :=
  some <- length_gt (searchResults st) 0 ;;
  if some then
    cards <- match searchResults st with
             | VArr l => mapM (render_result Date_parse (useRag st)) l
             | _ => Throw (JsError "TypeError" "searchResults.map is not a function")
             end ;;
    if forallb (fun c => forallb react_child (card_children c)) cards
    then Ok cards
    else Throw (JsError "Error" "Objects are not valid as a React child")
  else Ok [].

(** What the tab shows under the form: the answer card, drawn when
    [ragResponse || streamingAnswer], with the text handed to it, and the
    result cards. *)
Record view := {
  answer_card : option value;
  result_cards : list card
}.

Definition render (Date_parse : string -> option Z) (st : state) : res view :=
  answer <- (if truthy (ragResponse st) || truthy (VStr (streamingAnswer st))
             then text <- displayed_answer st ;; Ok (Some text)
             else Ok None) ;;
  cards <- render_results Date_parse st ;;
  Ok {| answer_card := answer; result_cards := cards |}.

(** The controls of the form. *)
Inductive action :=
| TypeQuery (text : string)
| SelectModel (name : string)
| SwitchRag (checked : bool)
| SwitchStream (checked : bool)
| Slide (pos : Z).

(** [<Slider id="k" min={1} max={10} value={k} onValueChange={setK} />] *)
Definition form_step (st : state) (a : action) : state :=
  match a with
  | TypeQuery text => setQuery text st
  | SelectModel name => setModel name st
  | SwitchRag checked => setUseRag checked st
  | SwitchStream checked => setStreamEnabled checked st
  | Slide pos => Slider.handleChange (Some setK) (Slider.range_input_value 1 10 pos) st
  end.

(** The tab with what its queries have left running: the event sources of
    the streamed ones, each open until a handler closes it, and the promises
    the others await, each until it settles.  A later query leaves the
    earlier ones as they are. *)
Record session := {
  tab : state;
  sources : list Api.EventSource;
  awaited : list (option Api.operation)
}.

(** What can happen to the tab: a control changes; Enter is pressed in the
    query field ([onKeyDown]); the Search button, which is disabled while
    [loading], is clicked; one of the event sources has something to
    dispatch; one of the awaited promises settles. *)
Inductive ui_event :=
| Form (a : action)
| Enter
| Click
| Channel (i : nat) (ev : channel_event)
| Settled (j : nat) (outcome : res value).

Fixpoint set_nth {A} (i : nat) (a : A) (l : list A) : list A :=
  match l, i with
  | [], _ => []
  | _ :: rest, O => a :: rest
  | x :: rest, S i => x :: set_nth i a rest
  end.

(** A call of [handleSearch]: its synchronous part runs, and what it leaves
    running joins the session. *)
Definition submit (e : Api.env)
    (mock_queryStream : Api.QueryRequest -> Api.EventSource) (s : session) : session :=
  match handleSearch e mock_queryStream (tab s) with
  | (st, NoRequest) => {| tab := st; sources := sources s; awaited := awaited s |}
  | (st, Streaming es) =>
      {| tab := st; sources := (sources s ++ [es])%list; awaited := awaited s |}
  | (st, Awaiting op) =>
      {| tab := st; sources := sources s; awaited := (awaited s ++ [Some op])%list |}
  end.

Definition ui_step (e : Api.env)
    (mock_queryStream : Api.QueryRequest -> Api.EventSource)
    (s : session) (ev : ui_event) : session :=
  match ev with
  | Form a => {| tab := form_step (tab s) a; sources := sources s; awaited := awaited s |}
  | Enter => submit e mock_queryStream s
  | Click => if loading (tab s) then s else submit e mock_queryStream s
  | Channel i cev =>
      match nth_error (sources s) i with
      | Some es =>
          let c := dispatch (es, tab s) cev in
          {| tab := snd c; sources := set_nth i (fst c) (sources s); awaited := awaited s |}
      | None => s
      end
  | Settled j outcome =>
      match nth_error (awaited s) j with
      | Some (Some op) =>
          {| tab := handleSearch_resume (tab s) op outcome;
             sources := sources s;
             awaited := set_nth j None (awaited s) |}
      | _ => s
      end
  end.

Definition ui_run (e : Api.env)
    (mock_queryStream : Api.QueryRequest -> Api.EventSource)
    (evs : list ui_event) (s : session) : session :=
  fold_left (ui_step e mock_queryStream) evs s.

Definition start : session := {| tab := initial; sources := []; awaited := [] |}.

End SearchTab.

(* ===================================================================== *)
(** ** components/tabs/search-tab.tsx: UploadTab, the tag editor *)
(* ===================================================================== *)

Module UploadTab.
Import Js.

Record state := {
  files : list string;
  tags : list string;
  tagInput : string
}.

Definition initial : state := {| files := []; tags := []; tagInput := "" |}.

(** [tags.includes(tag)] *)
Definition includes (l : list string) (tag : string) : bool :=
  existsb (String.eqb tag) l.

Definition handleAddTag (key : string) (st : state) : state :=
  if String.eqb key "Enter" || String.eqb key "," then
    let tag := trim (tagInput st) in
    if truthy (VStr tag) && negb (includes (tags st) tag)
    then {| files := files st; tags := (tags st ++ [tag])%list; tagInput := "" |}
    else st
  else st.

Definition removeTag (tag : string) (st : state) : state :=
  {| files := files st;
     tags := filter (fun t => negb (String.eqb t tag)) (tags st);
     tagInput := tagInput st |}.

(** [handleUpload]: with no file nothing is sent; when every [createEntry]
    resolves the files and the tags are reset, otherwise they are kept.
    [created] tells whether all the requests resolved. *)
Definition handleUpload (created : bool) (st : state) : state :=
  match files st with
  | [] => st
  | _ :: _ => if created
              then {| files := []; tags := []; tagInput := tagInput st |}
              else st
  end.

Inductive action :=
| AddFiles (contents : list string)
| TypeTag (text : string)
| KeyDown (key : string)
| ClickTag (tag : string)
| Upload (created : bool).

Definition step (st : state) (a : action) : state :=
  match a with
  | AddFiles contents =>
      {| files := (files st ++ contents)%list; tags := tags st; tagInput := tagInput st |}
  | TypeTag text => {| files := files st; tags := tags st; tagInput := text |}
  | KeyDown key => handleAddTag key st
  | ClickTag tag => removeTag tag st
  | Upload created => handleUpload created st
  end.

Definition run (acts : list action) (st : state) : state := fold_left step acts st.

End UploadTab.

(* ===================================================================== *)
(** ** app/page.tsx: the notification poller of Home *)
(* ===================================================================== *)

Module Home.
Import Js.
Import Toasts.

(** A notification as the poller reads it: a missing field is [None]. *)
Record notification := {
  id : option Z;
  title : option string;
  message : option string;
  status : option string
}.

(** The poller: the ref [lastNotificationId], the toast store, and the calls
    to [api.markNotificationRead] it has made.  [displayed] lists the
    notifications a toast was shown for; it is kept next to [toasts] only to
    state properties and the code never reads it. *)
Record state := {
  lastNotificationId : Z;
  toasts : list Toast;
  displayed : list notification;
  marked : list Z
}.

Definition initial : state :=
  {| lastNotificationId := 0; toasts := []; displayed := []; marked := [] |}.



Definition toast_of (n : notification) : Toast :=
  {| Toasts.title := VStr (match title n with Some t => t | None => "" end);
     description := VStr (match message n with Some m => m | None => "" end);
     variant := match status n with
                | Some s => if String.eqb s "error" then "destructive"
                            else if String.eqb s "warning" then "default"
                            else "default"
                | None => "default"
                end |}.

(** The body of the first [forEach]; a [null] element is [None]. *)
Definition show (st : state) (notif : option notification) : state :=
  match notif with
  | None => st
  | Some n =>
      if truthy_string (title n) then
        let last :=
          match id n with
          | Some i => if negb (i =? 0) && (lastNotificationId st <? i)
                      then i else lastNotificationId st
          | None => lastNotificationId st
          end in
        {| lastNotificationId := last;
           toasts := addToast (toasts st) (toast_of n);
           displayed := (displayed st ++ [n])%list;
           marked := marked st |}
      else st
  end.

(** The body of the second [forEach]. *)
Definition mark (st : state) (notif : option notification) : state :=
  match notif with
  | None => st
  | Some n =>
      match id n with
      | Some i =>
          if negb (i =? 0)
          then {| lastNotificationId := lastNotificationId st; toasts := toasts st;
                  displayed := displayed st; marked := (marked st ++ [i])%list |}
          else st
      | None => st
      end
  end.

(** [pollNotifications] once [api.getNotifications] has settled: a rejection
    is logged and changes nothing; [Ok None] is a response without an array
    under [notifications]. *)
Definition pollNotifications_settle (st : state)
    (response : res (option (list (option notification)))) : state :=
  match response with
  | Throw _ => st
  | Ok None => st
  | Ok (Some notifications) =>
      fold_left mark notifications (fold_left show notifications st)
  end.

(** The page over time.  The interval timer starts a poll every two seconds
    whether or not the previous one has settled, so several requests can be
    in flight; [issued] lists the [since_id] of every request made and
    [in_flight] those not answered yet (answered oldest first). *)
Record page := {
  poller : state;
  issued : list Z;
  in_flight : list Z
}.

Inductive event :=
| Tick
| Reply (response : res (option (list (option notification)))).

Definition step (p : page) (ev : event) : page :=
  match ev with
  | Tick =>
      {| poller := poller p;
         issued := (issued p ++ [lastNotificationId (poller p)])%list;
         in_flight := (in_flight p ++ [lastNotificationId (poller p)])%list |}
  | Reply response =>
      match in_flight p with
      | [] => p
      | _ :: rest =>
          {| poller := pollNotifications_settle (poller p) response;
             issued := issued p;
             in_flight := rest |}
      end
  end.

Definition run (evs : list event) (p : page) : page := fold_left step evs p.






End Home.

(* ===================================================================== *)
(** ** The notification bus *)
(* ===================================================================== *)

Module Bus.

(** Modelled from the spec: the Event/Notification Bus of section 4.6, whose
    implementation is not among the front end sources.  An append-only log
    of (id, kind, message, timestamp, read flag) with monotonically
    increasing ids. *)
Record entry := {
  id : Z;
  kind : string;
  message : string;
  timestamp : Z;
  read : bool
}.

(** Modelled from the spec: ids increase monotonically, so the next id is
    one more than the largest id of the log. *)
Definition next_id (log : list entry) : Z :=
  1 + fold_right (fun e m => Z.max (id e) m) 0 log.

(** Modelled from the spec: [publish(kind, message) -> id]. *)
Definition publish (kind message : string) (now : Z) (log : list entry)
    : list entry * Z :=
  ((log ++ [{| id := next_id log; kind := kind; message := message;
               timestamp := now; read := false |}])%list,
   next_id log).


(** Modelled from the spec: setting the read flag of an entry. *)
Definition set_read (e : entry) : entry :=
  {| id := id e; kind := kind e; message := message e;
     timestamp := timestamp e; read := true |}.

(** Modelled from the spec: [mark_read(id)]. *)
Definition mark_read (i : Z) (log : list entry) : list entry :=
  map (fun e => if id e =? i then set_read e else e) log.

(** Modelled from the spec: [mark_all_read()]. *)
Definition mark_all_read (log : list entry) : list entry := map set_read log.

(** Modelled from the spec: the operations that change the log. *)
Inductive command :=
| Publish (kind message : string) (now : Z)
| MarkRead (i : Z)
| MarkAllRead.

(** Modelled from the spec: one operation applied to the log. *)
Definition apply (log : list entry) (c : command) : list entry :=
  match c with
  | Publish kind message now => fst (publish kind message now log)
  | MarkRead i => mark_read i log
  | MarkAllRead => mark_all_read log
  end.

(** Modelled from the spec: the log after a history of operations, from the
    empty log. *)
Definition run (cs : list command) : list entry := fold_left apply cs [].

End Bus.

(* ===================================================================== *)
(** ** The producer of the streamed answer *)
(* ===================================================================== *)

Module Engine.
Import Js.

(** Modelled from the spec: the error taxonomy of section 7. *)
Inductive error_kind :=
| ModelUnavailable
| ModelTimeout
| InvalidResponse
| DimensionMismatch
| EntryNotFound
| IndexCorrupt.

(** Modelled from the spec: a Retrieval Candidate, [(entry_id, score)]; the
    score is kept as the text of the number. *)
Record candidate := {
  entry_id : Z;
  score : string
}.

(** Modelled from the spec: the events of the streaming contract of section
    4.5. *)
Inductive event :=
| Fragment (content : string)
| Sources (candidates : list candidate)
| Done
| Failed (kind : error_kind) (message : string).

(** Modelled from the spec: how embedding, retrieval and generation went. *)
Inductive outcome :=
| Success
| Failure (kind : error_kind) (message : string).

(** Modelled from the spec: [answer(query, k, model)] of the Query Engine,
    which is not among the front end sources.  Given the fragments the
    Generation Client produced and the candidates used as context: the
    fragments in order, then the sources event and the done event; or, on a
    failure, the fragments produced so far and the error event. *)
Definition answer (fragments : list string) (candidates : list candidate)
    (o : outcome) : list event :=
  match o with
  | Success => (map Fragment fragments ++ [Sources candidates; Done])%list
  | Failure kind message => (map Fragment fragments ++ [Failed kind message])%list
  end.

(** Modelled from the spec: the terminal events, done and error. *)
Definition is_terminal (ev : event) : bool :=
  match ev with
  | Done | Failed _ _ => true
  | _ => false
  end.

(** Modelled from the spec: the name of an error kind. *)
Definition kind_name (kind : error_kind) : string :=
  match kind with
  | ModelUnavailable => "ModelUnavailable"
  | ModelTimeout => "ModelTimeout"
  | InvalidResponse => "InvalidResponse"
  | DimensionMismatch => "DimensionMismatch"
  | EntryNotFound => "EntryNotFound"
  | IndexCorrupt => "IndexCorrupt"
  end.

(** Modelled from the spec: a candidate in the sources event, bound to its
    entry id and score and not to the text of the entry. *)
Definition candidate_props (c : candidate) : list (string * value) :=
  [("entry_id", VNum (Z_to_string (entry_id c))); ("score", VNum (score c))].

(** Modelled from the spec: the same as a value. *)
Definition candidate_value (c : candidate) : value := VObj (candidate_props c).

(** Modelled from the spec: the frame of an event on the response channel
    (section 6): a [type] discriminator, written with the name section 6
    gives the event type, and the payload under [content]; the error event
    carries its kind and its message. *)
Definition frame (ev : event) : value :=
  match ev with
  | Fragment content => VObj [("type", VStr "content fragment"); ("content", VStr content)]
  | Sources candidates =>
      VObj [("type", VStr "sources"); ("content", VArr (map candidate_value candidates))]
  | Done => VObj [("type", VStr "done")]
  | Failed kind message =>
      VObj [("type", VStr "error"); ("content", VStr message);
            ("kind", VStr (kind_name kind))]
  end.

(** Modelled from the spec: the events as the event source of the consumer
    delivers them, one message per frame. *)
Definition on_channel (evs : list event) : list SearchTab.channel_event :=
  map (fun ev => SearchTab.Message (Ok (frame ev))) evs.

End Engine.

(* ===================================================================== *)
(** ** Reading a stream of channel events *)
(* ===================================================================== *)

(** The notions the properties of the streamed answer are stated with. *)
Module Stream.
Import Js.
Import SearchTab.

(** The discriminator of a message ([undefined] when there is none to
    read). *)
Definition message_type (parsed : res value) : value :=
  match parsed with
  | Ok data => match get data "type" with Ok t => t | Throw _ => VUndefined end
  | Throw _ => VUndefined
  end.

(** A terminal event: a done or an error message, or the failure of the
    connection. *)
Definition is_terminal (ev : channel_event) : bool :=
  match ev with
  | Message parsed =>
      strict_eq_string (message_type parsed) "done"
      || strict_eq_string (message_type parsed) "error"
  | ConnectionError => true
  end.

(** The payload of a content fragment, as text; empty for any other event. *)
Definition chunk_text (ev : channel_event) : string :=
  match ev with
  | Message (Ok data) =>
      if strict_eq_string (message_type (Ok data)) "answer_chunk"
      then match get data "content" with Ok content => to_string content | Throw _ => "" end
      else ""
  | _ => ""
  end.

(** The payloads of the fragments that arrive before the first terminal
    event, concatenated in arrival order. *)
Fixpoint arrived_text (evs : list channel_event) : string :=
  match evs with
  | [] => ""
  | ev :: rest => if is_terminal ev then "" else chunk_text ev ++ arrived_text rest
  end.

(** The events up to the first terminal one, included. *)
Fixpoint up_to_terminal (evs : list channel_event) : list channel_event :=
  match evs with
  | [] => []
  | ev :: rest => if is_terminal ev then [ev] else ev :: up_to_terminal rest
  end.






(** A field of a message ([undefined] when there is none to read). *)
Definition field (data : value) (name : string) : value :=
  match get data name with Ok v => v | Throw _ => VUndefined end.

Definition open_source (u : string * Api.endpoint) : Api.EventSource :=
  {| Api.url := u; Api.closed := false |}.

End Stream.

(* ===================================================================== *)
(** ** Sample data *)
(* ===================================================================== *)

Module Sample.
Import Js.

Definition no_env : Api.env :=
  {| Api.NEXT_PUBLIC_API_BASE_URL := None; Api.NEXT_PUBLIC_USE_MOCK_API := None |}.

Definition not_found : Api.response :=
  {| Api.ok := false; Api.status := 404; Api.statusText := "Not Found";
     Api.json := Ok (VObj [("detail", VStr "Not Found")]) |}.



(** A date parser that knows the timestamp of the samples, read as UTC. *)
Definition Date_parse (s : string) : option Z :=
  if String.eqb s "2025-01-01T10:00:00" then Some 1735725600000 else None.

(** A content fragment as the handler of the tab reads one. *)
Definition chunk (text : string) : SearchTab.channel_event :=
  SearchTab.Message (Ok (VObj [("type", VStr "answer_chunk"); ("content", VStr text)])).

(** A search result with its entry. *)
Definition a_result : value :=
  VObj [("entry", VObj [("id", VNum "1"); ("content", VStr "cats are mammals");
                        ("source", VStr "clipboard");
                        ("timestamp", VStr "2025-01-01T10:00:00");
                        ("tags", VArr [VStr "animals"])]);
        ("relevance_score", VNum "0.91")].

Definition cats_request : Api.QueryRequest :=
  {| Api.qr_query := "cats"; Api.qr_model := "llama3.1:8b"; Api.qr_k := Int 5 |}.

Definition local_stream : string * Api.endpoint :=
  ("http://localhost:8000",
   Api.with_search "/query/stream" (Api.queryStream_searchParams cats_request)).

(** A mock that opens no connection. *)
Definition no_mock_stream (request : Api.QueryRequest) : Api.EventSource :=
  {| Api.url := ("mock", Api.plain ""); Api.closed := false |}.


End Sample.

(** The k of the form is an integer from 1 to 10. *)
Definition k_in_range (st : SearchTab.state) : Prop :=
  exists z, SearchTab.k st = Js.Int z /\ 1 <= z <= 10.



(** One optional parameter: appended when its guard holds. *)
Definition pair_if (b : bool) (name val : string) : Api.URLSearchParams :=
  if b then [(name, val)] else [].

Definition string_or_empty (o : option string) : string :=
  match o with Some s => s | None => "" end.

Definition number_or_NaN (o : option Js.number) : Js.number :=
  match o with Some n => n | None => Js.NaN end.

(* ===================================================================== *)
(** ** More string primitives *)
(* ===================================================================== *)

Module JsString.

(** A code unit below 256 in lower case: A to Z, and the accented capitals
    (192 to 222, the multiplication sign 215 apart). *)
Definition lower (c : ascii) : ascii :=
  let n := N_of_ascii c in
  if ((65 <=? n) && (n <=? 90)
      || (192 <=? n) && (n <=? 222) && negb (n =? 215))%N
  then ascii_of_N (n + 32)
  else c.

(** [s.toLowerCase()] *)
Fixpoint toLowerCase (s : string) : string :=
  match s with
  | EmptyString => EmptyString
  | String c rest => String (lower c) (toLowerCase rest)
  end.

(** [s.includes(sub)] *)
Fixpoint includes (s sub : string) : bool :=
  prefix sub s
  || match s with
     | String _ rest => includes rest sub
     | EmptyString => false
     end.

(** [s.endsWith(suffix)] *)
Definition endsWith (s suffix : string) : bool :=
  (String.length suffix <=? String.length s)%nat
  && String.eqb
       (substring (String.length s - String.length suffix) (String.length suffix) s)
       suffix.

(** [s.length > n ? s.substring(0, n) + "..." : s], the preview of a long
    text. *)
Definition preview (n : nat) (s : string) : string :=
  if (n <? String.length s)%nat then substring 0 n s ++ "..." else s.

End JsString.

(* ===================================================================== *)
(** ** lib/hooks/use-toast.ts and components/ui/toast.tsx, with the ids *)
(* ===================================================================== *)

Module ToastStore.

(** [Omit<Toast, "id">]: what a caller of [toast(...)] gives. *)
Record props := {
  title : option string;
  description : option string;
  variant : option string
}.

Record Toast := {
  id : string;
  shown : props
}.

(** [addToast]; [id] is the outcome of
    [Math.random().toString(36).substring(7)]. *)
Definition addToast (id : string) (toast : props) (toasts : list Toast) : list Toast :=
  (toasts ++ [{| id := id; shown := toast |}])%list.

(** [removeToast]: [toasts.filter((t) => t.id !== id)] *)
Definition removeToast (i : string) (toasts : list Toast) : list Toast :=
  filter (fun t => negb (String.eqb (id t) i)) toasts.

(** [variantStyles[toast.variant || "default"]] for the variants of the
    [Toast] type; [None] for any other key. *)
Definition variantStyles (key : string) : option string :=
  if String.eqb key "default" then Some "border-border bg-card"
  else if String.eqb key "success"
       then Some "border-green-500 bg-green-50 dark:bg-green-950"
  else if String.eqb key "warning"
       then Some "border-amber-500 bg-amber-50 dark:bg-amber-950"
  else if String.eqb key "destructive"
       then Some "border-red-500 bg-red-50 dark:bg-red-950"
  else None.

Definition style_of (toast : props) : option string :=
  variantStyles (match variant toast with
                 | Some v => if String.eqb v "" then "default" else v
                 | None => "default"
                 end).

Definition error (description : string) : props :=
  {| title := Some "Error"; description := Some description;
     variant := Some "destructive" |}.

End ToastStore.

(* ===================================================================== *)
(** ** components/tabs/search-tab.tsx: UploadTab, the files *)
(* ===================================================================== *)

Module UploadFiles.
Import Js.

(** A [File] of the browser: [text] is what [file.text()] settles to. *)
Record File := {
  file_name : string;
  file_size : Z;
  file_type : string;
  file_text : res string
}.

Record UploadedFile := {
  name : string;
  size : Z;
  type : string;
  content : string
}.

Record state := {
  files : list UploadedFile;
  tags : list string;
  uploading : bool;
  toasts : list ToastStore.props
}.

Definition toast (t : ToastStore.props) (st : state) : state :=
  {| files := files st; tags := tags st; uploading := uploading st;
     toasts := (toasts st ++ [t])%list |}.

(** [file.name.match(/\.(txt|pdf|docx)$/i)]: the name ends with one of the
    three extensions, in any letter case. *)
Definition supported (file_name : string) : bool :=
  let n := JsString.toLowerCase file_name in
  JsString.endsWith n ".txt" || JsString.endsWith n ".pdf" || JsString.endsWith n ".docx".

(** The body of the [for] loop of [handleFiles]. *)
Definition read (file : File) : res UploadedFile :=
  content <- file_text file ;;
  Ok {| name := file_name file; size := file_size file; type := file_type file;
        content := content |}.

(** [handleFiles]: when reading a file fails the function stops before
    [setFiles]. *)
Definition handleFiles (fileList : list File) (st : state) : state :=
  let validFiles := filter (fun file => supported (file_name file)) fileList in
  let st :=
    if negb (length validFiles =? length fileList)%nat
    then toast {| ToastStore.title := Some "Warning";
                  ToastStore.description :=
                    Some "Only TXT, PDF, and DOCX files are supported";
                  ToastStore.variant := Some "warning" |} st
    else st in
  match mapM read validFiles with
  | Ok uploadedFiles =>
      {| files := (files st ++ uploadedFiles)%list; tags := tags st;
         uploading := uploading st; toasts := toasts st |}
  | Throw _ => st
  end.

(** [l.filter((_, i) => keep(i))], counting from [start]. *)
Fixpoint filter_index {A} (keep : nat -> bool) (start : nat) (l : list A) : list A :=
  match l with
  | [] => []
  | a :: rest =>
      if keep start then a :: filter_index keep (S start) rest
      else filter_index keep (S start) rest
  end.

(** [removeFile]: [prev.filter((_, i) => i !== index)] *)
Definition removeFile (index : nat) (st : state) : state :=
  {| files := filter_index (fun i => negb (i =? index)%nat) 0 (files st);
     tags := tags st; uploading := uploading st; toasts := toasts st |}.

(** The argument of [api.createEntry] for one file. *)
Definition entry_request (tags : list string) (file : UploadedFile) : Api.operation :=
  Api.createEntry
    {| Api.ur_text := content file;
       Api.ur_source := "upload";
       Api.ur_tags := match tags with [] => None | _ :: _ => Some tags end |}.

(** The [for] loop of [handleUpload]: the requests are awaited one after
    the other and the first rejection ends the loop.  [settle i op] is what
    the [i]-th call settles to.  The result is the list of requests made and
    the rejection, if any. *)
Fixpoint upload_all (settle : nat -> Api.operation -> res value) (i : nat)
    (ops : list Api.operation) : list Api.operation * option thrown :=
  match ops with
  | [] => ([], None)
  | op :: rest =>
      match settle i op with
      | Ok _ =>
          let r := upload_all settle (S i) rest in
          (op :: fst r, snd r)
      | Throw e => ([op], Some e)
      end
  end.

Definition uploaded_message (n : nat) : string :=
  Z_to_string (Z.of_nat n) ++ " " ++ (if (n =? 1)%nat then "file" else "files")
  ++ " uploaded successfully".

(** [handleUpload], with the requests it made. *)
Definition handleUpload (settle : nat -> Api.operation -> res value) (st : state)
    : state * list Api.operation :=
  match files st with
  | [] => (toast (ToastStore.error "Please select files to upload") st, [])
  | _ :: _ =>
      let r := upload_all settle 0 (map (entry_request (tags st)) (files st)) in
      match snd r with
      | None =>
          ({| files := []; tags := []; uploading := false;
              toasts := (toasts st
                         ++ [{| ToastStore.title := Some "Success";
                                ToastStore.description :=
                                  Some (uploaded_message (length (files st)));
                                ToastStore.variant := Some "success" |}])%list |},
           fst r)
      | Some _ =>
          ({| files := files st; tags := tags st; uploading := false;
              toasts := (toasts st ++ [ToastStore.error "Failed to upload files"])%list |},
           fst r)
      end
  end.

End UploadFiles.

(* ===================================================================== *)
(** ** components/tabs/settings-tab.tsx: DataTab *)
(* ===================================================================== *)

Module DataTab.
Import Js.

Record DataEntry := {
  id : Z;
  text : string;
  entry_source : string;
  timestamp : string;
  tags : option (list string);
  char_count : Z
}.

Record state := {
  entries : list DataEntry;
  loading : bool;
  source : string;
  tag : string;
  limit : number;
  deleteId : option Z;
  expandedId : option Z;
  toasts : list ToastStore.props
}.

Definition initial : state :=
  {| entries := []; loading := false; source := ""; tag := ""; limit := Int 50;
     deleteId := None; expandedId := None; toasts := [] |}.

Definition setEntries (v : list DataEntry) (st : state) : state :=
  {| entries := v; loading := loading st; source := source st; tag := tag st;
     limit := limit st; deleteId := deleteId st; expandedId := expandedId st;
     toasts := toasts st |}.

Definition setLoading (v : bool) (st : state) : state :=
  {| entries := entries st; loading := v; source := source st; tag := tag st;
     limit := limit st; deleteId := deleteId st; expandedId := expandedId st;
     toasts := toasts st |}.

Definition setSource (v : string) (st : state) : state :=
  {| entries := entries st; loading := loading st; source := v; tag := tag st;
     limit := limit st; deleteId := deleteId st; expandedId := expandedId st;
     toasts := toasts st |}.

Definition setTag (v : string) (st : state) : state :=
  {| entries := entries st; loading := loading st; source := source st; tag := v;
     limit := limit st; deleteId := deleteId st; expandedId := expandedId st;
     toasts := toasts st |}.

Definition setLimit (v : number) (st : state) : state :=
  {| entries := entries st; loading := loading st; source := source st; tag := tag st;
     limit := v; deleteId := deleteId st; expandedId := expandedId st;
     toasts := toasts st |}.

Definition setDeleteId (v : option Z) (st : state) : state :=
  {| entries := entries st; loading := loading st; source := source st; tag := tag st;
     limit := limit st; deleteId := v; expandedId := expandedId st;
     toasts := toasts st |}.

Definition setExpandedId (v : option Z) (st : state) : state :=
  {| entries := entries st; loading := loading st; source := source st; tag := tag st;
     limit := limit st; deleteId := deleteId st; expandedId := v;
     toasts := toasts st |}.

Definition toast (t : ToastStore.props) (st : state) : state :=
  {| entries := entries st; loading := loading st; source := source st; tag := tag st;
     limit := limit st; deleteId := deleteId st; expandedId := expandedId st;
     toasts := (toasts st ++ [t])%list |}.

(** [parseInt(e.target.value) || 50], the [onChange] of the limit input. *)
Definition limit_of_input (target_value : string) : number :=
  match parseInt target_value with
  | Int z => if z =? 0 then Int 50 else Int z
  | NaN => Int 50
  end.

(** The [params] object [fetchData] builds. *)
Definition fetch_params (st : state) : Api.getData_params :=
  {| Api.gd_source := if truthy (VStr (source st)) then Some (source st) else None;
     Api.gd_tag := if truthy (VStr (tag st)) then Some (tag st) else None;
     Api.gd_limit := Some (limit st) |}.

(** [fetchData]; [settled] is what [api.getData(params)] settles to. *)
Definition fetchData (settled : res (list DataEntry)) (st : state)
    : state * Api.operation :=
  let op := Api.getData (Some (fetch_params st)) in
  let st := setLoading true st in
  let st :=
    match settled with
    | Ok data => setEntries data st
    | Throw _ => toast (ToastStore.error "Failed to load data") st
    end in
  (setLoading false st, op).

(** [handleDelete], with the requests it made. *)
Definition handleDelete (settle : Api.operation -> res value) (st : state)
    : state * list Api.operation :=
  match deleteId st with
  | None => (st, [])
  | Some d =>
      match settle (Api.deleteEntry d) with
      | Ok _ =>
          let st := setEntries (filter (fun e => negb (id e =? d)) (entries st)) st in
          let st := toast {| ToastStore.title := Some "Success";
                             ToastStore.description := Some "Entry deleted successfully";
                             ToastStore.variant := Some "success" |} st in
          (setDeleteId None st, [Api.deleteEntry d])
      | Throw _ =>
          (toast (ToastStore.error "Failed to delete entry") st, [Api.deleteEntry d])
      end
  end.

(** [isExpanded]: [expandedId === entry.id] *)
Definition isExpanded (st : state) (entry : DataEntry) : bool :=
  match expandedId st with
  | Some i => i =? id entry
  | None => false
  end.

Definition displayText (st : state) (entry : DataEntry) : string :=
  if isExpanded st entry then text entry else JsString.preview 200 (text entry).

(** The "Read more" / "Show less" button is rendered when
    [entry.text.length > 200]. *)
Definition has_toggle (entry : DataEntry) : bool :=
  (200 <? String.length (text entry))%nat.

(** The [onClick] of that button. *)
Definition toggle (entry : DataEntry) (st : state) : state :=
  setExpandedId (if isExpanded st entry then None else Some (id entry)) st.

Inductive action :=
| SelectSource (value : string)
| TypeTag (value : string)
| TypeLimit (value : string)
| Apply (settled : res (list DataEntry))
| AskDelete (entry : DataEntry)
| CancelDelete
| ConfirmDelete (settle : Api.operation -> res value)
| Toggle (entry : DataEntry).

Definition step (st : state) (a : action) : state :=
  match a with
  | SelectSource value => setSource value st
  | TypeTag value => setTag value st
  | TypeLimit value => setLimit (limit_of_input value) st
  | Apply settled => fst (fetchData settled st)
  | AskDelete entry => setDeleteId (Some (id entry)) st
  | CancelDelete => setDeleteId None st
  | ConfirmDelete settle => fst (handleDelete settle st)
  | Toggle entry => toggle entry st
  end.

Definition run (acts : list action) (st : state) : state := fold_left step acts st.

End DataTab.

(* ===================================================================== *)
(** ** components/tabs/settings-tab.tsx: SettingsTab *)
(* ===================================================================== *)

Module SettingsTab.
Import Js.

Record Keybind := {
  kb_id : Z;
  key_sequence : string;
  action : string;
  kb_platform : string
}.

Inductive Platform :=
| macos
| windows.

Record state := {
  keybinds : list Keybind;
  loading : bool;
  platform : Platform;
  newKeySequence : string;
  newAction : string;
  adding : bool;
  toasts : list ToastStore.props
}.

Definition initial : state :=
  {| keybinds := []; loading := true; platform := macos; newKeySequence := "";
     newAction := "capture_selected"; adding := false; toasts := [] |}.

Definition toast (t : ToastStore.props) (st : state) : state :=
  {| keybinds := keybinds st; loading := loading st; platform := platform st;
     newKeySequence := newKeySequence st; newAction := newAction st;
     adding := adding st; toasts := (toasts st ++ [t])%list |}.

(** [detectPlatform], from [window.navigator.userAgent]. *)
Definition detectPlatform (userAgent : string) : Platform :=
  if JsString.includes (JsString.toLowerCase userAgent) "mac" then macos else windows.

(** The predicate of the [filter] of [platformKeybinds]. *)
Definition on_platform (p : Platform) (kb : Keybind) : bool :=
  let isMacOS := JsString.includes (key_sequence kb) "<cmd>" in
  let isWindowsLinux :=
    JsString.includes (key_sequence kb) "<ctrl>"
    && negb (JsString.includes (key_sequence kb) "<cmd>") in
  match p with
  | macos => isMacOS
  | windows => isWindowsLinux
  end.

Definition platformKeybinds (st : state) : list Keybind :=
  filter (on_platform (platform st)) (keybinds st).

(** [setPlatform], the [onClick] of the two tab triggers. *)
Definition setPlatform (p : Platform) (st : state) : state :=
  {| keybinds := keybinds st; loading := loading st; platform := p;
     newKeySequence := newKeySequence st; newAction := newAction st;
     adding := adding st; toasts := toasts st |}.

(** [fetchKeybinds]; [settled] is what [api.getKeybinds()] settles to. *)
Definition fetchKeybinds (settled : res (list Keybind)) (st : state) : state :=
  let st :=
    match settled with
    | Ok data =>
        {| keybinds := data; loading := loading st; platform := platform st;
           newKeySequence := newKeySequence st; newAction := newAction st;
           adding := adding st; toasts := toasts st |}
    | Throw _ => toast (ToastStore.error "Failed to load keybinds") st
    end in
  {| keybinds := keybinds st; loading := false; platform := platform st;
     newKeySequence := newKeySequence st; newAction := newAction st;
     adding := adding st; toasts := toasts st |}.

(** The request [handleAddKeybind] makes for the form. *)
Definition add_request (st : state) : Api.operation :=
  if String.eqb (newAction st) "capture_selected"
  then Api.addSelectedTextKeybind (newKeySequence st)
  else Api.addScreenshotKeybind (newKeySequence st).

(** [handleAddKeybind], with the requests it made; [settle] tells what the
    request settles to. *)
Definition handleAddKeybind (settle : Api.operation -> res Keybind) (st : state)
    : state * list Api.operation :=
  if negb (truthy (VStr (newKeySequence st))) then
    (toast (ToastStore.error "Please enter a key sequence") st, [])
  else
    match settle (add_request st) with
    | Ok keybind =>
        ({| keybinds := (keybinds st ++ [keybind])%list; loading := loading st;
            platform := platform st; newKeySequence := "";
            newAction := "capture_selected"; adding := false;
            toasts := (toasts st
                       ++ [{| ToastStore.title := Some "Success";
                              ToastStore.description :=
                                Some "Keybind added successfully. Restart the capture service for changes to take effect.";
                              ToastStore.variant := None |}])%list |},
         [add_request st])
    | Throw _ =>
        ({| keybinds := keybinds st; loading := loading st; platform := platform st;
            newKeySequence := newKeySequence st; newAction := newAction st;
            adding := false;
            toasts := (toasts st ++ [ToastStore.error "Failed to add keybind"])%list |},
         [add_request st])
    end.

End SettingsTab.

(* ===================================================================== *)
(** ** The sidebar with the capture control *)
(* ===================================================================== *)

Module Sidebar.
Import Js.

(** [SystemStatus], with the fields the sidebar reads. *)
Record database_status := {
  total_entries : Z;
  embedded_entries : Z;
  pending_embeddings : Z
}.

Record vector_store_status := {
  total_vectors : Z;
  dimension : Z
}.

Record SystemStatus := {
  capturing : bool;
  database : database_status;
  vector_store : vector_store_status
}.

Record state := {
  status : option SystemStatus;
  refreshing : bool;
  toggling : bool
}.

Definition initial : state := {| status := None; refreshing := false; toggling := false |}.

(** [fetchStatus]; [settled] is what [api.getStatus()] settles to.  A
    rejection is logged. *)
Definition fetchStatus (settled : res SystemStatus) (st : state) : state :=
  match settled with
  | Ok data => {| status := Some data; refreshing := refreshing st; toggling := toggling st |}
  | Throw _ => st
  end.

Definition setToggling (v : bool) (st : state) : state :=
  {| status := status st; refreshing := refreshing st; toggling := v |}.

(** [handleToggleCapture], with the requests it made; [settle] tells what
    the start or stop request settles to and [fetched] what the following
    [api.getStatus()] does. *)
Definition handleToggleCapture (settle : Api.operation -> res value)
    (fetched : res SystemStatus) (st : state) : state * list Api.operation :=
  match status st with
  | None => (st, [])
  | Some s =>
      let op := if capturing s then Api.stopCapture else Api.startCapture in
      let st := setToggling true st in
      match settle op with
      | Ok _ => (setToggling false (fetchStatus fetched st), [op; Api.getStatus])
      | Throw _ => (setToggling false st, [op])
      end
  end.

End Sidebar.

(* ===================================================================== *)
(** ** app/page.tsx and components/layout/navigation-tabs.tsx: the tabs *)
(* ===================================================================== *)

Module Layout.

(** The [tabs] of [NavigationTabs]: id and label. *)
Definition tabs : list (string * string) :=
  [("search", "Search & Query"); ("data", "Data Browser");
   ("upload", "Upload"); ("settings", "Settings")].

(** [useState("search")] *)
Definition initial : string := "search".

(** A click on the [i]-th button: [onTabChange(tab.id)]. *)
Definition click (currentTab : string) (i : nat) : string :=
  match nth_error tabs i with
  | Some tab => fst tab
  | None => currentTab
  end.

(** The buttons drawn as active: [currentTab === tab.id]. *)
Definition active (currentTab : string) : list (string * string) :=
  filter (fun tab => String.eqb currentTab (fst tab)) tabs.

(** The components [Home] renders inside [main]. *)
Definition panels (currentTab : string) : list string :=
  ((if String.eqb currentTab "search" then ["SearchTab"] else [])
   ++ (if String.eqb currentTab "data" then ["DataTab"] else [])
   ++ (if String.eqb currentTab "upload" then ["UploadTab"] else [])
   ++ (if String.eqb currentTab "settings" then ["SettingsTab"] else []))%list.

Definition clicks (picks : list nat) : string := fold_left click picks initial.

End Layout.

(* ===================================================================== *)
(** ** Further notions for the properties *)
(* ===================================================================== *)

Module Notions.
Import Js.

(** An optional field that is not [undefined]. *)
Definition supplied {A} (o : option A) : bool :=
  match o with Some _ => true | None => false end.

Definition bool_or_false (o : option bool) : bool :=
  match o with Some b => b | None => false end.

(** A string of white space only. *)
Fixpoint blank (s : string) : bool :=
  match s with
  | EmptyString => true
  | String c rest => is_whitespace c && blank rest
  end.

(** The toast a stream of channel events leaves: the one of its first
    terminal event, when that is an error message or a failure of the
    connection. *)
Fixpoint stream_toast (evs : list SearchTab.channel_event) : list Toasts.Toast :=
  match evs with
  | [] => []
  | ev :: rest =>
      if Stream.is_terminal ev then
        match ev with
        | SearchTab.ConnectionError =>
            [SearchTab.error_toast (VStr "Streaming failed")]
        | SearchTab.Message parsed =>
            if strict_eq_string (Stream.message_type parsed) "done" then []
            else [SearchTab.error_toast
                    (or_else (match parsed with
                              | Ok data =>
                                  match get data "content" with
                                  | Ok content => content
                                  | Throw _ => VUndefined
                                  end
                              | Throw _ => VUndefined
                              end) (VStr "Streaming failed"))]
        end
      else stream_toast rest
  end.

(** The ids [pollNotifications] asks to mark as read for a response. *)
Definition ids_to_mark (notifications : list (option Home.notification)) : list Z :=
  flat_map (fun notif =>
              match notif with
              | Some n => match Home.id n with
                          | Some i => if i =? 0 then [] else [i]
                          | None => []
                          end
              | None => []
              end) notifications.

(** The notifications of a response a toast is shown for. *)
Definition titled (notifications : list (option Home.notification))
    : list Home.notification :=
  flat_map (fun notif =>
              match notif with
              | Some n => if truthy_string (Home.title n) then [n] else []
              | None => []
              end) notifications.

(** What a session has running: its open event sources and the promises it
    still awaits. *)
Definition running (s : SearchTab.session) : nat :=
  (length (filter (fun es => negb (Api.closed es)) (SearchTab.sources s))
   + length (filter supplied (SearchTab.awaited s)))%nat.

(** A run in which Enter is never pressed: the form is submitted through the
    Search button alone. *)
Definition by_button (evs : list SearchTab.ui_event) : bool :=
  forallb (fun ev => match ev with SearchTab.Enter => false | _ => true end) evs.

(** The events that event source [i] dispatches in a run, in order. *)
Definition delivered (i : nat) (evs : list SearchTab.ui_event)
    : list SearchTab.channel_event :=
  flat_map (fun ev => match ev with
                      | SearchTab.Channel j cev => if Nat.eqb j i then [cev] else []
                      | _ => []
                      end) evs.

(** Whether event source [i] of a session is there and open. *)
Definition open_at (sources : list Api.EventSource) (i : nat) : bool :=
  match nth_error sources i with
  | Some es => negb (Api.closed es)
  | None => false
  end.

(** A run in which nothing happens but event sources dispatching. *)
Definition dispatching (evs : list (nat * SearchTab.channel_event))
    : list SearchTab.ui_event :=
  map (fun p => SearchTab.Channel (fst p) (snd p)) evs.

(** A run in which promise [j] does not settle. *)
Definition leaves_pending (j : nat) (evs : list SearchTab.ui_event) : bool :=
  forallb (fun ev => match ev with
                     | SearchTab.Settled j' _ => negb (Nat.eqb j' j)
                     | _ => true
                     end) evs.

End Notions.

(** The state in which a submit through the button finds the tab, and leaves
    it: at most one query running, and none when the tab is not loading. *)
Definition one_at_a_time (s : SearchTab.session) : Prop :=
  (Notions.running s <= 1)%nat
  /\ (SearchTab.loading (SearchTab.tab s) = false -> Notions.running s = 0%nat).

(** A session with nothing running: every event source is closed and every
    promise has settled. *)
Definition quiet (sources : list Api.EventSource)
    (awaited : list (option Api.operation)) : Prop :=
  (forall es, In es sources -> Api.closed es = true)
  /\ (forall o, In o awaited -> o = None).

(* ===================================================================== *)
(** * Properties *)
(* ===================================================================== *)

(** ** The primitives on examples *)

Example trim_example : Js.trim "  local recall  " = "local recall".
Proof. reflexivity. Qed.

Example trim_blank : Js.trim "   " = "".
Proof. reflexivity. Qed.

Example parseInt_examples :
  Js.parseInt "7" = Js.Int 7
  /\ Js.parseInt "  -12px" = Js.Int (-12)
  /\ Js.parseInt "0x1F" = Js.Int 31
  /\ Js.parseInt "k" = Js.NaN
  /\ Js.parseInt "" = Js.NaN.
Proof. repeat split; reflexivity. Qed.

Example to_string_examples :
  Js.to_string (Js.VStr "cats") = "cats"
  /\ Js.to_string Js.VUndefined = "undefined"
  /\ Js.to_string (Js.VArr [Js.VNum "1"; Js.VNull; Js.VArr [Js.VStr "a"; Js.VStr "b"]])
     = "1,,a,b"
  /\ Js.to_string (Js.VObj [("a", Js.VNum "1")]) = "[object Object]".
Proof. repeat split; reflexivity. Qed.

Example getNotifications_request :
  Api.getNotifications_searchParams
    (Some {| Api.since_id := Some (Js.Int 0); Api.unread_only := Some false;
             Api.limit := Some (Js.Int 0) |})
  = [("since_id", "0"); ("unread_only", "false")].
Proof. reflexivity. Qed.

Example slider_examples :
  Slider.range_input_value 1 10 0 = "1"
  /\ Slider.range_input_value 1 10 4 = "4"
  /\ Slider.range_input_value 1 10 25 = "10".
Proof. repeat split; reflexivity. Qed.

(** ** Strings and lists *)

Lemma includes_In (l : list string) (tag : string) :
  UploadTab.includes l tag = true <-> In tag l.
Proof.
  unfold UploadTab.includes. rewrite existsb_exists. split.
  - intros [x [Hx Heq]]. apply String.eqb_eq in Heq. now subst.
  - intros H. exists tag. split; [assumption | apply String.eqb_refl].
Qed.

Lemma NoDup_snoc {A} (l : list A) (a : A) :
  NoDup l -> ~ In a l -> NoDup (l ++ [a])%list.
Proof.
  intros Hl Ha.
  apply (proj2 (NoDup_Add (Add_app a l []))).
  rewrite app_nil_r. now split.
Qed.

Lemma has_app (sp1 sp2 : Api.URLSearchParams) (name : string) :
  Api.has (sp1 ++ sp2)%list name = Api.has sp1 name || Api.has sp2 name.
Proof. unfold Api.has. apply existsb_app. Qed.

(** ** lib/api.ts *)

Lemma fetchAPI_not_ok e fetch ep options response :
  fetch (Api.fetch_request e ep options) = Js.Ok response ->
  Api.ok response = false ->
  Api.fetchAPI e fetch ep options
  = Js.Throw (Js.APIError (Api.status response) ("API Error: " ++ Api.statusText response)).
Proof.
  intros Hf Hok. unfold Api.fetchAPI. rewrite Hf. simpl. now rewrite Hok.
Qed.

Lemma fetchAPI_ok e fetch ep options response :
  fetch (Api.fetch_request e ep options) = Js.Ok response ->
  Api.ok response = true ->
  Api.fetchAPI e fetch ep options = Api.json response.
Proof.
  intros Hf Hok. unfold Api.fetchAPI. rewrite Hf. simpl. now rewrite Hok.
Qed.

Lemma run_routed e mockApi fetch op :
  Api.routed e op = true ->
  Api.run e mockApi fetch op
  = Api.fetchAPI e fetch (fst (Api.fetch_arguments op)) (snd (Api.fetch_arguments op)).
Proof.
  unfold Api.routed, Api.run. intros H.
  apply negb_true_iff in H. now rewrite H.
Qed.

(** C10.  An operation routed through [fetchAPI] whose response is not ok
    throws an [APIError] carrying the status code of the response, so it
    returns no value; when the response is ok the operation settles as
    [response.json()] does, so it returns the parsed body. *)
Theorem fetchAPI_throws_on_failed_response :
  forall e mockApi fetch op response,
    Api.routed e op = true ->
    fetch (Api.request_for e op) = Js.Ok response ->
    (Api.ok response = false ->
       Api.run e mockApi fetch op
       = Js.Throw (Js.APIError (Api.status response)
                     ("API Error: " ++ Api.statusText response))
       /\ forall v, Api.run e mockApi fetch op <> Js.Ok v)
    /\ (Api.ok response = true ->
          Api.run e mockApi fetch op = Api.json response
          /\ forall v, Api.json response = Js.Ok v ->
                       Api.run e mockApi fetch op = Js.Ok v).
Proof.
  intros e mockApi fetch op response Hr Hf.
  rewrite (run_routed _ _ _ _ Hr). unfold Api.request_for in Hf. split; intros Hok.
  - rewrite (fetchAPI_not_ok _ _ _ _ _ Hf Hok). split; [reflexivity | discriminate].
  - rewrite (fetchAPI_ok _ _ _ _ _ Hf Hok). split; [reflexivity | now intros v Hv].
Qed.

Lemma fetchAPI_throws_on_failed_response_witness :
  Api.run Sample.no_env (fun _ => Js.Ok Js.VNull) (fun _ => Js.Ok Sample.not_found)
    (Api.deleteEntry 7)
  = Js.Throw (Js.APIError 404 "API Error: Not Found").
Proof.
  apply (fetchAPI_throws_on_failed_response Sample.no_env (fun _ => Js.Ok Js.VNull)
           (fun _ => Js.Ok Sample.not_found) (Api.deleteEntry 7) Sample.not_found);
    reflexivity.
Defined.

Lemma has_pair_if b name val key :
  Api.has (pair_if b name val) key = b && String.eqb name key.
Proof. destruct b; unfold Api.has; simpl; [apply orb_false_r | reflexivity]. Qed.

Lemma In_pair_if b name val p :
  In p (pair_if b name val) <-> b = true /\ p = (name, val).
Proof.
  destruct b; simpl; split.
  - intros [H|[]]. now split.
  - intros [_ H]. now left.
  - intros [].
  - intros [H _]. discriminate.
Qed.

(** The parameters [getData] appends, spelled out field by field. *)
Lemma getData_searchParams_eq (params : option Api.getData_params) :
  Api.getData_searchParams params
  = (pair_if (Js.truthy_string (Api.opt_field params Api.gd_source)) "source"
       (string_or_empty (Api.opt_field params Api.gd_source))
     ++ pair_if (Js.truthy_string (Api.opt_field params Api.gd_tag)) "tag"
          (string_or_empty (Api.opt_field params Api.gd_tag))
     ++ pair_if (Js.truthy_number (Api.opt_field params Api.gd_limit)) "limit"
          (Js.number_toString (number_or_NaN (Api.opt_field params Api.gd_limit))))%list.
Proof.
  unfold Api.getData_searchParams, Api.append.
  destruct (Api.opt_field params Api.gd_source) as [s|];
    destruct (Api.opt_field params Api.gd_tag) as [t|];
    destruct (Api.opt_field params Api.gd_limit) as [n|];
    try destruct (Js.truthy_string (Some s));
    try destruct (Js.truthy_string (Some t));
    try destruct (Js.truthy_number (Some n)); reflexivity.
Qed.

Lemma truthy_string_iff (o : option string) :
  Js.truthy_string o = true <-> exists s, o = Some s /\ s <> "".
Proof.
  destruct o as [s|]; simpl.
  - rewrite negb_true_iff. destruct (String.eqb_spec s ""); split.
    + discriminate.
    + intros [x [Hx Hne]]. inversion Hx. congruence.
    + intros _. now exists s.
    + reflexivity.
  - split; [discriminate | intros [x [Hx _]]; discriminate].
Qed.

Lemma truthy_number_iff (o : option Js.number) :
  Js.truthy_number o = true <-> exists n, o = Some (Js.Int n) /\ n <> 0.
Proof.
  destruct o as [[n|]|]; simpl.
  - rewrite negb_true_iff. destruct (Z.eqb_spec n 0); split.
    + discriminate.
    + intros [x [Hx Hne]]. inversion Hx. congruence.
    + intros _. now exists n.
    + reflexivity.
  - split; [discriminate | intros [x [Hx _]]; discriminate].
  - split; [discriminate | intros [x [Hx _]]; discriminate].
Qed.

(** C9, as the claim states it, fails: a caller that supplies an empty
    [source] and [tag] and the limit 0 gets a request without any of the
    three parameters. *)
Lemma getData_drops_supplied_falsy_fields :
  let params := Some {| Api.gd_source := Some ""; Api.gd_tag := Some "";
                        Api.gd_limit := Some (Js.Int 0) |} in
  Api.opt_field params Api.gd_source = Some ""
  /\ Api.opt_field params Api.gd_tag = Some ""
  /\ Api.opt_field params Api.gd_limit = Some (Js.Int 0)
  /\ Api.has (Api.getData_searchParams params) "source" = false
  /\ Api.has (Api.getData_searchParams params) "tag" = false
  /\ Api.has (Api.getData_searchParams params) "limit" = false
  /\ ~ (forall p, Api.has (Api.getData_searchParams p) "source" = true
                  <-> exists s, Api.opt_field p Api.gd_source = Some s).
Proof.
  cbv zeta. do 6 (split; [reflexivity|]).
  intros H.
  pose proof (proj2 (H (Some {| Api.gd_source := Some ""; Api.gd_tag := None;
                                Api.gd_limit := None |}))
                (ex_intro _ "" eq_refl)) as Hc.
  discriminate Hc.
Qed.

(** C9, amended.  The request of [getData] carries [source] exactly when the
    caller supplied a non-empty source, [tag] exactly when it supplied a
    non-empty tag, [limit] exactly when it supplied a limit other than 0 and
    NaN, each with the supplied value; nothing else is ever appended, and
    with no argument the request has no parameter. *)
Theorem getData_parameters :
  forall params : option Api.getData_params,
    let sp := Api.getData_searchParams params in
    (Api.has sp "source" = true
       <-> exists s, Api.opt_field params Api.gd_source = Some s /\ s <> "")
    /\ (Api.has sp "tag" = true
          <-> exists t, Api.opt_field params Api.gd_tag = Some t /\ t <> "")
    /\ (Api.has sp "limit" = true
          <-> exists n, Api.opt_field params Api.gd_limit = Some (Js.Int n) /\ n <> 0)
    /\ (forall s, Api.opt_field params Api.gd_source = Some s -> s <> "" ->
                  In ("source", s) sp)
    /\ (forall t, Api.opt_field params Api.gd_tag = Some t -> t <> "" ->
                  In ("tag", t) sp)
    /\ (forall n, Api.opt_field params Api.gd_limit = Some (Js.Int n) -> n <> 0 ->
                  In ("limit", Js.Z_to_string n) sp)
    /\ (forall name, Api.has sp name = true ->
                     name = "source" \/ name = "tag" \/ name = "limit")
    /\ (params = None -> sp = []).
Proof.
  intros params sp. subst sp. rewrite getData_searchParams_eq.
  repeat rewrite has_app. repeat rewrite has_pair_if.
  split; [|split; [|split; [|split; [|split; [|split; [|split]]]]]].
  - change (String.eqb "source" "source") with true.
    change (String.eqb "tag" "source") with false.
    change (String.eqb "limit" "source") with false.
    rewrite !andb_false_r, !orb_false_r, andb_true_r. apply truthy_string_iff.
  - change (String.eqb "source" "tag") with false.
    change (String.eqb "tag" "tag") with true.
    change (String.eqb "limit" "tag") with false.
    rewrite !andb_false_r, !orb_false_r, andb_true_r. apply truthy_string_iff.
  - change (String.eqb "source" "limit") with false.
    change (String.eqb "tag" "limit") with false.
    change (String.eqb "limit" "limit") with true.
    rewrite !andb_false_r, andb_true_r. apply truthy_number_iff.
  - intros s Hs Hne. rewrite Hs. apply in_or_app. left.
    apply In_pair_if. split; [|reflexivity].
    apply truthy_string_iff. now exists s.
  - intros t Ht Hne. rewrite Ht. apply in_or_app. right. apply in_or_app. left.
    apply In_pair_if. split; [|reflexivity].
    apply truthy_string_iff. now exists t.
  - intros n Hn Hne. rewrite Hn. apply in_or_app. right. apply in_or_app. right.
    apply In_pair_if. split; [|reflexivity].
    apply truthy_number_iff. now exists n.
  - intros name Hname.
    repeat rewrite has_app in Hname. repeat rewrite has_pair_if in Hname.
    apply orb_true_iff in Hname. destruct Hname as [H|H].
    + apply andb_true_iff in H. destruct H as [_ H].
      apply String.eqb_eq in H. now left.
    + apply orb_true_iff in H. destruct H as [H|H];
        apply andb_true_iff in H; destruct H as [_ H];
        apply String.eqb_eq in H; auto.
  - intros Hp. subst params. reflexivity.
Qed.

(** ** The tag editor *)

Lemma handleAddTag_NoDup key st :
  NoDup (UploadTab.tags st) -> NoDup (UploadTab.tags (UploadTab.handleAddTag key st)).
Proof.
  intros Hnd. unfold UploadTab.handleAddTag.
  destruct (String.eqb key "Enter" || String.eqb key ","); [|assumption].
  destruct (Js.truthy (Js.VStr (Js.trim (UploadTab.tagInput st)))); simpl; [|assumption].
  destruct (UploadTab.includes (UploadTab.tags st) (Js.trim (UploadTab.tagInput st)))
    eqn:Hinc; simpl; [assumption|].
  apply NoDup_snoc; [assumption|].
  intros Hin. apply includes_In in Hin. congruence.
Qed.

Lemma step_NoDup st a :
  NoDup (UploadTab.tags st) -> NoDup (UploadTab.tags (UploadTab.step st a)).
Proof.
  intros Hnd. destruct a as [contents|text|key|tag|created]; simpl; try assumption.
  - now apply handleAddTag_NoDup.
  - now apply NoDup_filter.
  - unfold UploadTab.handleUpload. destruct (UploadTab.files st); [assumption|].
    destruct created; [constructor | assumption].
Qed.

Lemma run_NoDup acts : forall st,
  NoDup (UploadTab.tags st) -> NoDup (UploadTab.tags (UploadTab.run acts st)).
Proof.
  induction acts as [|a acts IH]; intros st Hnd; simpl; [assumption|].
  apply IH. now apply step_NoDup.
Qed.

Lemma handleAddTag_unchanged key st :
  Js.trim (UploadTab.tagInput st) = ""
  \/ In (Js.trim (UploadTab.tagInput st)) (UploadTab.tags st) ->
  UploadTab.handleAddTag key st = st.
Proof.
  intros H. unfold UploadTab.handleAddTag.
  destruct (String.eqb key "Enter" || String.eqb key ","); [|reflexivity].
  destruct H as [H|H].
  - rewrite H. reflexivity.
  - apply includes_In in H. rewrite H. now rewrite andb_false_r.
Qed.

Lemma handleAddTag_added key st :
  (key = "Enter" \/ key = ",") ->
  Js.trim (UploadTab.tagInput st) <> "" ->
  ~ In (Js.trim (UploadTab.tagInput st)) (UploadTab.tags st) ->
  UploadTab.tags (UploadTab.handleAddTag key st)
  = (UploadTab.tags st ++ [Js.trim (UploadTab.tagInput st)])%list.
Proof.
  intros Hkey Hne Hnin. unfold UploadTab.handleAddTag.
  assert (String.eqb key "Enter" || String.eqb key "," = true) as ->.
  { destruct Hkey; subst; reflexivity. }
  simpl. apply String.eqb_neq in Hne. rewrite Hne. simpl.
  destruct (UploadTab.includes (UploadTab.tags st) (Js.trim (UploadTab.tagInput st)))
    eqn:Hinc; [|reflexivity].
  apply includes_In in Hinc. contradiction.
Qed.

Lemma removeTag_In tag st t :
  In t (UploadTab.tags (UploadTab.removeTag tag st))
  <-> In t (UploadTab.tags st) /\ t <> tag.
Proof.
  unfold UploadTab.removeTag. simpl. rewrite filter_In, negb_true_iff.
  now rewrite String.eqb_neq.
Qed.

Lemma filter_out_one (tag : string) (l : list string) :
  NoDup l -> In tag l ->
  (length (filter (fun t => negb (String.eqb t tag)) l) + 1 = length l)%nat.
Proof.
  induction l as [|x l IH]; intros Hnd Hin; [destruct Hin|].
  inversion Hnd as [|? ? Hx Hl]; subst. simpl.
  destruct (String.eqb_spec x tag) as [->|Hne]; simpl.
  - assert (filter (fun t => negb (String.eqb t tag)) l = l) as ->; [|lia].
    apply forallb_filter_id. apply forallb_forall. intros y Hy.
    apply negb_true_iff, String.eqb_neq. intros ->. contradiction.
  - destruct Hin as [->|Hin]; [congruence|]. specialize (IH Hl Hin). lia.
Qed.

(** C8.  Whatever is done in the upload form, its tag list has no duplicate;
    adding a tag that is empty once trimmed, or already present, leaves the
    form as it was, and any other tag is appended once; removing a tag
    removes that tag and nothing else: every other tag stays, in the same
    order, and the list gets shorter by exactly one when the tag was there. *)
Theorem tags_form_a_set :
  forall acts : list UploadTab.action,
    let st := UploadTab.run acts UploadTab.initial in
    NoDup (UploadTab.tags st)
    /\ (forall key,
          Js.trim (UploadTab.tagInput st) = ""
          \/ In (Js.trim (UploadTab.tagInput st)) (UploadTab.tags st) ->
          UploadTab.handleAddTag key st = st)
    /\ (forall key,
          key = "Enter" \/ key = "," ->
          Js.trim (UploadTab.tagInput st) <> "" ->
          ~ In (Js.trim (UploadTab.tagInput st)) (UploadTab.tags st) ->
          UploadTab.tags (UploadTab.handleAddTag key st)
          = (UploadTab.tags st ++ [Js.trim (UploadTab.tagInput st)])%list)
    /\ (forall tag,
          ~ In tag (UploadTab.tags (UploadTab.removeTag tag st))
          /\ (forall t, t <> tag ->
                (In t (UploadTab.tags (UploadTab.removeTag tag st))
                 <-> In t (UploadTab.tags st)))
          /\ UploadTab.tags (UploadTab.removeTag tag st)
             = filter (fun t => negb (String.eqb t tag)) (UploadTab.tags st)
          /\ (In tag (UploadTab.tags st) ->
              (length (UploadTab.tags (UploadTab.removeTag tag st)) + 1
               = length (UploadTab.tags st))%nat)
          /\ NoDup (UploadTab.tags (UploadTab.removeTag tag st))).
Proof.
  intros acts st.
  assert (Hnd : NoDup (UploadTab.tags st)).
  { apply run_NoDup. constructor. }
  split; [assumption|]. split; [|split].
  - intros key. apply handleAddTag_unchanged.
  - intros key. apply handleAddTag_added.
  - intros tag. split; [|split; [|split; [|split]]].
    + rewrite removeTag_In. tauto.
    + intros t Hne. rewrite removeTag_In. tauto.
    + reflexivity.
    + intros Hin. now apply filter_out_one.
    + now apply NoDup_filter.
Qed.

(** ** The consumer of the streaming channel *)

Lemma append_empty_r (s : string) : s ++ "" = s.
Proof. induction s as [|c s IH]; simpl; [reflexivity | now rewrite IH]. Qed.

Lemma append_assoc_string (a b c : string) : (a ++ b) ++ c = a ++ (b ++ c).
Proof. induction a as [|x a IH]; simpl; [reflexivity | now rewrite IH]. Qed.

Lemma strict_eq_string_true v s : Js.strict_eq_string v s = true -> v = Js.VStr s.
Proof.
  destruct v; simpl; try discriminate.
  intros H. apply String.eqb_eq in H. now subst.
Qed.

Lemma get_total data name name' t :
  Js.get data name = Js.Ok t -> exists v, Js.get data name' = Js.Ok v.
Proof. destruct data; simpl; intros H; try discriminate; eauto. Qed.

Lemma dispatch_closed c ev :
  Api.closed (fst c) = true -> SearchTab.dispatch c ev = c.
Proof. intros H. unfold SearchTab.dispatch. now rewrite H. Qed.

Lemma deliver_closed evs : forall c,
  Api.closed (fst c) = true -> SearchTab.deliver evs c = c.
Proof.
  induction evs as [|ev evs IH]; intros c H; simpl; [reflexivity|].
  rewrite (dispatch_closed c ev H). now apply IH.
Qed.

Lemma deliver_app evs1 evs2 c :
  SearchTab.deliver (evs1 ++ evs2)%list c = SearchTab.deliver evs2 (SearchTab.deliver evs1 c).
Proof. apply fold_left_app. Qed.

(** The handler of a message whose discriminator can be read, branch by
    branch. *)
Lemma onmessage_branches es st data t :
  Js.get data "type" = Js.Ok t ->
  SearchTab.onmessage es st (Js.Ok data)
  = if Js.strict_eq_string t "answer_chunk" then
      Js.bind (Js.get data "content") (fun content =>
        Js.Ok (es, SearchTab.setStreamingAnswer
                     (fun prev => prev ++ Js.to_string content) st))
    else if Js.strict_eq_string t "metadata" then
      Js.bind (Js.get data "sources") (fun sources =>
        Js.bind (Js.array_map SearchTab.transform sources) (fun transformedSources =>
          Js.Ok (es, SearchTab.setSearchResults transformedSources st)))
    else if Js.strict_eq_string t "done" then
      Js.Ok (Api.close es, SearchTab.setLoading false st)
    else if Js.strict_eq_string t "error" then
      Js.bind (Js.get data "content") (fun content =>
        Js.Ok (Api.close es,
               SearchTab.setLoading false
                 (SearchTab.toast
                    (SearchTab.error_toast
                       (Js.or_else content (Js.VStr "Streaming failed"))) st)))
    else Js.Ok (es, st).
Proof. intros Ht. unfold SearchTab.onmessage. simpl. rewrite Ht. reflexivity. Qed.

(** A terminal event closes the source and ends the loading state; the
    answer and the result list stay as they are. *)
Lemma dispatch_terminal c ev :
  Api.closed (fst c) = false ->
  Stream.is_terminal ev = true ->
  Api.closed (fst (SearchTab.dispatch c ev)) = true
  /\ SearchTab.loading (snd (SearchTab.dispatch c ev)) = false
  /\ SearchTab.streamingAnswer (snd (SearchTab.dispatch c ev))
     = SearchTab.streamingAnswer (snd c)
  /\ SearchTab.searchResults (snd (SearchTab.dispatch c ev))
     = SearchTab.searchResults (snd c).
Proof.
  destruct c as [es st]. simpl. intros Hopen Hterm.
  unfold SearchTab.dispatch. simpl. rewrite Hopen.
  destruct ev as [parsed|]; [|simpl; auto].
  destruct parsed as [data|e]; [|discriminate].
  simpl in Hterm. destruct (Js.get data "type") as [t|e] eqn:Ht; [|discriminate].
  rewrite (onmessage_branches es st data t Ht).
  destruct (get_total data "type" "content" t Ht) as [content Hc]. rewrite Hc. simpl.
  apply orb_true_iff in Hterm. destruct Hterm as [H|H];
    apply strict_eq_string_true in H; subst t; simpl; auto.
Qed.

(** Any other event leaves the source open and, at most, appends the payload
    of a fragment to the answer. *)
Lemma dispatch_nonterminal c ev :
  Api.closed (fst c) = false ->
  Stream.is_terminal ev = false ->
  Api.closed (fst (SearchTab.dispatch c ev)) = false
  /\ SearchTab.streamingAnswer (snd (SearchTab.dispatch c ev))
     = SearchTab.streamingAnswer (snd c) ++ Stream.chunk_text ev.
Proof.
  destruct c as [es st]. simpl. intros Hopen Hterm.
  unfold SearchTab.dispatch. simpl. rewrite Hopen.
  destruct ev as [parsed|]; [|discriminate].
  destruct parsed as [data|e]; [|simpl; now rewrite append_empty_r].
  unfold Stream.chunk_text. simpl in Hterm. unfold Stream.message_type in *.
  destruct (Js.get data "type") as [t|e] eqn:Ht.
  - rewrite (onmessage_branches es st data t Ht).
    destruct (get_total data "type" "content" t Ht) as [content Hc]. rewrite Hc. simpl.
    apply orb_false_iff in Hterm. destruct Hterm as [Hd He]. rewrite Hd, He.
    destruct (Js.strict_eq_string t "answer_chunk"); [simpl; auto|].
    rewrite append_empty_r.
    destruct (Js.strict_eq_string t "metadata"); [|simpl; auto].
    destruct (Js.get data "sources") as [sources|e]; simpl; auto.
    destruct (Js.array_map SearchTab.transform sources); simpl; auto.
  - unfold SearchTab.onmessage. simpl. rewrite Ht. simpl.
    now rewrite append_empty_r.
Qed.

Lemma deliver_up_to_terminal evs : forall c,
  Api.closed (fst c) = false ->
  SearchTab.deliver evs c = SearchTab.deliver (Stream.up_to_terminal evs) c.
Proof.
  induction evs as [|ev evs IH]; intros c Hopen; simpl; [reflexivity|].
  destruct (Stream.is_terminal ev) eqn:Hterm; simpl.
  - apply deliver_closed. now apply dispatch_terminal.
  - apply IH. now apply dispatch_nonterminal.
Qed.

Lemma deliver_streamingAnswer evs : forall c,
  Api.closed (fst c) = false ->
  SearchTab.streamingAnswer (snd (SearchTab.deliver evs c))
  = SearchTab.streamingAnswer (snd c) ++ Stream.arrived_text evs.
Proof.
  induction evs as [|ev evs IH]; intros c Hopen; simpl.
  - now rewrite append_empty_r.
  - destruct (Stream.is_terminal ev) eqn:Hterm.
    + destruct (dispatch_terminal c ev Hopen Hterm) as [Hc [_ [Hs _]]].
      rewrite (deliver_closed evs _ Hc), Hs. now rewrite append_empty_r.
    + destruct (dispatch_nonterminal c ev Hopen Hterm) as [Hc Hs].
      rewrite (IH _ Hc), Hs. apply append_assoc_string.
Qed.

Lemma deliver_terminal_closes evs : forall c,
  Api.closed (fst c) = false ->
  existsb Stream.is_terminal evs = true ->
  Api.closed (fst (SearchTab.deliver evs c)) = true
  /\ SearchTab.loading (snd (SearchTab.deliver evs c)) = false.
Proof.
  induction evs as [|ev evs IH]; intros c Hopen Hex; simpl in *; [discriminate|].
  destruct (Stream.is_terminal ev) eqn:Hterm.
  - destruct (dispatch_terminal c ev Hopen Hterm) as [Hc [Hl _]].
    rewrite (deliver_closed evs _ Hc). now split.
  - apply IH; [now apply dispatch_nonterminal | assumption].
Qed.

(** The handler never touches the form fields nor the non-streamed
    response. *)
Lemma dispatch_keeps_form c ev :
  SearchTab.k (snd (SearchTab.dispatch c ev)) = SearchTab.k (snd c)
  /\ SearchTab.ragResponse (snd (SearchTab.dispatch c ev)) = SearchTab.ragResponse (snd c)
  /\ SearchTab.useRag (snd (SearchTab.dispatch c ev)) = SearchTab.useRag (snd c).
Proof.
  destruct c as [es st]. unfold SearchTab.dispatch. simpl.
  destruct (Api.closed es); [auto|].
  destruct ev as [parsed|]; [|simpl; auto].
  destruct parsed as [data|e]; [|simpl; auto].
  destruct (Js.get data "type") as [t|e] eqn:Ht.
  - rewrite (onmessage_branches es st data t Ht).
    destruct (get_total data "type" "content" t Ht) as [content Hc]. rewrite Hc. simpl.
    destruct (Js.strict_eq_string t "answer_chunk"); [simpl; auto|].
    destruct (Js.strict_eq_string t "metadata").
    + destruct (Js.get data "sources") as [sources|e]; simpl; auto.
      destruct (Js.array_map SearchTab.transform sources); simpl; auto.
    + destruct (Js.strict_eq_string t "done"); [simpl; auto|].
      destruct (Js.strict_eq_string t "error"); simpl; auto.
  - unfold SearchTab.onmessage. simpl. rewrite Ht. simpl. auto.
Qed.

Lemma deliver_keeps_form evs : forall c,
  SearchTab.k (snd (SearchTab.deliver evs c)) = SearchTab.k (snd c)
  /\ SearchTab.ragResponse (snd (SearchTab.deliver evs c)) = SearchTab.ragResponse (snd c)
  /\ SearchTab.useRag (snd (SearchTab.deliver evs c)) = SearchTab.useRag (snd c).
Proof.
  induction evs as [|ev evs IH]; intros c; simpl; [auto|].
  destruct (IH (SearchTab.dispatch c ev)) as [H1 [H2 H3]].
  destruct (dispatch_keeps_form c ev) as [G1 [G2 G3]].
  rewrite H1, H2, H3. auto.
Qed.




Lemma field_array data name l :
  Stream.field data name = Js.VArr l ->
  exists props, data = Js.VObj props /\ Js.lookup name props = Js.VArr l.
Proof.
  unfold Stream.field. destruct data; simpl; try discriminate.
  intros H. eauto.
Qed.





(** ** The streamed answer, end to end *)

Lemma frame_is_terminal ev :
  Stream.is_terminal (SearchTab.Message (Js.Ok (Engine.frame ev))) = Engine.is_terminal ev.
Proof. destruct ev; reflexivity. Qed.

Lemma filter_terminal_fragments fragments :
  filter Engine.is_terminal (map Engine.Fragment fragments) = [].
Proof. induction fragments as [|f fs IH]; simpl; [reflexivity | assumption]. Qed.

Lemma answer_one_terminal fragments candidates o :
  length (filter Engine.is_terminal (Engine.answer fragments candidates o)) = 1%nat.
Proof.
  unfold Engine.answer.
  destruct o; rewrite filter_app, filter_terminal_fragments; reflexivity.
Qed.

Lemma answer_last fragments candidates o :
  last (Engine.answer fragments candidates o) (Engine.Fragment "")
  = match o with
    | Engine.Success => Engine.Done
    | Engine.Failure kind message => Engine.Failed kind message
    end.
Proof.
  unfold Engine.answer. destruct o.
  - change [Engine.Sources candidates; Engine.Done]
      with ([Engine.Sources candidates] ++ [Engine.Done])%list.
    rewrite app_assoc. apply last_last.
  - apply last_last.
Qed.

Lemma answer_has_terminal fragments candidates o :
  existsb Stream.is_terminal (Engine.on_channel (Engine.answer fragments candidates o))
  = true.
Proof.
  unfold Engine.on_channel, Engine.answer.
  destruct o; rewrite map_app, existsb_app; apply orb_true_iff; right; reflexivity.
Qed.

Lemma up_to_terminal_one evs :
  (length (filter Stream.is_terminal (Stream.up_to_terminal evs)) <= 1)%nat.
Proof.
  induction evs as [|ev evs IH]; simpl; [lia|].
  destruct (Stream.is_terminal ev) eqn:H; simpl; rewrite H; simpl; lia.
Qed.

(** C2.  A streamed answer holds exactly one terminal event, its last one:
    done on success, the error with its kind on failure.  The consumer
    closes the event source at that event and stops loading, and nothing
    that is delivered afterwards changes anything.  For any sequence of
    events at all, the consumer handles the events up to the first terminal
    one (a done message, an error message or a failure of the connection)
    and no event after it. *)
Theorem stream_ends_with_one_terminal_event :
  forall fragments candidates o u st more,
    let evs := Engine.answer fragments candidates o in
    let after := SearchTab.deliver (Engine.on_channel evs) (Stream.open_source u, st) in
    length (filter Engine.is_terminal evs) = 1%nat
    /\ last evs (Engine.Fragment "")
       = match o with
         | Engine.Success => Engine.Done
         | Engine.Failure kind message => Engine.Failed kind message
         end
    /\ (forall ev,
          Stream.is_terminal (SearchTab.Message (Js.Ok (Engine.frame ev)))
          = Engine.is_terminal ev)
    /\ Api.closed (fst after) = true
    /\ SearchTab.loading (snd after) = false
    /\ SearchTab.deliver more after = after
    /\ (forall any c,
          Api.closed (fst c) = false ->
          SearchTab.deliver any c = SearchTab.deliver (Stream.up_to_terminal any) c
          /\ (length (filter Stream.is_terminal (Stream.up_to_terminal any)) <= 1)%nat
          /\ (existsb Stream.is_terminal any = true ->
              Api.closed (fst (SearchTab.deliver any c)) = true
              /\ forall later,
                   SearchTab.deliver (any ++ later)%list c = SearchTab.deliver any c)).
Proof.
  intros fragments candidates o u st more evs after.
  assert (Hclosed : Api.closed (fst after) = true
                    /\ SearchTab.loading (snd after) = false).
  { apply deliver_terminal_closes; [reflexivity | apply answer_has_terminal]. }
  destruct Hclosed as [Hc Hl].
  split; [apply answer_one_terminal|]. split; [apply answer_last|].
  split; [apply frame_is_terminal|].
  split; [assumption|]. split; [assumption|].
  split; [now apply deliver_closed|].
  intros any c Hopen. split; [now apply deliver_up_to_terminal|].
  split; [apply up_to_terminal_one|].
  intros Hex. destruct (deliver_terminal_closes any c Hopen Hex) as [Hc' _].
  split; [assumption|].
  intros later. rewrite deliver_app. now apply deliver_closed.
Qed.

Lemma displayed_streaming_answer st :
  SearchTab.ragResponse st = Js.VNull ->
  SearchTab.displayed_answer st = Js.Ok (Js.VStr (SearchTab.streamingAnswer st)).
Proof.
  intros H. unfold SearchTab.displayed_answer. rewrite H. simpl.
  unfold Js.or_else. simpl.
  destruct (String.eqb (SearchTab.streamingAnswer st) "") eqn:He; simpl.
  - apply String.eqb_eq in He. now rewrite He.
  - now rewrite He.
Qed.

(** C4.  The claim fails when Enter is pressed again while an answer is
    streamed: the Search button is disabled while the tab is loading, the
    Enter key of the query field is not.  The second submit empties the
    answer and opens a second event source without closing the first, and
    both go on appending: with the fragments "A", "B" of the first answer
    and "C" of the second, the text shown is "BC", the concatenation of the
    fragments of neither.  Through the button the second submit does nothing
    and the text is "AB". *)
Theorem second_enter_mixes_two_answers :
  let run submit :=
    [SearchTab.Form (SearchTab.TypeQuery "cats"); submit;
     SearchTab.Channel 0 (Sample.chunk "A"); submit;
     SearchTab.Channel 0 (Sample.chunk "B");
     SearchTab.Channel 1 (Sample.chunk "C")] in
  let s := SearchTab.ui_run Sample.no_env Sample.no_mock_stream
             (run SearchTab.Enter) SearchTab.start in
  let s' := SearchTab.ui_run Sample.no_env Sample.no_mock_stream
              (run SearchTab.Click) SearchTab.start in
  map Api.closed (SearchTab.sources s) = [false; false]
  /\ SearchTab.render Sample.Date_parse (SearchTab.tab s)
     = Js.Ok {| SearchTab.answer_card := Some (Js.VStr "BC");
                SearchTab.result_cards := [] |}
  /\ Stream.arrived_text [Sample.chunk "A"; Sample.chunk "B"] = "AB"
  /\ Stream.arrived_text [Sample.chunk "C"] = "C"
  /\ map Api.closed (SearchTab.sources s') = [false]
  /\ SearchTab.render Sample.Date_parse (SearchTab.tab s')
     = Js.Ok {| SearchTab.answer_card := Some (Js.VStr "AB");
                SearchTab.result_cards := [] |}.
Proof. cbv zeta. repeat split; vm_compute; reflexivity. Qed.

(** ** The sources event *)












(** ** The search form *)

Lemma handleSearch_search_only e ms st :
  Js.trim (SearchTab.query st) <> "" ->
  SearchTab.useRag st = false ->
  SearchTab.handleSearch e ms st
  = (SearchTab.setStreamingAnswer (fun _ => "")
       (SearchTab.setSearchResults (Js.VArr [])
          (SearchTab.setRagResponse Js.VNull (SearchTab.setLoading true st))),
     SearchTab.Awaiting (Api.search (SearchTab.query st) (Some (SearchTab.k st)))).
Proof.
  intros Hq Hr. unfold SearchTab.handleSearch. simpl.
  apply String.eqb_neq in Hq. rewrite Hq. simpl. now rewrite Hr.
Qed.

(** C6.  The claim fails when Enter is pressed again while a search is
    awaited: the Search button is disabled while the tab is loading, the
    Enter key of the query field is not.  Both requests are then in flight;
    when the first resolves its results fill the list, and when the second
    rejects the error path reports the error and leaves the list as it is:
    the results of the previous search stay on screen after the failed one.
    Through the button the second submit does nothing, and the only request
    there is fails with an empty list. *)
Theorem second_enter_leaves_stale_results :
  let failed := Js.Throw (Js.APIError 500 "API Error: Internal Server Error") in
  let form := [SearchTab.Form (SearchTab.SwitchRag false);
               SearchTab.Form (SearchTab.TypeQuery "cats")] in
  let s := SearchTab.ui_run Sample.no_env Sample.no_mock_stream
             (form ++ [SearchTab.Enter; SearchTab.Enter;
                       SearchTab.Settled 0 (Js.Ok (Js.VArr [Sample.a_result]));
                       SearchTab.Settled 1 failed]) SearchTab.start in
  let s' := SearchTab.ui_run Sample.no_env Sample.no_mock_stream
              (form ++ [SearchTab.Click; SearchTab.Click;
                        SearchTab.Settled 0 failed]) SearchTab.start in
  SearchTab.awaited s = [None; None]
  /\ SearchTab.loading (SearchTab.tab s) = false
  /\ SearchTab.toasts (SearchTab.tab s)
     = [SearchTab.error_toast (Js.VStr "API Error: Internal Server Error")]
  /\ SearchTab.searchResults (SearchTab.tab s) = Js.VArr [Sample.a_result]
  /\ (exists card, SearchTab.render_results Sample.Date_parse (SearchTab.tab s)
                   = Js.Ok [card]
                   /\ SearchTab.card_id card = Js.VNum "1")
  /\ SearchTab.awaited s' = [None]
  /\ SearchTab.toasts (SearchTab.tab s')
     = [SearchTab.error_toast (Js.VStr "API Error: Internal Server Error")]
  /\ SearchTab.searchResults (SearchTab.tab s') = Js.VArr []
  /\ SearchTab.render_results Sample.Date_parse (SearchTab.tab s') = Js.Ok [].
Proof.
  cbv zeta. do 4 (split; [vm_compute; reflexivity|]).
  split; [eexists; split; vm_compute; reflexivity|].
  repeat split; vm_compute; reflexivity.
Qed.

(** The slider only ever reports an integer from 1 to 10. *)
Lemma parseInt_range_input pos :
  exists z, Js.parseInt (Slider.range_input_value 1 10 pos) = Js.Int z /\ 1 <= z <= 10.
Proof.
  unfold Slider.range_input_value.
  remember (Z.max 1 (Z.min 10 pos)) as z eqn:Hz.
  assert (Hr : 1 <= z <= 10) by lia.
  exists z. split; [|assumption].
  assert (z = 1 \/ z = 2 \/ z = 3 \/ z = 4 \/ z = 5 \/ z = 6 \/ z = 7 \/ z = 8
          \/ z = 9 \/ z = 10) as Hcases by lia.
  clear Hz Hr.
  repeat (destruct Hcases as [->|Hcases]; [reflexivity|]).
  subst z. reflexivity.
Qed.

Lemma form_step_k st a : k_in_range st -> k_in_range (SearchTab.form_step st a).
Proof.
  intros H. destruct a as [text|name|checked|checked|pos]; try exact H.
  unfold k_in_range. simpl. apply parseInt_range_input.
Qed.

Lemma handleSearch_k e ms st :
  SearchTab.k (fst (SearchTab.handleSearch e ms st)) = SearchTab.k st.
Proof.
  unfold SearchTab.handleSearch.
  destruct (negb (Js.truthy (Js.VStr (Js.trim (SearchTab.query st))))); [reflexivity|].
  simpl. destruct (SearchTab.useRag st); [|reflexivity].
  destruct (SearchTab.streamEnabled st); reflexivity.
Qed.

Lemma handleSearch_resume_k st op settled :
  SearchTab.k (SearchTab.handleSearch_resume st op settled) = SearchTab.k st.
Proof. destruct settled; [destruct op|]; reflexivity. Qed.

Lemma submit_k e ms s :
  k_in_range (SearchTab.tab s) -> k_in_range (SearchTab.tab (SearchTab.submit e ms s)).
Proof.
  intros H. unfold SearchTab.submit.
  pose proof (handleSearch_k e ms (SearchTab.tab s)) as Hk.
  destruct (SearchTab.handleSearch e ms (SearchTab.tab s)) as [st p]. simpl in Hk.
  unfold k_in_range in *. destruct p; simpl; now rewrite Hk.
Qed.

Lemma ui_step_k e ms s ev :
  k_in_range (SearchTab.tab s) ->
  k_in_range (SearchTab.tab (SearchTab.ui_step e ms s ev)).
Proof.
  intros H. destruct ev as [a| | |i cev|j outcome]; simpl.
  - now apply form_step_k.
  - now apply submit_k.
  - destruct (SearchTab.loading (SearchTab.tab s)); [exact H | now apply submit_k].
  - destruct (nth_error (SearchTab.sources s) i) as [es|]; [|exact H]. simpl.
    unfold k_in_range in *.
    destruct (dispatch_keeps_form (es, SearchTab.tab s) cev) as [Hk _].
    now rewrite Hk.
  - destruct (nth_error (SearchTab.awaited s) j) as [[op|]|]; try exact H. simpl.
    unfold k_in_range in *. now rewrite handleSearch_resume_k.
Qed.

Lemma ui_run_k e ms evs : forall s,
  k_in_range (SearchTab.tab s) ->
  k_in_range (SearchTab.tab (SearchTab.ui_run e ms evs s)).
Proof.
  induction evs as [|ev evs IH]; intros s H; simpl; [exact H|].
  apply IH. now apply ui_step_k.
Qed.

(** C3, as the claim states it, fails for a search-only query: its request
    carries the query and k, and no model. *)
Lemma search_only_query_carries_no_model :
  let st := SearchTab.setUseRag false (SearchTab.setQuery "cats" SearchTab.initial) in
  let op := Api.search "cats" (Some (Js.Int 5)) in
  snd (SearchTab.handleSearch Sample.no_env Sample.no_mock_stream st) = SearchTab.Awaiting op
  /\ Api.ep_search (Api.req_endpoint (Api.request_for Sample.no_env op))
     = Some [("query", "cats"); ("k", "5")]
  /\ Api.req_body (Api.request_for Sample.no_env op) = None
  /\ Api.has [("query", "cats"); ("k", "5")] "model" = false.
Proof. cbv zeta. repeat split; reflexivity. Qed.

(** C3, amended.  Whatever has happened in the search tab, the k of the form
    is an integer from 1 to 10.  A submitted query carries: in RAG mode,
    query, model and k (as the URL parameters of the event source when
    streamed, as the JSON body of the POST otherwise); in search-only mode,
    query and k only.  With a blank query nothing is submitted. *)
Theorem submitted_query_parameters :
  forall e ms evs,
    let st := SearchTab.tab (SearchTab.ui_run e ms evs SearchTab.start) in
    (exists z, SearchTab.k st = Js.Int z /\ 1 <= z <= 10)
    /\ match snd (SearchTab.handleSearch e ms st) with
       | SearchTab.NoRequest => Js.trim (SearchTab.query st) = ""
       | SearchTab.Streaming es =>
           SearchTab.useRag st = true /\ SearchTab.streamEnabled st = true
           /\ es = Api.queryStream e ms (SearchTab.request_of st)
           /\ (Api.USE_MOCK_API e = false ->
               Api.url es
               = (Api.API_BASE_URL e,
                  Api.with_search "/query/stream"
                    [("query", SearchTab.query st);
                     ("model", SearchTab.model st);
                     ("k", Js.number_toString (SearchTab.k st))]))
       | SearchTab.Awaiting op =>
           (SearchTab.useRag st = true /\ SearchTab.streamEnabled st = false
            /\ Api.fetch_arguments op
               = (Api.plain "/query",
                  Api.POST (Some (Js.VObj [("query", Js.VStr (SearchTab.query st));
                                           ("model", Js.VStr (SearchTab.model st));
                                           ("k", Js.of_number (SearchTab.k st))]))))
           \/ (SearchTab.useRag st = false
               /\ Api.fetch_arguments op
                  = (Api.with_search "/search"
                       [("query", SearchTab.query st);
                        ("k", Js.number_toString (SearchTab.k st))],
                     None))
       end.
Proof.
  intros e ms evs st. split.
  - apply (ui_run_k e ms evs SearchTab.start). exists 5. split; [reflexivity | lia].
  - unfold SearchTab.handleSearch. simpl.
    destruct (String.eqb_spec (Js.trim (SearchTab.query st)) "") as [Hq|Hq]; simpl;
      [assumption|].
    destruct (SearchTab.useRag st); simpl.
    + destruct (SearchTab.streamEnabled st); simpl.
      * split; [reflexivity|]. split; [reflexivity|]. split; [reflexivity|].
        intros Hm. unfold Api.queryStream. rewrite Hm. reflexivity.
      * left. auto.
    + right. auto.
Qed.

(** ** The notification poller *)



Lemma mark_keeps st notif :
  Home.lastNotificationId (Home.mark st notif) = Home.lastNotificationId st
  /\ Home.displayed (Home.mark st notif) = Home.displayed st
  /\ Home.toasts (Home.mark st notif) = Home.toasts st.
Proof.
  destruct notif as [n|]; [|auto]. unfold Home.mark.
  destruct (Home.id n) as [i|]; [|auto].
  destruct (negb (i =? 0)); auto.
Qed.

Lemma fold_mark_keeps l : forall st,
  Home.lastNotificationId (fold_left Home.mark l st) = Home.lastNotificationId st
  /\ Home.displayed (fold_left Home.mark l st) = Home.displayed st
  /\ Home.toasts (fold_left Home.mark l st) = Home.toasts st.
Proof.
  induction l as [|notif l IH]; intros st; simpl; [auto|].
  destruct (IH (Home.mark st notif)) as [H1 [H2 H3]].
  destruct (mark_keeps st notif) as [G1 [G2 G3]].
  rewrite H1, H2, H3. auto.
Qed.
















(** ** The notification bus *)











(* ===================================================================== *)
(** * Further properties of the front end *)
(* ===================================================================== *)

(** ** lib/api.ts *)

Lemma getNotifications_searchParams_eq (params : option Api.getNotifications_params) :
  Api.getNotifications_searchParams params
  = (pair_if (Notions.supplied (Api.opt_field params Api.since_id)) "since_id"
       (Js.number_toString (number_or_NaN (Api.opt_field params Api.since_id)))
     ++ pair_if (Notions.supplied (Api.opt_field params Api.unread_only)) "unread_only"
          (Js.bool_toString (Notions.bool_or_false (Api.opt_field params Api.unread_only)))
     ++ pair_if (Js.truthy_number (Api.opt_field params Api.limit)) "limit"
          (Js.number_toString (number_or_NaN (Api.opt_field params Api.limit))))%list.
Proof.
  unfold Api.getNotifications_searchParams, Api.append.
  destruct (Api.opt_field params Api.since_id) as [n|];
    destruct (Api.opt_field params Api.unread_only) as [b|];
    destruct (Api.opt_field params Api.limit) as [l|];
    try destruct (Js.truthy_number (Some l)); reflexivity.
Qed.

Lemma supplied_iff {A} (o : option A) :
  Notions.supplied o = true <-> exists a, o = Some a.
Proof.
  destruct o as [a|]; simpl; split; eauto; try discriminate.
  intros [a H]. discriminate.
Qed.

(** X1.  The request of [getNotifications] carries [since_id] whenever the
    caller supplied one, 0 included, and [unread_only] whenever it supplied
    one, [false] included; [limit] is carried only when it is neither 0 nor
    NaN.  The parameters come in that order and nothing else is appended. *)
Theorem getNotifications_parameters :
  forall params : option Api.getNotifications_params,
    let sp := Api.getNotifications_searchParams params in
    (Api.has sp "since_id" = true
       <-> exists n, Api.opt_field params Api.since_id = Some n)
    /\ (Api.has sp "unread_only" = true
          <-> exists b, Api.opt_field params Api.unread_only = Some b)
    /\ (Api.has sp "limit" = true
          <-> exists n, Api.opt_field params Api.limit = Some (Js.Int n) /\ n <> 0)
    /\ (forall n, Api.opt_field params Api.since_id = Some n ->
                  In ("since_id", Js.number_toString n) sp)
    /\ (forall b, Api.opt_field params Api.unread_only = Some b ->
                  In ("unread_only", Js.bool_toString b) sp)
    /\ (forall name, Api.has sp name = true ->
                     name = "since_id" \/ name = "unread_only" \/ name = "limit")
    /\ (exists first second third,
          sp = (first ++ second ++ third)%list
          /\ (forall p, In p first -> fst p = "since_id")
          /\ (forall p, In p second -> fst p = "unread_only")
          /\ (forall p, In p third -> fst p = "limit")).
Proof.
  intros params sp. subst sp. rewrite getNotifications_searchParams_eq.
  repeat rewrite has_app. repeat rewrite has_pair_if.
  split; [|split; [|split; [|split; [|split; [|split]]]]].
  - change (String.eqb "since_id" "since_id") with true.
    change (String.eqb "unread_only" "since_id") with false.
    change (String.eqb "limit" "since_id") with false.
    rewrite !andb_false_r, !orb_false_r, andb_true_r. apply supplied_iff.
  - change (String.eqb "since_id" "unread_only") with false.
    change (String.eqb "unread_only" "unread_only") with true.
    change (String.eqb "limit" "unread_only") with false.
    rewrite !andb_false_r, !orb_false_r, andb_true_r. apply supplied_iff.
  - change (String.eqb "since_id" "limit") with false.
    change (String.eqb "unread_only" "limit") with false.
    change (String.eqb "limit" "limit") with true.
    rewrite !andb_false_r, andb_true_r. apply truthy_number_iff.
  - intros n Hn. rewrite Hn. apply in_or_app. left. simpl. now left.
  - intros b Hb. rewrite Hb. apply in_or_app. right. apply in_or_app. left.
    simpl. now left.
  - intros name Hname.
    repeat rewrite has_app in Hname. repeat rewrite has_pair_if in Hname.
    apply orb_true_iff in Hname. destruct Hname as [H|H].
    + apply andb_true_iff in H. destruct H as [_ H].
      apply String.eqb_eq in H. now left.
    + apply orb_true_iff in H. destruct H as [H|H];
        apply andb_true_iff in H; destruct H as [_ H];
        apply String.eqb_eq in H; auto.
  - eexists _, _, _. split; [reflexivity|].
    repeat split; intros p Hp; apply In_pair_if in Hp; destruct Hp as [_ ->];
      reflexivity.
Qed.

Lemma USE_MOCK_API_iff e :
  Api.USE_MOCK_API e = true <-> Api.NEXT_PUBLIC_USE_MOCK_API e = Some "true".
Proof.
  unfold Api.USE_MOCK_API. destruct (Api.NEXT_PUBLIC_USE_MOCK_API e) as [s|].
  - rewrite String.eqb_eq. split; [now intros -> | intros H; now inversion H].
  - split; discriminate.
Qed.

(** X2.  The mock is consulted only when NEXT_PUBLIC_USE_MOCK_API is exactly
    "true", and then only by the operations that have one: with any other
    setting the outcome of an operation does not depend on the mock, the
    status and capture-control operations always go to the network, and
    with the mock on the other operations never touch the network. *)
Theorem mock_is_used_only_when_enabled :
  forall e fetch op (mock1 mock2 : Api.operation -> Js.res Js.value),
    (Api.NEXT_PUBLIC_USE_MOCK_API e <> Some "true" ->
       Api.run e mock1 fetch op = Api.run e mock2 fetch op
       /\ Api.run e mock1 fetch op
          = Api.fetchAPI e fetch (fst (Api.fetch_arguments op))
              (snd (Api.fetch_arguments op)))
    /\ (op = Api.getStatus \/ op = Api.startCapture \/ op = Api.stopCapture ->
          Api.run e mock1 fetch op = Api.run e mock2 fetch op)
    /\ (Api.NEXT_PUBLIC_USE_MOCK_API e = Some "true" ->
          (op <> Api.getStatus /\ op <> Api.startCapture /\ op <> Api.stopCapture) ->
          forall fetch', Api.run e mock1 fetch op = Api.run e mock1 fetch' op).
Proof.
  intros e fetch op mock1 mock2. split; [|split].
  - intros Hne.
    assert (Hm : Api.USE_MOCK_API e = false).
    { destruct (Api.USE_MOCK_API e) eqn:H; [|reflexivity].
      apply USE_MOCK_API_iff in H. contradiction. }
    unfold Api.run. rewrite Hm. simpl. auto.
  - intros [->|[->| ->]]; unfold Api.run; simpl; now rewrite andb_false_r.
  - intros Hon [H1 [H2 H3]] fetch'.
    apply USE_MOCK_API_iff in Hon. unfold Api.run. rewrite Hon.
    destruct op; try reflexivity; congruence.
Qed.

Lemma mock_is_used_only_when_enabled_witness :
  Api.run Sample.no_env (fun _ => Js.Ok Js.VNull) (fun _ => Js.Ok Sample.not_found)
    Api.getKeybinds
  = Api.run Sample.no_env (fun _ => Js.Throw (Js.JsError "Error" "mock"))
      (fun _ => Js.Ok Sample.not_found) Api.getKeybinds.
Proof.
  exact (proj1 (proj1
    (mock_is_used_only_when_enabled Sample.no_env (fun _ => Js.Ok Sample.not_found)
       Api.getKeybinds (fun _ => Js.Ok Js.VNull)
       (fun _ => Js.Throw (Js.JsError "Error" "mock")))
    ltac:(discriminate))).
Defined.

Lemma API_BASE_URL_not_empty e : Api.API_BASE_URL e <> "".
Proof.
  unfold Api.API_BASE_URL. destruct (Api.NEXT_PUBLIC_API_BASE_URL e) as [s|].
  - destruct (String.eqb_spec s ""); [discriminate | assumption].
  - discriminate.
Qed.

(** X3.  Every request made through [fetchAPI] goes to a non-empty base URL
    (the configured one, or http://localhost:8000 when none or an empty one
    is configured), declares a JSON content type, and carries a body only
    when it is a POST. *)
Theorem requests_are_well_formed :
  forall e op,
    let r := Api.request_for e op in
    Api.req_base r <> ""
    /\ (forall u, Api.NEXT_PUBLIC_API_BASE_URL e = Some u -> u <> "" -> Api.req_base r = u)
    /\ (Api.NEXT_PUBLIC_API_BASE_URL e = None \/ Api.NEXT_PUBLIC_API_BASE_URL e = Some "" ->
        Api.req_base r = "http://localhost:8000")
    /\ Api.req_headers r = [("Content-Type", "application/json")]
    /\ (forall b, Api.req_body r = Some b -> Api.req_method r = Some "POST")
    /\ (Api.req_method r = None \/ Api.req_method r = Some "POST"
        \/ Api.req_method r = Some "DELETE").
Proof.
  intros e op r. subst r. unfold Api.request_for, Api.fetch_request. simpl.
  split; [apply API_BASE_URL_not_empty|]. split; [|split; [|split; [|split]]].
  - intros u Hu Hne. unfold Api.API_BASE_URL. rewrite Hu.
    apply String.eqb_neq in Hne. now rewrite Hne.
  - intros [H|H]; unfold Api.API_BASE_URL; now rewrite H.
  - reflexivity.
  - intros b. destruct op; simpl; intros H; try discriminate; reflexivity.
  - destruct op; simpl; auto.
Qed.

(** ** The toast store *)

Lemma removeToast_In i toasts t :
  In t (ToastStore.removeToast i toasts) <-> In t toasts /\ ToastStore.id t <> i.
Proof.
  unfold ToastStore.removeToast. rewrite filter_In, negb_true_iff.
  now rewrite String.eqb_neq.
Qed.

Lemma removeToast_absent i toasts :
  (forall t, In t toasts -> ToastStore.id t <> i) ->
  ToastStore.removeToast i toasts = toasts.
Proof.
  intros H. unfold ToastStore.removeToast. apply forallb_filter_id.
  apply forallb_forall. intros t Ht. apply negb_true_iff, String.eqb_neq. now apply H.
Qed.

(** X4.  Closing a toast removes every toast that has its id and no other,
    keeping the order of the rest.  A toast added under an id no other toast
    has is removed again by closing it, which gives back the list as it
    was; closing an id that is not there changes nothing. *)
Theorem closing_a_toast_removes_that_toast :
  forall (toasts : list ToastStore.Toast) (i : string) (toast : ToastStore.props),
    (forall t, In t (ToastStore.removeToast i toasts)
               <-> In t toasts /\ ToastStore.id t <> i)
    /\ (forall j, j <> i ->
          ToastStore.removeToast j (ToastStore.addToast i toast toasts)
          = ToastStore.addToast i toast (ToastStore.removeToast j toasts))
    /\ ((forall t, In t toasts -> ToastStore.id t <> i) ->
          ToastStore.removeToast i (ToastStore.addToast i toast toasts) = toasts
          /\ ToastStore.removeToast i toasts = toasts)
    /\ ToastStore.removeToast i (ToastStore.removeToast i toasts)
       = ToastStore.removeToast i toasts.
Proof.
  intros toasts i toast. split; [|split; [|split]].
  - intros t. apply removeToast_In.
  - intros j Hne. unfold ToastStore.removeToast, ToastStore.addToast.
    rewrite filter_app. simpl.
    apply not_eq_sym, String.eqb_neq in Hne. now rewrite Hne.
  - intros Hfresh. split; [|now apply removeToast_absent].
    unfold ToastStore.addToast, ToastStore.removeToast. rewrite filter_app. simpl.
    rewrite String.eqb_refl. simpl. rewrite app_nil_r.
    now apply removeToast_absent.
  - apply removeToast_absent. intros t Ht. apply removeToast_In in Ht. tauto.
Qed.

(** ** The tabs of the page *)

Lemma click_is_a_tab currentTab i :
  In currentTab (map fst Layout.tabs) ->
  In (Layout.click currentTab i) (map fst Layout.tabs).
Proof.
  intros H. unfold Layout.click.
  destruct (nth_error Layout.tabs i) as [tab|] eqn:Hn; [|assumption].
  apply in_map. now apply (nth_error_In _ i).
Qed.

Lemma clicks_is_a_tab picks : forall currentTab,
  In currentTab (map fst Layout.tabs) ->
  In (fold_left Layout.click picks currentTab) (map fst Layout.tabs).
Proof.
  induction picks as [|i picks IH]; intros currentTab H; simpl; [assumption|].
  apply IH. now apply click_is_a_tab.
Qed.

(** ** The search form, further *)

Lemma trimStart_blank s : Notions.blank (Js.trimStart s) = Notions.blank s.
Proof.
  induction s as [|c s IH]; simpl; [reflexivity|].
  destruct (Js.is_whitespace c) eqn:Hc; simpl; [assumption | now rewrite Hc].
Qed.

Lemma trimEnd_empty_iff s : Js.trimEnd s = "" <-> Notions.blank s = true.
Proof.
  induction s as [|c s IH]; simpl; [tauto|].
  destruct (Js.trimEnd s) as [|c' s'] eqn:Ht.
  - destruct (Js.is_whitespace c); simpl.
    + rewrite <- IH. tauto.
    + split; discriminate.
  - split; [discriminate|]. intros H. apply andb_true_iff in H. destruct H as [_ H].
    apply IH in H. discriminate.
Qed.

Lemma trim_empty_iff s : Js.trim s = "" <-> Notions.blank s = true.
Proof. unfold Js.trim. now rewrite trimEnd_empty_iff, trimStart_blank. Qed.

(** X6.  A query is refused exactly when it holds nothing but white space.
    A refused query makes no request and opens no event source: it only
    adds an error toast, and the results and the answer of the previous
    query stay on screen.  Any other query starts a request or a stream. *)
Theorem blank_query_submits_nothing :
  forall e ms s,
    let s' := SearchTab.ui_step e ms s SearchTab.Enter in
    (snd (SearchTab.handleSearch e ms (SearchTab.tab s)) = SearchTab.NoRequest
       <-> Notions.blank (SearchTab.query (SearchTab.tab s)) = true)
    /\ (Notions.blank (SearchTab.query (SearchTab.tab s)) = true ->
          SearchTab.sources s' = SearchTab.sources s
          /\ SearchTab.tab s'
             = SearchTab.toast
                 (SearchTab.error_toast (Js.VStr "Please enter a search query"))
                 (SearchTab.tab s)
          /\ SearchTab.searchResults (SearchTab.tab s')
             = SearchTab.searchResults (SearchTab.tab s)
          /\ SearchTab.ragResponse (SearchTab.tab s')
             = SearchTab.ragResponse (SearchTab.tab s)
          /\ SearchTab.streamingAnswer (SearchTab.tab s')
             = SearchTab.streamingAnswer (SearchTab.tab s)
          /\ SearchTab.loading (SearchTab.tab s') = SearchTab.loading (SearchTab.tab s)).
Proof.
  intros e ms s s'. subst s'.
  unfold SearchTab.ui_step, SearchTab.submit, SearchTab.handleSearch.
  simpl. destruct (String.eqb_spec (Js.trim (SearchTab.query (SearchTab.tab s))) "")
    as [Hq|Hq]; simpl.
  - apply trim_empty_iff in Hq. split; [tauto|]. intros _. repeat split; reflexivity.
  - assert (Hb : Notions.blank (SearchTab.query (SearchTab.tab s)) = false).
    { destruct (Notions.blank (SearchTab.query (SearchTab.tab s))) eqn:H; [|reflexivity].
      apply trim_empty_iff in H. contradiction. }
    rewrite Hb. split; [|discriminate].
    split; [|discriminate].
    destruct (SearchTab.useRag (SearchTab.tab s));
      [destruct (SearchTab.streamEnabled (SearchTab.tab s))|]; discriminate.
Qed.

(** ** The consumer of the streaming channel, further *)

Lemma mapM_transform_null l :
  In Js.VNull l \/ In Js.VUndefined l ->
  exists e, Js.mapM SearchTab.transform l = Js.Throw e.
Proof.
  induction l as [|a l IH]; intros H; [destruct H as [[]|[]]|].
  assert (Hcases : a = Js.VNull \/ a = Js.VUndefined
                   \/ (In Js.VNull l \/ In Js.VUndefined l)).
  { destruct H as [[H|H]|[H|H]]; auto. }
  destruct Hcases as [->|[->|Hrest]]; try (eexists; reflexivity).
  simpl. destruct (SearchTab.transform a) as [b|e]; simpl; [|eauto].
  destruct (IH Hrest) as [e He]. rewrite He. simpl. eauto.
Qed.

(** X8.  A message the handler cannot use is dropped without any effect, and
    the stream goes on: a message that is not JSON, the JSON value null, a
    sources event whose [sources] is not an array, and a sources event with
    a null among its sources, in which case none of its sources is shown. *)
Theorem unusable_messages_are_dropped :
  forall (c : Api.EventSource * SearchTab.state),
    (forall e, SearchTab.dispatch c (SearchTab.Message (Js.Throw e)) = c)
    /\ SearchTab.dispatch c (SearchTab.Message (Js.Ok Js.VNull)) = c
    /\ (forall data,
          Js.get data "type" = Js.Ok (Js.VStr "metadata") ->
          (forall l, Js.get data "sources" <> Js.Ok (Js.VArr l)) ->
          SearchTab.dispatch c (SearchTab.Message (Js.Ok data)) = c)
    /\ (forall data l,
          Js.get data "type" = Js.Ok (Js.VStr "metadata") ->
          Js.get data "sources" = Js.Ok (Js.VArr l) ->
          In Js.VNull l \/ In Js.VUndefined l ->
          SearchTab.dispatch c (SearchTab.Message (Js.Ok data)) = c).
Proof.
  intros [es st]. unfold SearchTab.dispatch. cbn [fst snd].
  destruct (Api.closed es); [repeat split; reflexivity|].
  split; [reflexivity|]. split; [reflexivity|]. split.
  - intros data Ht Hs. rewrite (onmessage_branches es st data _ Ht). simpl.
    destruct (Js.get data "sources") as [sources|e]; simpl; [|reflexivity].
    destruct sources; try reflexivity. exfalso. now apply (Hs elems).
  - intros data l Ht Hs Hnull. rewrite (onmessage_branches es st data _ Ht). simpl.
    rewrite Hs. simpl. destruct (mapM_transform_null l Hnull) as [e He].
    now rewrite He.
Qed.

Lemma dispatch_nonterminal_keeps c ev :
  Api.closed (fst c) = false ->
  Stream.is_terminal ev = false ->
  SearchTab.loading (snd (SearchTab.dispatch c ev)) = SearchTab.loading (snd c)
  /\ SearchTab.toasts (snd (SearchTab.dispatch c ev)) = SearchTab.toasts (snd c).
Proof.
  destruct c as [es st]. simpl. intros Hopen Hterm.
  unfold SearchTab.dispatch. simpl. rewrite Hopen.
  destruct ev as [parsed|]; [|discriminate].
  destruct parsed as [data|e]; [|simpl; auto].
  simpl in Hterm. unfold Stream.message_type in Hterm.
  destruct (Js.get data "type") as [t|e] eqn:Ht.
  - rewrite (onmessage_branches es st data t Ht).
    destruct (get_total data "type" "content" t Ht) as [content Hc]. rewrite Hc. simpl.
    apply orb_false_iff in Hterm. destruct Hterm as [Hd He]. rewrite Hd, He.
    destruct (Js.strict_eq_string t "answer_chunk"); [simpl; auto|].
    destruct (Js.strict_eq_string t "metadata"); [|simpl; auto].
    destruct (Js.get data "sources") as [sources|e]; simpl; auto.
    destruct (Js.array_map SearchTab.transform sources); simpl; auto.
  - unfold SearchTab.onmessage. simpl. rewrite Ht. simpl. auto.
Qed.

Lemma dispatch_terminal_toast c ev :
  Api.closed (fst c) = false ->
  Stream.is_terminal ev = true ->
  SearchTab.toasts (snd (SearchTab.dispatch c ev))
  = (SearchTab.toasts (snd c) ++ Notions.stream_toast [ev])%list.
Proof.
  destruct c as [es st]. simpl. intros Hopen Hterm. rewrite Hterm.
  unfold SearchTab.dispatch. simpl. rewrite Hopen.
  destruct ev as [parsed|]; [|reflexivity].
  destruct parsed as [data|e]; [|discriminate].
  simpl in Hterm. unfold Stream.message_type in *.
  destruct (Js.get data "type") as [t|e] eqn:Ht; [|discriminate].
  rewrite (onmessage_branches es st data t Ht).
  destruct (get_total data "type" "content" t Ht) as [content Hc]. rewrite Hc. simpl.
  apply orb_true_iff in Hterm. destruct Hterm as [H|H];
    apply strict_eq_string_true in H; subst t; simpl;
    [now rewrite app_nil_r | reflexivity].
Qed.

Lemma deliver_cons ev evs c :
  SearchTab.deliver (ev :: evs) c = SearchTab.deliver evs (SearchTab.dispatch c ev).
Proof. reflexivity. Qed.

Lemma stream_toast_cons ev evs :
  Notions.stream_toast (ev :: evs)
  = if Stream.is_terminal ev then Notions.stream_toast [ev] else Notions.stream_toast evs.
Proof. simpl. destruct (Stream.is_terminal ev); reflexivity. Qed.

Lemma stream_toast_length evs : (length (Notions.stream_toast evs) <= 1)%nat.
Proof.
  induction evs as [|ev evs IH]; [simpl; lia|].
  rewrite stream_toast_cons. destruct (Stream.is_terminal ev); [|assumption].
  simpl. destruct (Stream.is_terminal ev); [|simpl; lia].
  destruct ev as [parsed|]; [|simpl; lia].
  destruct (Js.strict_eq_string (Stream.message_type parsed) "done"); simpl; lia.
Qed.

(** X10.  A stream adds at most one toast: none when it ends with a done
    message or has not ended, and otherwise the error toast of its first
    terminal event, which shows the [content] of the error message when it
    has one and "Streaming failed" when it has none or when the connection
    failed. *)
Theorem a_stream_adds_at_most_one_toast :
  forall evs c,
    Api.closed (fst c) = false ->
    SearchTab.toasts (snd (SearchTab.deliver evs c))
    = (SearchTab.toasts (snd c) ++ Notions.stream_toast evs)%list
    /\ (length (Notions.stream_toast evs) <= 1)%nat
    /\ (existsb Stream.is_terminal evs = false -> Notions.stream_toast evs = [])
    /\ (forall t, In t (Notions.stream_toast evs) ->
          Toasts.title t = Js.VStr "Error" /\ Toasts.variant t = "destructive"
          /\ Js.truthy (Toasts.description t) = true).
Proof.
  induction evs as [|ev evs IH]; intros c Hopen.
  - simpl. rewrite app_nil_r.
    split; [reflexivity|]. split; [lia|]. split; [reflexivity|]. intros t [].
  - split; [|split; [apply stream_toast_length|split]].
    + rewrite stream_toast_cons, deliver_cons.
      destruct (Stream.is_terminal ev) eqn:Hterm.
      * destruct (dispatch_terminal c ev Hopen Hterm) as [Hc _].
        rewrite (deliver_closed evs _ Hc). now apply dispatch_terminal_toast.
      * destruct (dispatch_nonterminal c ev Hopen Hterm) as [Hc _].
        destruct (dispatch_nonterminal_keeps c ev Hopen Hterm) as [_ Ht].
        destruct (IH _ Hc) as [Heq _]. now rewrite Heq, Ht.
    + simpl. destruct (Stream.is_terminal ev); [discriminate|].
      simpl. intros Hex. destruct (IH c Hopen) as [_ [_ [H _]]]. now apply H.
    + intros t. rewrite stream_toast_cons.
      destruct (Stream.is_terminal ev) eqn:Hterm.
      * simpl. rewrite Hterm. destruct ev as [parsed|].
        -- destruct (Js.strict_eq_string (Stream.message_type parsed) "done");
             [intros []|].
           intros [<-|[]]. simpl. split; [reflexivity|]. split; [reflexivity|].
           unfold Js.or_else.
           match goal with
           | |- Js.truthy (if Js.truthy ?v then _ else _) = true =>
               destruct (Js.truthy v) eqn:Htr; [exact Htr | reflexivity]
           end.
        -- intros [<-|[]]. simpl. auto.
      * destruct (IH c Hopen) as [_ [_ [_ H]]]. apply H.
Qed.

Lemma a_stream_adds_at_most_one_toast_witness :
  SearchTab.toasts
    (snd (SearchTab.deliver
            [SearchTab.Message (Js.Ok (Js.VObj [("type", Js.VStr "error")]));
             SearchTab.ConnectionError]
            (Stream.open_source Sample.local_stream, SearchTab.initial)))
  = [SearchTab.error_toast (Js.VStr "Streaming failed")].
Proof.
  exact (proj1
    (a_stream_adds_at_most_one_toast
       [SearchTab.Message (Js.Ok (Js.VObj [("type", Js.VStr "error")]));
        SearchTab.ConnectionError]
       (Stream.open_source Sample.local_stream, SearchTab.initial) eq_refl)).
Defined.

(** X11.  Submitting a query closes no event source: the sources opened by
    earlier queries are kept as they are and at most one is added.  A
    source that is still open, whichever query opened it, appends the
    fragments it delivers to the answer on screen. *)
Theorem earlier_sources_keep_feeding_the_answer :
  forall e ms s,
    let s' := SearchTab.ui_step e ms s SearchTab.Enter in
    (exists opened,
       SearchTab.sources s' = (SearchTab.sources s ++ opened)%list
       /\ (length opened <= 1)%nat)
    /\ (forall i es ev,
          nth_error (SearchTab.sources s') i = Some es ->
          Api.closed es = false ->
          Stream.is_terminal ev = false ->
          SearchTab.streamingAnswer
            (SearchTab.tab (SearchTab.ui_step e ms s' (SearchTab.Channel i ev)))
          = SearchTab.streamingAnswer (SearchTab.tab s') ++ Stream.chunk_text ev).
Proof.
  intros e ms s s'. split.
  - subst s'. unfold SearchTab.ui_step, SearchTab.submit.
    destruct (SearchTab.handleSearch e ms (SearchTab.tab s)) as [st [|es|op]]; simpl.
    + exists []. rewrite app_nil_r. split; [reflexivity | simpl; lia].
    + exists [es]. split; [reflexivity | simpl; lia].
    + exists []. rewrite app_nil_r. split; [reflexivity | simpl; lia].
  - intros i es ev Hn Hopen Hterm. unfold SearchTab.ui_step at 1. rewrite Hn.
    cbn [SearchTab.tab].
    now destruct (dispatch_nonterminal (es, SearchTab.tab s') ev Hopen Hterm) as [_ H].
Qed.

(** ** Previews of long texts *)

Lemma length_append (a b : string) :
  String.length (a ++ b) = (String.length a + String.length b)%nat.
Proof. induction a as [|c a IH]; simpl; [reflexivity | now rewrite IH]. Qed.

Lemma length_substring_0 n : forall s,
  String.length (substring 0 n s) = Nat.min n (String.length s).
Proof.
  induction n as [|n IH]; intros s; [now destruct s|].
  destruct s as [|c s]; simpl; [reflexivity | now rewrite IH].
Qed.

Lemma substring_0_prefix n : forall s, prefix (substring 0 n s) s = true.
Proof.
  induction n as [|n IH]; intros s; [now destruct s|].
  destruct s as [|c s]; simpl; [reflexivity|].
  destruct (ascii_dec c c) as [_|Hne]; [apply IH | congruence].
Qed.

Lemma preview_spec n s :
  ((String.length s <= n)%nat -> JsString.preview n s = s)
  /\ ((n < String.length s)%nat ->
        JsString.preview n s = substring 0 n s ++ "..."
        /\ String.length (JsString.preview n s) = (n + 3)%nat)
  /\ (String.length (JsString.preview n s) <= n + 3)%nat
  /\ (String.length (JsString.preview n s) <= String.length s + 3)%nat.
Proof.
  unfold JsString.preview. destruct (Nat.ltb_spec n (String.length s)) as [H|H].
  - assert (Hl : String.length (substring 0 n s ++ "...") = (n + 3)%nat).
    { rewrite length_append, length_substring_0. simpl. lia. }
    split; [lia|]. split; [auto|]. rewrite Hl. lia.
  - split; [reflexivity|]. split; [lia|]. lia.
Qed.

(** X12.  The text printed on a result card is the content itself when it
    has at most 300 characters, and otherwise its first 300 characters
    followed by "...": it never exceeds 303 characters and always starts as
    the content does. *)
Theorem result_excerpt_is_bounded :
  forall content : string,
    ((String.length content <= 300)%nat -> SearchTab.excerpt content = content)
    /\ ((300 < String.length content)%nat ->
          SearchTab.excerpt content = substring 0 300 content ++ "..."
          /\ String.length (SearchTab.excerpt content) = 303%nat)
    /\ (String.length (SearchTab.excerpt content) <= 303)%nat
    /\ prefix (substring 0 300 (SearchTab.excerpt content)) content = true.
Proof.
  intros content.
  change (SearchTab.excerpt content) with (JsString.preview 300 content).
  destruct (preview_spec 300 content) as [H1 [H2 [H3 _]]].
  split; [exact H1|]. split; [exact H2|]. split; [exact H3|].
  destruct (Nat.ltb_spec 300 (String.length content)) as [H|H].
  - destruct (H2 H) as [-> _].
    assert (Hp : substring 0 300 (substring 0 300 content ++ "...")
                 = substring 0 300 content).
    { assert (Hl : String.length (substring 0 300 content) = 300%nat).
      { rewrite length_substring_0. lia. }
      rewrite <- Hl at 1. apply prefix_correct.
      clear. induction (substring 0 300 content) as [|c s IH]; simpl; [reflexivity|].
      destruct (ascii_dec c c) as [_|Hne]; [exact IH | congruence]. }
    rewrite Hp. apply substring_0_prefix.
  - rewrite (H1 H). apply substring_0_prefix.
Qed.

(** ** The notification poller, further *)

Lemma show_keeps_marked st notif :
  Home.marked (Home.show st notif) = Home.marked st.
Proof.
  destruct notif as [n|]; [|reflexivity]. unfold Home.show.
  now destruct (Js.truthy_string (Home.title n)).
Qed.

Lemma fold_show_marked l : forall st,
  Home.marked (fold_left Home.show l st) = Home.marked st.
Proof.
  induction l as [|notif l IH]; intros st; simpl; [reflexivity|].
  now rewrite IH, show_keeps_marked.
Qed.

Lemma fold_show_displayed l : forall st,
  Home.displayed (fold_left Home.show l st)
  = (Home.displayed st ++ Notions.titled l)%list
  /\ Home.toasts (fold_left Home.show l st)
     = (Home.toasts st ++ map Home.toast_of (Notions.titled l))%list.
Proof.
  induction l as [|notif l IH]; intros st; simpl.
  - now rewrite !app_nil_r.
  - destruct (IH (Home.show st notif)) as [Hd Ht]. rewrite Hd, Ht.
    destruct notif as [n|]; [|auto]. unfold Home.show, Notions.titled. simpl.
    destruct (Js.truthy_string (Home.title n)); simpl; [|auto].
    unfold Toasts.addToast. rewrite <- !app_assoc. auto.
Qed.

Lemma fold_mark_marked l : forall st,
  Home.marked (fold_left Home.mark l st)
  = (Home.marked st ++ Notions.ids_to_mark l)%list.
Proof.
  induction l as [|notif l IH]; intros st; simpl; [now rewrite app_nil_r|].
  rewrite IH. destruct notif as [n|]; [|reflexivity].
  unfold Home.mark, Notions.ids_to_mark. simpl.
  destruct (Home.id n) as [i|]; [|reflexivity].
  destruct (i =? 0); simpl; [reflexivity | now rewrite <- app_assoc].
Qed.

(** X13.  For a response the poller shows one toast per notification that
    has a title, in the order received, and asks to mark as read every
    notification with a non-zero id, in the order received, whether it was
    shown or not: a notification without a title is marked as read without
    ever being shown.  A rejected request, or a response without a
    notification array, changes nothing and marks nothing. *)
Theorem poller_marks_every_notification_read :
  forall st (notifications : list (option Home.notification)),
    let st' := Home.pollNotifications_settle st (Js.Ok (Some notifications)) in
    Home.marked st' = (Home.marked st ++ Notions.ids_to_mark notifications)%list
    /\ Home.displayed st' = (Home.displayed st ++ Notions.titled notifications)%list
    /\ Home.toasts st'
       = (Home.toasts st ++ map Home.toast_of (Notions.titled notifications))%list
    /\ (forall n i,
          In (Some n) notifications -> Home.id n = Some i -> i <> 0 ->
          In i (Home.marked st'))
    /\ (forall n,
          In n (Notions.titled notifications)
          <-> In (Some n) notifications /\ Js.truthy_string (Home.title n) = true)
    /\ (forall e, Home.pollNotifications_settle st (Js.Throw e) = st)
    /\ Home.pollNotifications_settle st (Js.Ok None) = st.
Proof.
  intros st notifications st'. subst st'. simpl.
  destruct (fold_mark_keeps notifications (fold_left Home.show notifications st))
    as [_ [Hd Ht]].
  destruct (fold_show_displayed notifications st) as [Hd' Ht'].
  assert (Hm : Home.marked (fold_left Home.mark notifications
                              (fold_left Home.show notifications st))
               = (Home.marked st ++ Notions.ids_to_mark notifications)%list).
  { now rewrite fold_mark_marked, fold_show_marked. }
  split; [exact Hm|]. split; [now rewrite Hd|]. split; [now rewrite Ht|].
  split; [|split; [|split; reflexivity]].
  - intros n i Hin Hid Hne. rewrite Hm. apply in_or_app. right.
    unfold Notions.ids_to_mark. apply in_flat_map. exists (Some n).
    split; [assumption|]. rewrite Hid.
    apply Z.eqb_neq in Hne. rewrite Hne. now left.
  - intros n. unfold Notions.titled. rewrite in_flat_map. split.
    + intros [notif [Hin Hn]]. destruct notif as [m|]; [|destruct Hn].
      destruct (Js.truthy_string (Home.title m)) eqn:Htitle; [|destruct Hn].
      destruct Hn as [<-|[]]. auto.
    + intros [Hin Htitle]. exists (Some n). split; [assumption|].
      rewrite Htitle. now left.
Qed.

(** X14.  The toast of a notification is drawn as an error (the destructive
    variant) exactly when the status of the notification is "error"; for
    any other status, "warning" included, it has the default variant.  So
    it always has one of the styles of the toast component, and never the
    warning or the success one. *)
Theorem notification_toast_variant :
  forall n : Home.notification,
    (Toasts.variant (Home.toast_of n) = "destructive"
       <-> Home.status n = Some "error")
    /\ (Home.status n <> Some "error" -> Toasts.variant (Home.toast_of n) = "default")
    /\ (ToastStore.variantStyles (Toasts.variant (Home.toast_of n))
          = Some "border-red-500 bg-red-50 dark:bg-red-950"
        \/ ToastStore.variantStyles (Toasts.variant (Home.toast_of n))
           = Some "border-border bg-card")
    /\ Toasts.title (Home.toast_of n)
       = Js.VStr (match Home.title n with Some t => t | None => "" end)
    /\ (Home.message n = None -> Toasts.description (Home.toast_of n) = Js.VStr "").
Proof.
  intros n. unfold Home.toast_of. simpl.
  destruct (Home.status n) as [s|].
  - destruct (String.eqb_spec s "error") as [->|Hne].
    + split; [tauto|]. split; [congruence|]. split; [now left|].
      split; [reflexivity|]. now intros ->.
    + assert (Hv : (if String.eqb s "warning" then "default" else "default") = "default")
        by now destruct (String.eqb s "warning").
      rewrite Hv. split.
      * split; [discriminate | intros H; inversion H; contradiction].
      * split; [reflexivity|]. split; [now right|].
        split; [reflexivity|]. now intros ->.
  - split; [split; discriminate|]. split; [reflexivity|]. split; [now right|].
    split; [reflexivity|]. now intros ->.
Qed.

(** ** The files of the upload form *)

Example supported_examples :
  UploadFiles.supported "notes.txt" = true
  /\ UploadFiles.supported "Report.PDF" = true
  /\ UploadFiles.supported "thesis.final.DocX" = true
  /\ UploadFiles.supported "archive.txt.zip" = false
  /\ UploadFiles.supported "txt" = false
  /\ UploadFiles.supported "photo.png" = false
  /\ UploadFiles.supported ".pdf" = true.
Proof. repeat split; reflexivity. Qed.

Lemma filter_length_forallb {A} (f : A -> bool) (l : list A) :
  (length (filter f l) =? length l)%nat = forallb f l.
Proof.
  induction l as [|a l IH]; [reflexivity|]. simpl.
  pose proof (filter_length_le f l) as Hle.
  destruct (f a); simpl; [exact IH|].
  apply Nat.eqb_neq. lia.
Qed.

Lemma mapM_read_names l : forall uploaded,
  Js.mapM UploadFiles.read l = Js.Ok uploaded ->
  map UploadFiles.name uploaded = map UploadFiles.file_name l
  /\ map (fun u => Js.Ok (UploadFiles.content u)) uploaded = map UploadFiles.file_text l.
Proof.
  induction l as [|f l IH]; intros uploaded H; simpl in H.
  - inversion H. auto.
  - unfold UploadFiles.read in H at 1.
    destruct (UploadFiles.file_text f) as [t|e] eqn:Ht; simpl in H; [|discriminate].
    destruct (Js.mapM UploadFiles.read l) as [us|e]; simpl in H; [|discriminate].
    inversion H; subst. destruct (IH us eq_refl) as [Hn Hc]. simpl.
    now rewrite Hn, Hc, Ht.
Qed.

Lemma mapM_read_total l :
  Forall (fun f => exists t, UploadFiles.file_text f = Js.Ok t) l ->
  exists uploaded, Js.mapM UploadFiles.read l = Js.Ok uploaded.
Proof.
  induction 1 as [|f l [t Ht] _ [us IH]]; [now exists []|].
  simpl. unfold UploadFiles.read at 1. rewrite Ht. simpl. rewrite IH. simpl. eauto.
Qed.

(** X15.  Of the files dropped or selected, the upload form takes those
    whose name ends in .txt, .pdf or .docx, in any letter case, and adds
    them after the files it already lists, in the order given, each with the
    text read from it; the other files are left out, and a warning toast is
    shown exactly when there is one.  If a taken file cannot be read, no
    file is added at all. *)
Theorem handleFiles_takes_the_supported_files :
  forall (fileList : list UploadFiles.File) (st : UploadFiles.state),
    let st' := UploadFiles.handleFiles fileList st in
    let valid := filter (fun f => UploadFiles.supported (UploadFiles.file_name f)) fileList in
    (exists added,
       UploadFiles.files st' = (UploadFiles.files st ++ added)%list
       /\ Forall (fun u => UploadFiles.supported (UploadFiles.name u) = true) added
       /\ (added = []
           \/ (map UploadFiles.name added = map UploadFiles.file_name valid
               /\ map (fun u => Js.Ok (UploadFiles.content u)) added
                  = map UploadFiles.file_text valid)))
    /\ (Forall (fun f => exists t, UploadFiles.file_text f = Js.Ok t) valid ->
          map UploadFiles.name (UploadFiles.files st')
          = (map UploadFiles.name (UploadFiles.files st)
             ++ map UploadFiles.file_name valid)%list)
    /\ UploadFiles.toasts st'
       = (UploadFiles.toasts st
          ++ if forallb (fun f => UploadFiles.supported (UploadFiles.file_name f)) fileList
             then []
             else [{| ToastStore.title := Some "Warning";
                      ToastStore.description :=
                        Some "Only TXT, PDF, and DOCX files are supported";
                      ToastStore.variant := Some "warning" |}])%list
    /\ UploadFiles.tags st' = UploadFiles.tags st.
Proof.
  intros fileList st st' valid. subst st'. unfold UploadFiles.handleFiles.
  cbv zeta. rewrite filter_length_forallb. fold valid.
  set (warned := if negb (forallb _ fileList) then UploadFiles.toast _ st else st).
  assert (Hw : UploadFiles.files warned = UploadFiles.files st
               /\ UploadFiles.tags warned = UploadFiles.tags st
               /\ UploadFiles.toasts warned
                  = (UploadFiles.toasts st
                     ++ if forallb (fun f => UploadFiles.supported (UploadFiles.file_name f))
                             fileList
                        then []
                        else [{| ToastStore.title := Some "Warning";
                                 ToastStore.description :=
                                   Some "Only TXT, PDF, and DOCX files are supported";
                                 ToastStore.variant := Some "warning" |}])%list).
  { subst warned. destruct (forallb _ fileList); simpl; [now rewrite app_nil_r | auto]. }
  destruct Hw as [Hf [Ht Hto]].
  destruct (Js.mapM UploadFiles.read valid) as [uploaded|e] eqn:Hm; simpl.
  - destruct (mapM_read_names valid uploaded Hm) as [Hn Hc].
    split; [|split; [|split]].
    + exists uploaded. rewrite Hf. split; [reflexivity|]. split; [|right; auto].
      apply Forall_forall. intros u Hu.
      assert (Hin : In (UploadFiles.name u) (map UploadFiles.file_name valid)).
      { rewrite <- Hn. now apply in_map. }
      apply in_map_iff in Hin. destruct Hin as [f [Hname Hfin]].
      apply filter_In in Hfin. rewrite <- Hname. tauto.
    + intros _. now rewrite Hf, map_app, Hn.
    + exact Hto.
    + exact Ht.
  - split; [|split; [|split]].
    + exists []. rewrite app_nil_r. split; [exact Hf|]. split; [constructor | now left].
    + intros Hall. destruct (mapM_read_total valid Hall) as [us Hus]. congruence.
    + exact Hto.
    + exact Ht.
Qed.

Lemma filter_index_ext {A} (keep keep' : nat -> bool) (l : list A) : forall start,
  (forall i, keep i = keep' i) ->
  UploadFiles.filter_index keep start l = UploadFiles.filter_index keep' start l.
Proof.
  induction l as [|a l IH]; intros start H; simpl; [reflexivity|].
  now rewrite H, (IH (S start) H).
Qed.

Lemma filter_index_all {A} (keep : nat -> bool) (l : list A) : forall start,
  (forall i, (start <= i)%nat -> keep i = true) ->
  UploadFiles.filter_index keep start l = l.
Proof.
  induction l as [|a l IH]; intros start H; simpl; [reflexivity|].
  rewrite (H start) by lia. f_equal. apply IH. intros i Hi. apply H. lia.
Qed.

Lemma filter_index_spec {A} (l : list A) : forall index start,
  UploadFiles.filter_index (fun i => negb (i =? start + index)%nat) start l
  = (firstn index l ++ skipn (S index) l)%list.
Proof.
  induction l as [|a l IH]; intros index start.
  - now destruct index.
  - simpl. destruct index as [|index].
    + rewrite Nat.add_0_r, Nat.eqb_refl. simpl.
      apply filter_index_all. intros i Hi.
      apply negb_true_iff, Nat.eqb_neq. lia.
    + assert (Hne : (start =? start + S index)%nat = false) by (apply Nat.eqb_neq; lia).
      rewrite Hne. simpl. f_equal.
      etransitivity; [|apply (IH index (S start))].
      apply filter_index_ext. intros i. now rewrite Nat.add_succ_r.
Qed.

(** X16.  Removing a file takes away the file at the position clicked and
    no other: the files before it and after it stay, in order, so the list
    gets one shorter; with a position past the end nothing is removed. *)
Theorem removeFile_removes_one_position :
  forall (index : nat) (st : UploadFiles.state),
    let st' := UploadFiles.removeFile index st in
    UploadFiles.files st'
    = (firstn index (UploadFiles.files st) ++ skipn (S index) (UploadFiles.files st))%list
    /\ ((index < length (UploadFiles.files st))%nat ->
          S (length (UploadFiles.files st')) = length (UploadFiles.files st))
    /\ ((length (UploadFiles.files st) <= index)%nat ->
          UploadFiles.files st' = UploadFiles.files st)
    /\ (forall j, (j < index)%nat ->
          nth_error (UploadFiles.files st') j = nth_error (UploadFiles.files st) j)
    /\ (forall j, (index <= j)%nat ->
          nth_error (UploadFiles.files st') j = nth_error (UploadFiles.files st) (S j))
    /\ UploadFiles.tags st' = UploadFiles.tags st.
Proof.
  intros index st st'. subst st'. unfold UploadFiles.removeFile.
  cbn [UploadFiles.files UploadFiles.tags].
  pose proof (filter_index_spec (UploadFiles.files st) index 0) as H.
  cbn [Nat.add] in H. rewrite H. set (l := UploadFiles.files st).
  split; [reflexivity|]. split; [|split; [|split; [|split]]].
  - intros Hlt. rewrite length_app, length_firstn, length_skipn. lia.
  - intros Hge. rewrite firstn_all2 by lia. rewrite skipn_all2 by lia.
    apply app_nil_r.
  - intros j Hj. destruct (Nat.lt_ge_cases index (length l)) as [Hlt|Hge].
    + rewrite nth_error_app1 by (rewrite length_firstn; lia).
      now rewrite nth_error_firstn, (proj2 (Nat.ltb_lt j index) Hj).
    + rewrite firstn_all2 by lia. rewrite skipn_all2 by lia. now rewrite app_nil_r.
  - intros j Hj. destruct (Nat.lt_ge_cases index (length l)) as [Hlt|Hge].
    + rewrite nth_error_app2 by (rewrite length_firstn; lia).
      rewrite length_firstn, nth_error_skipn.
      f_equal. lia.
    + rewrite firstn_all2 by lia. rewrite skipn_all2 by lia. rewrite app_nil_r.
      rewrite (proj2 (nth_error_None l j)) by lia.
      now rewrite (proj2 (nth_error_None l (S j))) by lia.
  - reflexivity.
Qed.

Lemma upload_all_prefix settle ops : forall i,
  exists n, fst (UploadFiles.upload_all settle i ops) = firstn n ops.
Proof.
  induction ops as [|op ops IH]; intros i; simpl; [now exists 0%nat|].
  destruct (settle i op) as [v|e]; simpl.
  - destruct (IH (S i)) as [n Hn]. exists (S n). simpl. now rewrite Hn.
  - exists 1%nat. reflexivity.
Qed.

Lemma upload_all_resolved settle ops : forall i,
  (forall j op, nth_error ops j = Some op -> exists v, settle (i + j)%nat op = Js.Ok v) ->
  UploadFiles.upload_all settle i ops = (ops, None).
Proof.
  induction ops as [|op ops IH]; intros i H; simpl; [reflexivity|].
  destruct (H 0%nat op eq_refl) as [v Hv]. rewrite Nat.add_0_r in Hv. rewrite Hv.
  rewrite (IH (S i)); [reflexivity|].
  intros j op' Hj. specialize (H (S j) op' Hj).
  now rewrite Nat.add_succ_r in H.
Qed.

Lemma upload_all_rejected settle ops : forall i k op e,
  nth_error ops k = Some op ->
  settle (i + k)%nat op = Js.Throw e ->
  (forall j op', (j < k)%nat -> nth_error ops j = Some op' ->
                 exists v, settle (i + j)%nat op' = Js.Ok v) ->
  UploadFiles.upload_all settle i ops = (firstn (S k) ops, Some e).
Proof.
  induction ops as [|a ops IH]; intros i k op e Hk He Hbefore.
  - destruct k; discriminate.
  - destruct k as [|k].
    + simpl in Hk. inversion Hk; subst. rewrite Nat.add_0_r in He.
      simpl. now rewrite He.
    + destruct (Hbefore 0%nat a ltac:(lia) eq_refl) as [v Hv].
      rewrite Nat.add_0_r in Hv. cbn [UploadFiles.upload_all]. rewrite Hv.
      rewrite (IH (S i) k op e); [reflexivity | exact Hk | |].
      * now rewrite Nat.add_succ_r in He.
      * intros j op' Hj Hn. specialize (Hbefore (S j) op' ltac:(lia) Hn).
        now rewrite Nat.add_succ_r in Hbefore.
Qed.

(** X17.  An upload sends one create request per listed file, in the order
    listed and one after the other, each with the text of the file, the
    source "upload", and the tags when there are any.  When all are
    accepted the files and the tags are cleared; when one is rejected no
    further request is made and the form keeps every file and tag, also
    those of the requests already accepted.  With no file listed nothing is
    sent. *)
Theorem handleUpload_sends_the_files_in_order :
  forall (settle : nat -> Api.operation -> Js.res Js.value) (st : UploadFiles.state),
    let st' := fst (UploadFiles.handleUpload settle st) in
    let sent := snd (UploadFiles.handleUpload settle st) in
    let requests :=
      map (UploadFiles.entry_request (UploadFiles.tags st)) (UploadFiles.files st) in
    (UploadFiles.files st = [] ->
       sent = [] /\ UploadFiles.tags st' = UploadFiles.tags st
       /\ UploadFiles.toasts st'
          = (UploadFiles.toasts st
             ++ [ToastStore.error "Please select files to upload"])%list)
    /\ (exists n, sent = firstn n requests)
    /\ ((forall j op, nth_error requests j = Some op -> exists v, settle j op = Js.Ok v) ->
        UploadFiles.files st <> [] ->
          sent = requests /\ UploadFiles.files st' = [] /\ UploadFiles.tags st' = []
          /\ UploadFiles.uploading st' = false)
    /\ (forall k op e,
          nth_error requests k = Some op -> settle k op = Js.Throw e ->
          (forall j op', (j < k)%nat -> nth_error requests j = Some op' ->
                         exists v, settle j op' = Js.Ok v) ->
          sent = firstn (S k) requests
          /\ UploadFiles.files st' = UploadFiles.files st
          /\ UploadFiles.tags st' = UploadFiles.tags st
          /\ UploadFiles.uploading st' = false
          /\ UploadFiles.toasts st'
             = (UploadFiles.toasts st ++ [ToastStore.error "Failed to upload files"])%list)
    /\ (forall file,
          Api.fetch_arguments (UploadFiles.entry_request (UploadFiles.tags st) file)
          = (Api.plain "/data",
             Api.POST
               (Some (Js.VObj
                        ([("text", Js.VStr (UploadFiles.content file));
                          ("source", Js.VStr "upload")]
                         ++ match UploadFiles.tags st with
                            | [] => []
                            | _ :: _ =>
                                [("tags", Js.VArr (map Js.VStr (UploadFiles.tags st)))]
                            end)%list)))).
Proof.
  intros settle st st' sent requests. subst st' sent. unfold UploadFiles.handleUpload.
  fold requests.
  split; [|split; [|split; [|split]]].
  - intros Hnil. rewrite Hnil. simpl. auto.
  - destruct (UploadFiles.files st) as [|f fs] eqn:Hf; [now exists 0%nat|].
    destruct (upload_all_prefix settle requests 0) as [n Hn].
    exists n. now destruct (snd (UploadFiles.upload_all settle 0 requests)).
  - intros Hall Hne. destruct (UploadFiles.files st) as [|f fs] eqn:Hf; [congruence|].
    rewrite (upload_all_resolved settle requests 0 Hall). simpl. auto.
  - intros k op e Hk He Hbefore.
    destruct (UploadFiles.files st) as [|f fs] eqn:Hf.
    + subst requests. destruct k; discriminate.
    + rewrite (upload_all_rejected settle requests 0 k op e Hk He Hbefore).
      simpl. auto.
  - intros file. unfold UploadFiles.entry_request. simpl.
    unfold Api.UploadRequest_value. simpl.
    now destruct (UploadFiles.tags st).
Qed.

(** ** The data browser *)

Lemma limit_of_input_nonzero target_value :
  exists z, DataTab.limit_of_input target_value = Js.Int z /\ z <> 0.
Proof.
  unfold DataTab.limit_of_input. destruct (Js.parseInt target_value) as [z|].
  - destruct (Z.eqb_spec z 0); [exists 50 | exists z]; split; auto; lia.
  - exists 50. split; [reflexivity | lia].
Qed.

Lemma handleDelete_limit settle st :
  DataTab.limit (fst (DataTab.handleDelete settle st)) = DataTab.limit st.
Proof.
  unfold DataTab.handleDelete. destruct (DataTab.deleteId st) as [d|]; [|reflexivity].
  now destruct (settle (Api.deleteEntry d)).
Qed.

Lemma step_limit st a :
  (exists z, DataTab.limit st = Js.Int z /\ z <> 0) ->
  exists z, DataTab.limit (DataTab.step st a) = Js.Int z /\ z <> 0.
Proof.
  intros H. destruct a; simpl; try exact H.
  - apply limit_of_input_nonzero.
  - now destruct settled.
  - now rewrite handleDelete_limit.
Qed.

Lemma run_limit acts : forall st,
  (exists z, DataTab.limit st = Js.Int z /\ z <> 0) ->
  exists z, DataTab.limit (DataTab.run acts st) = Js.Int z /\ z <> 0.
Proof.
  induction acts as [|a acts IH]; intros st H; simpl; [exact H|].
  apply IH. now apply step_limit.
Qed.

(** X18.  Whatever has been typed into the filters of the data browser, the
    limit is a whole number other than 0 (an input that is empty, not a
    number or 0 gives 50), so every request for the data carries a limit; it
    carries the source and the tag exactly when their filter is not empty,
    with the value of the filter. *)
Theorem data_requests_always_carry_a_limit :
  forall (acts : list DataTab.action) (settled : Js.res (list DataTab.DataEntry)),
    let st := DataTab.run acts DataTab.initial in
    exists z,
      DataTab.limit st = Js.Int z /\ z <> 0
      /\ snd (DataTab.fetchData settled st) = Api.getData (Some (DataTab.fetch_params st))
      /\ Api.getData_searchParams (Some (DataTab.fetch_params st))
         = ((if String.eqb (DataTab.source st) "" then []
             else [("source", DataTab.source st)])
            ++ (if String.eqb (DataTab.tag st) "" then [] else [("tag", DataTab.tag st)])
            ++ [("limit", Js.Z_to_string z)])%list.
Proof.
  intros acts settled st.
  destruct (run_limit acts DataTab.initial) as [z [Hz Hne]].
  { exists 50. split; [reflexivity | lia]. }
  exists z. fold st in Hz. split; [exact Hz|]. split; [exact Hne|].
  split; [reflexivity|].
  rewrite getData_searchParams_eq. unfold DataTab.fetch_params. simpl. rewrite Hz.
  simpl. apply Z.eqb_neq in Hne. rewrite Hne. simpl.
  destruct (String.eqb (DataTab.source st) "") eqn:Hs;
    destruct (String.eqb (DataTab.tag st) "") eqn:Ht;
    simpl; rewrite ?Hs, ?Ht; reflexivity.
Qed.

(** X19.  Confirming a deletion sends one DELETE request for the entry
    chosen.  When it is accepted, every entry with that id leaves the list,
    the other entries stay in order, and the dialog closes; when it is
    rejected the list is unchanged and the dialog stays open on the same
    entry.  With no entry chosen nothing is sent. *)
Theorem handleDelete_removes_the_entry :
  forall (settle : Api.operation -> Js.res Js.value) (st : DataTab.state),
    let st' := fst (DataTab.handleDelete settle st) in
    let sent := snd (DataTab.handleDelete settle st) in
    (DataTab.deleteId st = None -> st' = st /\ sent = [])
    /\ (forall d, DataTab.deleteId st = Some d ->
          sent = [Api.deleteEntry d]
          /\ Api.fetch_arguments (Api.deleteEntry d)
             = (Api.plain ("/data/" ++ Js.Z_to_string d),
                Some {| Api.method := Some "DELETE"; Api.body := None |})
          /\ (forall v, settle (Api.deleteEntry d) = Js.Ok v ->
                DataTab.entries st'
                = filter (fun e => negb (DataTab.id e =? d)) (DataTab.entries st)
                /\ (forall entry, In entry (DataTab.entries st')
                                  <-> In entry (DataTab.entries st)
                                      /\ DataTab.id entry <> d)
                /\ DataTab.deleteId st' = None)
          /\ (forall e, settle (Api.deleteEntry d) = Js.Throw e ->
                DataTab.entries st' = DataTab.entries st
                /\ DataTab.deleteId st' = Some d
                /\ DataTab.toasts st'
                   = (DataTab.toasts st
                      ++ [ToastStore.error "Failed to delete entry"])%list)).
Proof.
  intros settle st st' sent. subst st' sent. unfold DataTab.handleDelete. split.
  - intros H. now rewrite H.
  - intros d Hd. rewrite Hd.
    destruct (settle (Api.deleteEntry d)) as [v|e] eqn:Hs; simpl.
    + split; [reflexivity|]. split; [reflexivity|]. split; [|discriminate].
      intros _ _. split; [reflexivity|]. split; [|reflexivity].
      intros entry. rewrite filter_In, negb_true_iff, Z.eqb_neq. tauto.
    + split; [reflexivity|]. split; [reflexivity|]. split; [discriminate|].
      intros _ _. auto.
Qed.

Lemma handleDelete_removes_the_entry_witness :
  DataTab.entries
    (fst (DataTab.handleDelete (fun _ => Js.Ok Js.VNull)
            (DataTab.setDeleteId (Some 2)
               (DataTab.setEntries
                  [{| DataTab.id := 1; DataTab.text := "cats are mammals";
                      DataTab.entry_source := "clipboard";
                      DataTab.timestamp := "2025-01-01T10:00:00";
                      DataTab.tags := None; DataTab.char_count := 16 |};
                   {| DataTab.id := 2; DataTab.text := "rockets use fuel";
                      DataTab.entry_source := "upload";
                      DataTab.timestamp := "2025-01-01T11:00:00";
                      DataTab.tags := Some ["space"]; DataTab.char_count := 16 |}]
                  DataTab.initial))))
  = [{| DataTab.id := 1; DataTab.text := "cats are mammals";
        DataTab.entry_source := "clipboard"; DataTab.timestamp := "2025-01-01T10:00:00";
        DataTab.tags := None; DataTab.char_count := 16 |}].
Proof.
  exact (proj1 (proj1 (proj2 (proj2
    (proj2 (handleDelete_removes_the_entry (fun _ => Js.Ok Js.VNull)
              (DataTab.setDeleteId (Some 2)
                 (DataTab.setEntries
                    [{| DataTab.id := 1; DataTab.text := "cats are mammals";
                        DataTab.entry_source := "clipboard";
                        DataTab.timestamp := "2025-01-01T10:00:00";
                        DataTab.tags := None; DataTab.char_count := 16 |};
                     {| DataTab.id := 2; DataTab.text := "rockets use fuel";
                        DataTab.entry_source := "upload";
                        DataTab.timestamp := "2025-01-01T11:00:00";
                        DataTab.tags := Some ["space"]; DataTab.char_count := 16 |}]
                    DataTab.initial))) 2 eq_refl))) Js.VNull eq_refl)).
Defined.

(** X20.  An entry is printed in full when it is expanded or has at most
    200 characters; otherwise its first 200 characters and "..." are
    printed, 203 characters in all.  The button that expands or collapses
    an entry is there exactly for the entries of more than 200 characters,
    and pressing it twice gives back the view as it was. *)
Theorem entry_text_is_previewed :
  forall (st : DataTab.state) (entry : DataTab.DataEntry),
    (DataTab.isExpanded st entry = true ->
       DataTab.displayText st entry = DataTab.text entry)
    /\ (DataTab.has_toggle entry = false ->
          DataTab.displayText st entry = DataTab.text entry)
    /\ (DataTab.isExpanded st entry = false -> DataTab.has_toggle entry = true ->
          DataTab.displayText st entry = substring 0 200 (DataTab.text entry) ++ "..."
          /\ String.length (DataTab.displayText st entry) = 203%nat)
    /\ (DataTab.has_toggle entry = true
          <-> (200 < String.length (DataTab.text entry))%nat)
    /\ DataTab.isExpanded (DataTab.toggle entry st) entry
       = negb (DataTab.isExpanded st entry)
    /\ DataTab.displayText (DataTab.toggle entry (DataTab.toggle entry st)) entry
       = DataTab.displayText st entry.
Proof.
  intros st entry. unfold DataTab.displayText, DataTab.has_toggle.
  destruct (preview_spec 200 (DataTab.text entry)) as [H1 [H2 _]].
  assert (Ht : DataTab.isExpanded (DataTab.toggle entry st) entry
               = negb (DataTab.isExpanded st entry)).
  { unfold DataTab.toggle. destruct (DataTab.isExpanded st entry) eqn:He.
    - reflexivity.
    - unfold DataTab.isExpanded. simpl. apply Z.eqb_refl. }
  split; [now intros ->|]. split; [|split; [|split; [|split]]].
  - intros Hn. apply Nat.ltb_ge in Hn. rewrite (H1 Hn).
    now destruct (DataTab.isExpanded st entry).
  - intros -> Hlt. apply Nat.ltb_lt in Hlt. now apply H2.
  - apply Nat.ltb_lt.
  - exact Ht.
  - assert (Htt : DataTab.isExpanded (DataTab.toggle entry (DataTab.toggle entry st)) entry
                  = DataTab.isExpanded st entry).
    { unfold DataTab.toggle at 1. rewrite Ht.
      destruct (DataTab.isExpanded st entry) eqn:He; simpl.
      - unfold DataTab.isExpanded. simpl. apply Z.eqb_refl.
      - reflexivity. }
    now rewrite Htt.
Qed.

(** ** The settings tab *)

(** X21.  No keybind is listed under both platforms: the macOS tab lists the
    keybinds whose key sequence contains "<cmd>", the Windows / Linux tab
    those that contain "<ctrl>" and no "<cmd>".  A keybind whose sequence
    contains neither is listed under neither tab; each list keeps the order
    of the keybinds. *)
Theorem keybinds_are_listed_under_one_platform :
  forall (st : SettingsTab.state) (kb : SettingsTab.Keybind),
    let mac := SettingsTab.platformKeybinds (SettingsTab.setPlatform SettingsTab.macos st) in
    let win := SettingsTab.platformKeybinds (SettingsTab.setPlatform SettingsTab.windows st) in
    ~ (In kb mac /\ In kb win)
    /\ (In kb mac
          <-> In kb (SettingsTab.keybinds st)
              /\ JsString.includes (SettingsTab.key_sequence kb) "<cmd>" = true)
    /\ (In kb win
          <-> In kb (SettingsTab.keybinds st)
              /\ JsString.includes (SettingsTab.key_sequence kb) "<ctrl>" = true
              /\ JsString.includes (SettingsTab.key_sequence kb) "<cmd>" = false)
    /\ (JsString.includes (SettingsTab.key_sequence kb) "<cmd>" = false ->
        JsString.includes (SettingsTab.key_sequence kb) "<ctrl>" = false ->
          ~ In kb mac /\ ~ In kb win)
    /\ (length mac + length win <= length (SettingsTab.keybinds st))%nat.
Proof.
  intros st kb mac win. subst mac win. unfold SettingsTab.platformKeybinds. simpl.
  rewrite !filter_In. unfold SettingsTab.on_platform.
  rewrite andb_true_iff, negb_true_iff.
  split; [|split; [|split; [|split]]].
  - intros [[_ H1] [_ [_ H2]]]. congruence.
  - tauto.
  - tauto.
  - intros H1 H2. split; intros [_ H]; [|destruct H]; congruence.
  - induction (SettingsTab.keybinds st) as [|k l IH]; simpl; [lia|].
    destruct (JsString.includes (SettingsTab.key_sequence k) "<cmd>"); simpl.
    + rewrite andb_false_r. simpl. lia.
    + rewrite andb_true_r.
      destruct (JsString.includes (SettingsTab.key_sequence k) "<ctrl>"); simpl; lia.
Qed.

(** X22.  Adding a keybind with an empty key sequence sends nothing and
    only shows an error.  Otherwise exactly one request is sent, with the
    key sequence as typed as its body: to /keybind/selected when the action
    is "capture_selected", to /keybind/screenshot for any other action.
    When it is accepted the keybind returned is appended to the list and
    the form is reset; when it is rejected the list and the form are
    kept. *)
Theorem handleAddKeybind_sends_one_request :
  forall (settle : Api.operation -> Js.res SettingsTab.Keybind) (st : SettingsTab.state),
    let st' := fst (SettingsTab.handleAddKeybind settle st) in
    let sent := snd (SettingsTab.handleAddKeybind settle st) in
    (SettingsTab.newKeySequence st = "" ->
       sent = [] /\ SettingsTab.keybinds st' = SettingsTab.keybinds st
       /\ SettingsTab.toasts st'
          = (SettingsTab.toasts st ++ [ToastStore.error "Please enter a key sequence"])%list)
    /\ (SettingsTab.newKeySequence st <> "" ->
          sent = [SettingsTab.add_request st]
          /\ Api.fetch_arguments (SettingsTab.add_request st)
             = (Api.plain (if String.eqb (SettingsTab.newAction st) "capture_selected"
                           then "/keybind/selected" else "/keybind/screenshot"),
                Api.POST (Some (Js.VObj [("key_sequence",
                                          Js.VStr (SettingsTab.newKeySequence st))])))
          /\ SettingsTab.adding st' = false
          /\ (forall keybind, settle (SettingsTab.add_request st) = Js.Ok keybind ->
                SettingsTab.keybinds st' = (SettingsTab.keybinds st ++ [keybind])%list
                /\ SettingsTab.newKeySequence st' = ""
                /\ SettingsTab.newAction st' = "capture_selected")
          /\ (forall e, settle (SettingsTab.add_request st) = Js.Throw e ->
                SettingsTab.keybinds st' = SettingsTab.keybinds st
                /\ SettingsTab.newKeySequence st' = SettingsTab.newKeySequence st
                /\ SettingsTab.newAction st' = SettingsTab.newAction st
                /\ SettingsTab.toasts st'
                   = (SettingsTab.toasts st
                      ++ [ToastStore.error "Failed to add keybind"])%list)).
Proof.
  intros settle st st' sent. subst st' sent. unfold SettingsTab.handleAddKeybind. simpl.
  destruct (String.eqb_spec (SettingsTab.newKeySequence st) "") as [Hq|Hq]; simpl.
  - split; [auto | contradiction].
  - split; [contradiction|]. intros _.
    assert (Hargs : Api.fetch_arguments (SettingsTab.add_request st)
                    = (Api.plain (if String.eqb (SettingsTab.newAction st) "capture_selected"
                                  then "/keybind/selected" else "/keybind/screenshot"),
                       Api.POST (Some (Js.VObj [("key_sequence",
                                                 Js.VStr (SettingsTab.newKeySequence st))])))).
    { unfold SettingsTab.add_request.
      now destruct (String.eqb (SettingsTab.newAction st) "capture_selected"). }
    destruct (settle (SettingsTab.add_request st)) as [keybind|e]; simpl.
    + split; [reflexivity|]. split; [exact Hargs|]. split; [reflexivity|].
      split; [|discriminate]. intros k Hk. inversion Hk; subst. auto.
    + split; [reflexivity|]. split; [exact Hargs|]. split; [reflexivity|].
      split; [discriminate|]. intros _ _. auto.
Qed.

(** ** The capture control of the sidebar *)

(** X23.  The capture button sends a stop request when the status shown
    says capturing and a start request otherwise, and nothing before a
    status has been loaded.  It never flips the status itself: after an
    accepted request the status is fetched again and shown if that
    succeeds, and in every other case the status shown stays as it was. *)
Theorem handleToggleCapture_follows_the_server :
  forall (settle : Api.operation -> Js.res Js.value)
         (fetched : Js.res Sidebar.SystemStatus) (st : Sidebar.state),
    let st' := fst (Sidebar.handleToggleCapture settle fetched st) in
    let sent := snd (Sidebar.handleToggleCapture settle fetched st) in
    (Sidebar.status st = None -> st' = st /\ sent = [])
    /\ (forall s, Sidebar.status st = Some s ->
          let op := if Sidebar.capturing s then Api.stopCapture else Api.startCapture in
          Sidebar.toggling st' = false
          /\ (forall e, settle op = Js.Throw e ->
                sent = [op] /\ Sidebar.status st' = Some s)
          /\ (forall v, settle op = Js.Ok v ->
                sent = [op; Api.getStatus]
                /\ Sidebar.status st'
                   = match fetched with
                     | Js.Ok data => Some data
                     | Js.Throw _ => Some s
                     end))
    /\ (Sidebar.status st' = Sidebar.status st
        \/ exists data, fetched = Js.Ok data /\ Sidebar.status st' = Some data).
Proof.
  intros settle fetched st st' sent. subst st' sent. unfold Sidebar.handleToggleCapture.
  destruct (Sidebar.status st) as [s|] eqn:Hs.
  - split; [discriminate|]. split.
    + intros s' Hs'. inversion Hs'; subst s'. cbv zeta.
      destruct (settle (if Sidebar.capturing s then Api.stopCapture else Api.startCapture))
        as [v|e]; simpl.
      * split; [reflexivity|]. split; [discriminate|]. intros _ _.
        split; [reflexivity|]. destruct fetched; simpl; [reflexivity | exact Hs].
      * split; [reflexivity|]. split; [|discriminate]. intros _ _.
        split; [reflexivity | exact Hs].
    + destruct (settle (if Sidebar.capturing s then Api.stopCapture else Api.startCapture))
        as [v|e]; simpl.
      * destruct fetched as [data|e]; simpl; [right; eauto | left; exact Hs].
      * left. exact Hs.
  - split; [auto|]. split; [discriminate | now left].
Qed.

(** ** Payloads and cards *)

(** X24.  A content fragment is appended to the answer as text whatever its
    payload is: a string is appended as it is, a fragment that has no
    [content] appends the text "undefined" and one whose content is null
    the text "null". *)
Theorem fragment_payload_is_appended_as_text :
  forall (c : Api.EventSource * SearchTab.state) (props : list (string * Js.value)),
    Api.closed (fst c) = false ->
    Js.lookup "type" props = Js.VStr "answer_chunk" ->
    let after := SearchTab.dispatch c (SearchTab.Message (Js.Ok (Js.VObj props))) in
    SearchTab.streamingAnswer (snd after)
    = SearchTab.streamingAnswer (snd c) ++ Js.to_string (Js.lookup "content" props)
    /\ (forall s, Js.lookup "content" props = Js.VStr s ->
          SearchTab.streamingAnswer (snd after) = SearchTab.streamingAnswer (snd c) ++ s)
    /\ (Js.lookup "content" props = Js.VUndefined ->
          SearchTab.streamingAnswer (snd after)
          = SearchTab.streamingAnswer (snd c) ++ "undefined")
    /\ (Js.lookup "content" props = Js.VNull ->
          SearchTab.streamingAnswer (snd after)
          = SearchTab.streamingAnswer (snd c) ++ "null")
    /\ Api.closed (fst after) = false.
Proof.
  intros c props Hopen Ht after.
  assert (Hterm : Stream.is_terminal (SearchTab.Message (Js.Ok (Js.VObj props))) = false).
  { simpl. now rewrite Ht. }
  destruct (dispatch_nonterminal c _ Hopen Hterm) as [Hc Hs]. fold after in Hc, Hs.
  assert (Hchunk : Stream.chunk_text (SearchTab.Message (Js.Ok (Js.VObj props)))
                   = Js.to_string (Js.lookup "content" props)).
  { simpl. now rewrite Ht. }
  rewrite Hchunk in Hs.
  split; [exact Hs|]. split; [|split; [|split]].
  - intros s H. now rewrite Hs, H.
  - intros H. now rewrite Hs, H.
  - intros H. now rewrite Hs, H.
  - exact Hc.
Qed.

Lemma fragment_payload_is_appended_as_text_witness :
  SearchTab.streamingAnswer
    (snd (SearchTab.dispatch
            (Stream.open_source Sample.local_stream,
             SearchTab.setStreamingAnswer (fun _ => "Cats ") SearchTab.initial)
            (SearchTab.Message (Js.Ok (Js.VObj [("type", Js.VStr "answer_chunk")])))))
  = "Cats undefined".
Proof.
  exact (proj1 (proj2 (proj2
    (fragment_payload_is_appended_as_text
       (Stream.open_source Sample.local_stream,
        SearchTab.setStreamingAnswer (fun _ => "Cats ") SearchTab.initial)
       [("type", Js.VStr "answer_chunk")] eq_refl eq_refl))) eq_refl).
Defined.


(** ** One query at a time *)

Lemma form_step_loading st a :
  SearchTab.loading (SearchTab.form_step st a) = SearchTab.loading st.
Proof. destruct a; reflexivity. Qed.

Lemma set_nth_same {A} (l : list A) : forall i x,
  nth_error l i = Some x -> SearchTab.set_nth i x l = l.
Proof.
  induction l as [|y l IH]; intros [|i] x H; simpl in *; try discriminate.
  - now inversion H.
  - now rewrite (IH i x H).
Qed.

Lemma count_set_nth {A} (f : A -> bool) (l : list A) : forall i x y,
  nth_error l i = Some y ->
  (length (filter f (SearchTab.set_nth i x l)) + Nat.b2n (f y)
   = length (filter f l) + Nat.b2n (f x))%nat.
Proof.
  induction l as [|z l IH]; intros [|i] x y H; simpl in *; try discriminate.
  - inversion H; subst z. destruct (f x), (f y); simpl; lia.
  - specialize (IH i x y H). destruct (f z); simpl; lia.
Qed.

Lemma count_snoc {A} (f : A -> bool) (l : list A) x :
  length (filter f (l ++ [x])) = (length (filter f l) + Nat.b2n (f x))%nat.
Proof. rewrite filter_app, length_app. simpl. destruct (f x); reflexivity. Qed.

Lemma handleSearch_loading e ms st :
  match snd (SearchTab.handleSearch e ms st) with
  | SearchTab.NoRequest =>
      SearchTab.loading (fst (SearchTab.handleSearch e ms st)) = SearchTab.loading st
  | _ => SearchTab.loading (fst (SearchTab.handleSearch e ms st)) = true
  end.
Proof.
  unfold SearchTab.handleSearch.
  destruct (negb (Js.truthy (Js.VStr (Js.trim (SearchTab.query st))))); [reflexivity|].
  simpl. destruct (SearchTab.useRag st); [|reflexivity].
  destruct (SearchTab.streamEnabled st); reflexivity.
Qed.

Lemma handleSearch_resume_loading st op outcome :
  SearchTab.loading (SearchTab.handleSearch_resume st op outcome) = false.
Proof. destruct outcome; [destruct op|]; reflexivity. Qed.

Lemma submit_one_at_a_time e ms s :
  Notions.running s = 0%nat ->
  SearchTab.loading (SearchTab.tab s) = false ->
  one_at_a_time (SearchTab.submit e ms s).
Proof.
  intros Hr Hl. unfold SearchTab.submit.
  pose proof (handleSearch_loading e ms (SearchTab.tab s)) as Hload.
  destruct (SearchTab.handleSearch e ms (SearchTab.tab s)) as [st [|es|op]];
    simpl in Hload; unfold one_at_a_time, Notions.running in *; simpl.
  - split; [lia | intros _; exact Hr].
  - rewrite count_snoc. rewrite Hload.
    split; [destruct (negb (Api.closed es)); simpl; lia | discriminate].
  - rewrite count_snoc. rewrite Hload. simpl. split; [lia | discriminate].
Qed.

Lemma ui_step_one_at_a_time e ms s ev :
  ev <> SearchTab.Enter ->
  one_at_a_time s -> one_at_a_time (SearchTab.ui_step e ms s ev).
Proof.
  intros Hev Hs. pose proof Hs as [Hle Hq].
  destruct ev as [a| | |i cev|j outcome]; simpl.
  - unfold one_at_a_time, Notions.running in *. simpl.
    rewrite form_step_loading. auto.
  - contradiction.
  - destruct (SearchTab.loading (SearchTab.tab s)) eqn:Hl; [exact Hs|].
    apply submit_one_at_a_time; auto.
  - destruct (nth_error (SearchTab.sources s) i) as [es|] eqn:Hn; [|exact Hs].
    destruct (Api.closed es) eqn:Hc.
    + rewrite dispatch_closed by exact Hc. simpl.
      rewrite (set_nth_same _ _ _ Hn). destruct s; exact Hs.
    + pose proof (count_set_nth (fun es => negb (Api.closed es)) (SearchTab.sources s)
                    i (fst (SearchTab.dispatch (es, SearchTab.tab s) cev)) es Hn) as Hcount.
      cbv beta in Hcount. rewrite Hc in Hcount. simpl in Hcount.
      unfold one_at_a_time, Notions.running in *. simpl.
      destruct (Stream.is_terminal cev) eqn:Hterm.
      * destruct (dispatch_terminal (es, SearchTab.tab s) cev Hc Hterm) as [Hcl [Hlo _]].
        rewrite Hcl in Hcount. simpl in Hcount. split; [lia|]. intros _. lia.
      * destruct (dispatch_nonterminal (es, SearchTab.tab s) cev Hc Hterm) as [Hcl _].
        destruct (dispatch_nonterminal_keeps (es, SearchTab.tab s) cev Hc Hterm) as [Hlo _].
        rewrite Hcl in Hcount. simpl in Hcount. rewrite Hlo. simpl.
        split; [lia|]. intros Hl. specialize (Hq Hl). lia.
  - destruct (nth_error (SearchTab.awaited s) j) as [[op|]|] eqn:Hn; try exact Hs.
    pose proof (count_set_nth Notions.supplied (SearchTab.awaited s) j None (Some op) Hn)
      as Hcount.
    simpl in Hcount.
    unfold one_at_a_time, Notions.running in *. simpl.
    split; [lia|]. intros _. lia.
Qed.

Lemma ui_run_one_at_a_time e ms evs : forall s,
  Notions.by_button evs = true ->
  one_at_a_time s -> one_at_a_time (SearchTab.ui_run e ms evs s).
Proof.
  induction evs as [|ev evs IH]; intros s Hb Hs; simpl; [exact Hs|].
  simpl in Hb. apply andb_true_iff in Hb. destruct Hb as [Hev Hb].
  apply IH; [exact Hb|]. apply ui_step_one_at_a_time; [|exact Hs].
  intros ->. discriminate.
Qed.

(** X26.  Through the Search button alone no two queries overlap: as long
    as Enter is never pressed in the query field, at most one event source
    is open or one request awaited at any time, and none when the tab is not
    loading; a click while the tab is loading changes nothing. *)
Theorem button_runs_one_query_at_a_time :
  forall e ms evs,
    Notions.by_button evs = true ->
    let s := SearchTab.ui_run e ms evs SearchTab.start in
    (Notions.running s <= 1)%nat
    /\ (SearchTab.loading (SearchTab.tab s) = false -> Notions.running s = 0%nat)
    /\ (SearchTab.loading (SearchTab.tab s) = true ->
        SearchTab.ui_step e ms s SearchTab.Click = s).
Proof.
  intros e ms evs Hb s.
  assert (H0 : one_at_a_time SearchTab.start).
  { unfold one_at_a_time, Notions.running. simpl. split; [lia | reflexivity]. }
  destruct (ui_run_one_at_a_time e ms evs SearchTab.start Hb H0) as [H1 H2].
  split; [exact H1|]. split; [exact H2|].
  intros Hl. simpl. now rewrite Hl.
Qed.

Lemma button_runs_one_query_at_a_time_witness :
  (Notions.running
     (SearchTab.ui_run Sample.no_env Sample.no_mock_stream
        [SearchTab.Form (SearchTab.TypeQuery "cats"); SearchTab.Click;
         SearchTab.Channel 0 (Sample.chunk "A"); SearchTab.Click;
         SearchTab.Form (SearchTab.SwitchRag false); SearchTab.Click]
        SearchTab.start) <= 1)%nat.
Proof.
  exact (proj1
    (button_runs_one_query_at_a_time Sample.no_env Sample.no_mock_stream
       [SearchTab.Form (SearchTab.TypeQuery "cats"); SearchTab.Click;
        SearchTab.Channel 0 (Sample.chunk "A"); SearchTab.Click;
        SearchTab.Form (SearchTab.SwitchRag false); SearchTab.Click]
       eq_refl)).
Defined.

(** ** A query submitted through the button *)

Lemma count_zero {A} (f : A -> bool) (l : list A) :
  length (filter f l) = 0%nat -> forall x, In x l -> f x = false.
Proof.
  induction l as [|y l IH]; intros H x Hin; [destruct Hin|].
  simpl in H. destruct (f y) eqn:Hy; [discriminate|].
  destruct Hin as [->|Hin]; [exact Hy | now apply IH].
Qed.

Lemma running_zero_quiet s :
  Notions.running s = 0%nat -> quiet (SearchTab.sources s) (SearchTab.awaited s).
Proof.
  unfold Notions.running. intros H. split.
  - intros es Hin.
    assert (Hc : negb (Api.closed es) = false).
    { apply (count_zero (fun es => negb (Api.closed es)) (SearchTab.sources s));
        [lia | exact Hin]. }
    now apply negb_false_iff in Hc.
  - intros o Hin.
    assert (Hc : Notions.supplied o = false).
    { apply (count_zero Notions.supplied (SearchTab.awaited s)); [lia | exact Hin]. }
    destruct o; [discriminate | reflexivity].
Qed.

Lemma form_step_keeps st a :
  SearchTab.searchResults (SearchTab.form_step st a) = SearchTab.searchResults st
  /\ SearchTab.toasts (SearchTab.form_step st a) = SearchTab.toasts st
  /\ SearchTab.streamingAnswer (SearchTab.form_step st a) = SearchTab.streamingAnswer st
  /\ SearchTab.ragResponse (SearchTab.form_step st a) = SearchTab.ragResponse st.
Proof. destruct a; repeat split; reflexivity. Qed.

(** An event source that is closed, or that does not exist, dispatches
    nothing. *)
Lemma channel_of_closed e ms s i cev :
  (forall es, nth_error (SearchTab.sources s) i = Some es -> Api.closed es = true) ->
  SearchTab.ui_step e ms s (SearchTab.Channel i cev) = s.
Proof.
  intros H. simpl.
  destruct (nth_error (SearchTab.sources s) i) as [es|] eqn:Hn; [|reflexivity].
  rewrite dispatch_closed by (simpl; now apply H). simpl.
  rewrite (set_nth_same _ _ _ Hn). now destruct s.
Qed.

(** A promise that has settled, or that does not exist, settles no more. *)
Lemma settled_of_none e ms s j outcome :
  (forall o, nth_error (SearchTab.awaited s) j = Some o -> o = None) ->
  SearchTab.ui_step e ms s (SearchTab.Settled j outcome) = s.
Proof.
  intros H. simpl.
  destruct (nth_error (SearchTab.awaited s) j) as [[op|]|] eqn:Hn; try reflexivity.
  specialize (H _ eq_refl). discriminate.
Qed.

Lemma nth_error_snoc_old {A} (l : list A) x j o :
  j <> length l -> nth_error (l ++ [x]) j = Some o -> In o l.
Proof.
  intros Hj Hn.
  destruct (Nat.lt_ge_cases j (length l)) as [Hlt|Hge].
  - rewrite nth_error_app1 in Hn by exact Hlt. eapply nth_error_In; eauto.
  - assert (Hnone : nth_error (l ++ [x]) j = None).
    { apply nth_error_None. rewrite length_app. simpl. lia. }
    rewrite Hnone in Hn. discriminate.
Qed.

Lemma nth_error_snoc_new {A} (l : list A) x : nth_error (l ++ [x]) (length l) = Some x.
Proof. rewrite nth_error_app2 by lia. now rewrite Nat.sub_diag. Qed.

Lemma set_nth_snoc {A} (l : list A) : forall x y,
  SearchTab.set_nth (length l) y (l ++ [x]) = (l ++ [y])%list.
Proof. induction l as [|z l IH]; intros x y; simpl; [reflexivity | now rewrite IH]. Qed.

(** While a search submitted through the button is awaited, nothing that
    can happen short of Enter changes the tab's results, toasts or loading
    state. *)
Lemma awaiting_alone e ms base older op mid : forall s,
  quiet base older ->
  SearchTab.sources s = base ->
  SearchTab.awaited s = (older ++ [Some op])%list ->
  SearchTab.loading (SearchTab.tab s) = true ->
  Notions.by_button mid = true ->
  Notions.leaves_pending (length older) mid = true ->
  let s' := SearchTab.ui_run e ms mid s in
  SearchTab.sources s' = base
  /\ SearchTab.awaited s' = (older ++ [Some op])%list
  /\ SearchTab.loading (SearchTab.tab s') = true
  /\ SearchTab.searchResults (SearchTab.tab s') = SearchTab.searchResults (SearchTab.tab s)
  /\ SearchTab.toasts (SearchTab.tab s') = SearchTab.toasts (SearchTab.tab s).
Proof.
  induction mid as [|ev mid IH]; intros s Hq Hs Ha Hl Hb Hp; [simpl; auto|].
  simpl in Hb, Hp. apply andb_true_iff in Hb. destruct Hb as [Hev Hb].
  apply andb_true_iff in Hp. destruct Hp as [Hevp Hp].
  cbn [SearchTab.ui_run fold_left]. fold (SearchTab.ui_run e ms mid).
  destruct ev as [a| | |i cev|j outcome].
  - destruct (form_step_keeps (SearchTab.tab s) a) as [Hr [Ht _]].
    destruct (IH (SearchTab.ui_step e ms s (SearchTab.Form a))) as [H1 [H2 [H3 [H4 H5]]]];
      simpl; auto.
    { now rewrite form_step_loading. }
    simpl in H4, H5. rewrite Hr in H4. rewrite Ht in H5. auto.
  - discriminate.
  - assert (Hstep : SearchTab.ui_step e ms s SearchTab.Click = s)
      by (simpl; now rewrite Hl).
    rewrite Hstep. now apply IH.
  - rewrite channel_of_closed; [now apply IH|].
    intros es Hn. apply (proj1 Hq). rewrite <- Hs. eapply nth_error_In; eauto.
  - rewrite settled_of_none; [now apply IH|].
    intros o Hn. rewrite Ha in Hn. apply (proj2 Hq).
    apply (nth_error_snoc_old older (Some op) j o); [|exact Hn].
    apply negb_true_iff, Nat.eqb_neq in Hevp. exact Hevp.
Qed.

(** X27.  A search-only query submitted through the Search button, in a tab
    whose earlier queries were submitted through the button as well: until
    its request settles, nothing short of pressing Enter touches the result
    list, and when the request rejects, that one error is reported, the
    loading state ends, and the result list is empty and drawn as such. *)
Theorem failed_search_by_button_leaves_no_results :
  forall Date_parse e ms evs mid error,
    Notions.by_button evs = true ->
    let s := SearchTab.ui_run e ms evs SearchTab.start in
    SearchTab.loading (SearchTab.tab s) = false ->
    SearchTab.useRag (SearchTab.tab s) = false ->
    Js.trim (SearchTab.query (SearchTab.tab s)) <> "" ->
    Notions.by_button mid = true ->
    Notions.leaves_pending (length (SearchTab.awaited s)) mid = true ->
    let waiting := SearchTab.ui_run e ms (SearchTab.Click :: mid) s in
    let after :=
      SearchTab.tab
        (SearchTab.ui_step e ms waiting
           (SearchTab.Settled (length (SearchTab.awaited s)) (Js.Throw error))) in
    nth_error (SearchTab.awaited waiting) (length (SearchTab.awaited s))
    = Some (Some (Api.search (SearchTab.query (SearchTab.tab s))
                    (Some (SearchTab.k (SearchTab.tab s)))))
    /\ SearchTab.searchResults (SearchTab.tab waiting) = Js.VArr []
    /\ SearchTab.loading (SearchTab.tab waiting) = true
    /\ SearchTab.searchResults after = Js.VArr []
    /\ SearchTab.render_results Date_parse after = Js.Ok []
    /\ SearchTab.toasts after
       = (SearchTab.toasts (SearchTab.tab s)
          ++ [SearchTab.error_toast (SearchTab.failure_description error)])%list
    /\ SearchTab.loading after = false.
Proof.
  intros Date_parse e ms evs mid error Hb s Hl Hr Hq Hmid Hp waiting after.
  assert (H0 : one_at_a_time SearchTab.start).
  { unfold one_at_a_time, Notions.running. simpl. split; [lia | reflexivity]. }
  destruct (ui_run_one_at_a_time e ms evs SearchTab.start Hb H0) as [_ Hzero].
  fold s in Hzero. specialize (Hzero Hl).
  pose proof (running_zero_quiet s Hzero) as Hquiet.
  set (op := Api.search (SearchTab.query (SearchTab.tab s))
               (Some (SearchTab.k (SearchTab.tab s)))).
  set (s1 := SearchTab.ui_step e ms s SearchTab.Click).
  assert (Hs1 : s1 = {| SearchTab.tab := fst (SearchTab.handleSearch e ms (SearchTab.tab s));
                        SearchTab.sources := SearchTab.sources s;
                        SearchTab.awaited := (SearchTab.awaited s ++ [Some op])%list |}).
  { unfold s1. simpl. rewrite Hl. unfold SearchTab.submit.
    rewrite (handleSearch_search_only e ms (SearchTab.tab s) Hq Hr). reflexivity. }
  assert (Htab1 : SearchTab.tab s1
                  = SearchTab.setStreamingAnswer (fun _ => "")
                      (SearchTab.setSearchResults (Js.VArr [])
                         (SearchTab.setRagResponse Js.VNull
                            (SearchTab.setLoading true (SearchTab.tab s))))).
  { rewrite Hs1. simpl.
    now rewrite (handleSearch_search_only e ms (SearchTab.tab s) Hq Hr). }
  destruct (awaiting_alone e ms (SearchTab.sources s) (SearchTab.awaited s) op mid s1)
    as [Hsrc [Haw [Hload [Hres Htoasts]]]]; auto.
  { now rewrite Hs1. }
  { now rewrite Hs1. }
  { now rewrite Htab1. }
  change (SearchTab.ui_run e ms mid s1) with waiting in *.
  assert (Hnth : nth_error (SearchTab.awaited waiting) (length (SearchTab.awaited s))
                 = Some (Some op)).
  { rewrite Haw. apply nth_error_snoc_new. }
  split; [exact Hnth|].
  assert (Hafter : after = SearchTab.handleSearch_resume (SearchTab.tab waiting) op
                             (Js.Throw error)).
  { unfold after. simpl. now rewrite Hnth. }
  rewrite Htab1 in Hres, Htoasts. simpl in Hres, Htoasts.
  split; [exact Hres|]. split; [exact Hload|].
  assert (Hempty : SearchTab.searchResults after = Js.VArr []).
  { rewrite Hafter. simpl. exact Hres. }
  split; [exact Hempty|].
  split; [unfold SearchTab.render_results; now rewrite Hempty|].
  split; [rewrite Hafter; simpl; unfold Toasts.addToast; now rewrite Htoasts|].
  rewrite Hafter. reflexivity.
Qed.

Lemma failed_search_by_button_leaves_no_results_witness :
  SearchTab.searchResults
    (SearchTab.tab
       (SearchTab.ui_run Sample.no_env Sample.no_mock_stream
          [SearchTab.Form (SearchTab.SwitchRag false);
           SearchTab.Form (SearchTab.TypeQuery "cats");
           SearchTab.Click; SearchTab.Click;
           SearchTab.Settled 0 (Js.Throw (Js.APIError 500 "API Error: Internal Server Error"))]
          SearchTab.start))
  = Js.VArr [].
Proof.
  exact (proj1 (proj2 (proj2 (proj2
    (failed_search_by_button_leaves_no_results Sample.Date_parse
       Sample.no_env Sample.no_mock_stream
       [SearchTab.Form (SearchTab.SwitchRag false);
        SearchTab.Form (SearchTab.TypeQuery "cats")]
       [SearchTab.Click]
       (Js.APIError 500 "API Error: Internal Server Error")
       eq_refl eq_refl eq_refl ltac:(discriminate) eq_refl eq_refl))))).
Defined.

Lemma arrived_text_cons ev evs :
  Stream.is_terminal ev = false ->
  Stream.arrived_text (ev :: evs) = Stream.chunk_text ev ++ Stream.arrived_text evs.
Proof. intros H. simpl. now rewrite H. Qed.

(** While an answer requested through the button is streamed, the text of
    the tab grows by the fragments of that stream and by nothing else. *)
Lemma streaming_alone e ms base i mid : forall s es,
  i = length base ->
  quiet base (SearchTab.awaited s) ->
  SearchTab.sources s = (base ++ [es])%list ->
  Api.closed es = false ->
  SearchTab.loading (SearchTab.tab s) = true ->
  SearchTab.ragResponse (SearchTab.tab s) = Js.VNull ->
  Notions.by_button mid = true ->
  existsb Stream.is_terminal (Notions.delivered i mid) = false ->
  let s' := SearchTab.ui_run e ms mid s in
  (exists es', SearchTab.sources s' = (base ++ [es'])%list /\ Api.closed es' = false)
  /\ SearchTab.awaited s' = SearchTab.awaited s
  /\ SearchTab.loading (SearchTab.tab s') = true
  /\ SearchTab.ragResponse (SearchTab.tab s') = Js.VNull
  /\ SearchTab.streamingAnswer (SearchTab.tab s')
     = SearchTab.streamingAnswer (SearchTab.tab s)
       ++ Stream.arrived_text (Notions.delivered i mid).
Proof.
  induction mid as [|ev mid IH]; intros s es Hi Hq Hs Hopen Hl Hrag Hb Hterm.
  - simpl. rewrite append_empty_r. eauto 10.
  - simpl in Hb. apply andb_true_iff in Hb. destruct Hb as [Hev Hb].
    cbn [SearchTab.ui_run fold_left]. fold (SearchTab.ui_run e ms mid).
    destruct ev as [a| | |j cev|j outcome].
    + destruct (form_step_keeps (SearchTab.tab s) a) as [_ [_ [Hsa Hr]]].
      destruct (IH (SearchTab.ui_step e ms s (SearchTab.Form a)) es)
        as [H1 [H2 [H3 [H4 H5]]]]; simpl; auto.
      { now rewrite form_step_loading. }
      { now rewrite Hr. }
      simpl in H2, H5. rewrite Hsa in H5. auto.
    + discriminate.
    + assert (Hstep : SearchTab.ui_step e ms s SearchTab.Click = s)
        by (simpl; now rewrite Hl).
      rewrite Hstep. now apply (IH s es).
    + cbn [Notions.delivered flat_map] in Hterm |- *.
      fold (Notions.delivered i mid) in Hterm |- *.
      fold (SearchTab.ui_run e ms mid).
      destruct (Nat.eqb_spec j i) as [->|Hji].
      * cbn [app existsb] in Hterm. apply orb_false_iff in Hterm.
        destruct Hterm as [Hcev Hterm].
        cbn [app]. rewrite (arrived_text_cons cev _ Hcev).
        assert (Hn : nth_error (SearchTab.sources s) i = Some es).
        { rewrite Hs, Hi. apply nth_error_snoc_new. }
        destruct (dispatch_nonterminal (es, SearchTab.tab s) cev Hopen Hcev)
          as [Hopen' Htext].
        destruct (dispatch_nonterminal_keeps (es, SearchTab.tab s) cev Hopen Hcev)
          as [Hl' _].
        destruct (dispatch_keeps_form (es, SearchTab.tab s) cev) as [_ [Hrag' _]].
        simpl in Htext, Hl', Hrag'.
        destruct (IH (SearchTab.ui_step e ms s (SearchTab.Channel i cev))
                    (fst (SearchTab.dispatch (es, SearchTab.tab s) cev)))
          as [H1 [H2 [H3 [H4 H5]]]]; auto.
        { simpl. rewrite Hn. exact Hq. }
        { simpl. rewrite Hn. simpl. rewrite Hs, Hi. apply set_nth_snoc. }
        { simpl. rewrite Hn. simpl. now rewrite Hl'. }
        { simpl. rewrite Hn. simpl. now rewrite Hrag'. }
        unfold SearchTab.ui_run in *.
        split; [exact H1|]. split.
        { rewrite H2. simpl. now rewrite Hn. }
        split; [exact H3|]. split; [exact H4|].
        rewrite H5. simpl. rewrite Hn. simpl. rewrite Htext.
        apply append_assoc_string.
      * cbn [app] in Hterm |- *.
        rewrite channel_of_closed; [now apply (IH s es)|].
        intros es0 Hn. apply (proj1 Hq).
        apply (nth_error_snoc_old base es j es0); [lia | now rewrite <- Hs].
    + rewrite settled_of_none; [now apply (IH s es)|].
      intros o Hn. apply (proj2 Hq). eapply nth_error_In; eauto.
Qed.

Lemma arrived_text_running evs :
  existsb Stream.is_terminal evs = false ->
  Stream.arrived_text evs = String.concat "" (map Stream.chunk_text evs).
Proof.
  induction evs as [|ev evs IH]; intros H; [reflexivity|].
  simpl in H. apply orb_false_iff in H. destruct H as [Hev H].
  rewrite (arrived_text_cons ev evs Hev), (IH H).
  destruct evs as [|ev' evs]; simpl; [apply append_empty_r | reflexivity].
Qed.

Lemma handleSearch_streamed e ms st :
  Js.trim (SearchTab.query st) <> "" ->
  SearchTab.useRag st = true ->
  SearchTab.streamEnabled st = true ->
  SearchTab.handleSearch e ms st
  = (SearchTab.setStreamingAnswer (fun _ => "")
       (SearchTab.setSearchResults (Js.VArr [])
          (SearchTab.setRagResponse Js.VNull (SearchTab.setLoading true st))),
     SearchTab.Streaming (Api.queryStream e ms (SearchTab.request_of st))).
Proof.
  intros Hq Hr Hs. unfold SearchTab.handleSearch. simpl.
  apply String.eqb_neq in Hq. rewrite Hq. simpl. now rewrite Hr, Hs.
Qed.

Lemma count_none {A} (f : A -> bool) (l : list A) :
  (forall x, In x l -> f x = false) -> length (filter f l) = 0%nat.
Proof.
  induction l as [|y l IH]; intros H; [reflexivity|].
  simpl. rewrite (H y (or_introl eq_refl)). apply IH. intros x Hx. apply H. now right.
Qed.

Lemma quiet_running s :
  quiet (SearchTab.sources s) (SearchTab.awaited s) -> Notions.running s = 0%nat.
Proof.
  intros [Hs Ha]. unfold Notions.running.
  rewrite (count_none (fun es => negb (Api.closed es))), (count_none Notions.supplied).
  - reflexivity.
  - intros o Hin. now rewrite (Ha o Hin).
  - intros es Hin. now rewrite (Hs es Hin).
Qed.

(** X28.  An answer requested through the Search button, in a tab whose
    earlier queries were submitted through the button as well: whatever
    happens short of pressing Enter, as long as the stream has not ended the
    text shown is the concatenation, in arrival order, of the fragments its
    event source has delivered, none dropped, repeated or mixed with those
    of another answer; the terminal event of the stream leaves that text as
    it is and ends the loading state with nothing left running. *)
Theorem streamed_answer_by_button_is_the_fragments :
  forall e ms evs mid,
    Notions.by_button evs = true ->
    let s := SearchTab.ui_run e ms evs SearchTab.start in
    SearchTab.loading (SearchTab.tab s) = false ->
    SearchTab.useRag (SearchTab.tab s) = true ->
    SearchTab.streamEnabled (SearchTab.tab s) = true ->
    Js.trim (SearchTab.query (SearchTab.tab s)) <> "" ->
    Api.closed (Api.queryStream e ms (SearchTab.request_of (SearchTab.tab s))) = false ->
    Notions.by_button mid = true ->
    let i := length (SearchTab.sources s) in
    let fragments := Notions.delivered i mid in
    existsb Stream.is_terminal fragments = false ->
    let streaming := SearchTab.ui_run e ms (SearchTab.Click :: mid) s in
    SearchTab.streamingAnswer (SearchTab.tab streaming)
    = String.concat "" (map Stream.chunk_text fragments)
    /\ SearchTab.displayed_answer (SearchTab.tab streaming)
       = Js.Ok (Js.VStr (String.concat "" (map Stream.chunk_text fragments)))
    /\ SearchTab.loading (SearchTab.tab streaming) = true
    /\ (forall last,
          Stream.is_terminal last = true ->
          let ended := SearchTab.ui_step e ms streaming (SearchTab.Channel i last) in
          SearchTab.streamingAnswer (SearchTab.tab ended)
          = String.concat "" (map Stream.chunk_text fragments)
          /\ SearchTab.loading (SearchTab.tab ended) = false
          /\ Notions.running ended = 0%nat).
Proof.
  intros e ms evs mid Hb s Hl Hr Hse Hq Hopen Hmid i fragments Hterm streaming.
  assert (H0 : one_at_a_time SearchTab.start).
  { unfold one_at_a_time, Notions.running. simpl. split; [lia | reflexivity]. }
  destruct (ui_run_one_at_a_time e ms evs SearchTab.start Hb H0) as [_ Hzero].
  fold s in Hzero. specialize (Hzero Hl).
  pose proof (running_zero_quiet s Hzero) as Hquiet.
  set (es := Api.queryStream e ms (SearchTab.request_of (SearchTab.tab s))) in *.
  set (s1 := SearchTab.ui_step e ms s SearchTab.Click).
  assert (Hs1 : s1 = {| SearchTab.tab :=
                          SearchTab.setStreamingAnswer (fun _ => "")
                            (SearchTab.setSearchResults (Js.VArr [])
                               (SearchTab.setRagResponse Js.VNull
                                  (SearchTab.setLoading true (SearchTab.tab s))));
                        SearchTab.sources := (SearchTab.sources s ++ [es])%list;
                        SearchTab.awaited := SearchTab.awaited s |}).
  { unfold s1. simpl. rewrite Hl. unfold SearchTab.submit.
    rewrite (handleSearch_streamed e ms (SearchTab.tab s) Hq Hr Hse). reflexivity. }
  destruct (streaming_alone e ms (SearchTab.sources s) i mid s1 es)
    as [[es' [Hsrc Hopen']] [Haw [Hload [Hrag Htext]]]]; auto;
    try (rewrite Hs1; reflexivity).
  { rewrite Hs1. exact Hquiet. }
  change (SearchTab.ui_run e ms mid s1) with streaming in *.
  fold fragments in Htext.
  rewrite Hs1 in Htext. simpl in Htext.
  rewrite (arrived_text_running fragments Hterm) in Htext.
  split; [exact Htext|].
  split; [rewrite (displayed_streaming_answer _ Hrag); now rewrite Htext|].
  split; [exact Hload|].
  intros last Hlast ended.
  assert (Hn : nth_error (SearchTab.sources streaming) i = Some es').
  { rewrite Hsrc. apply nth_error_snoc_new. }
  destruct (dispatch_terminal (es', SearchTab.tab streaming) last Hopen' Hlast)
    as [Hclosed [Hloading [Hanswer _]]].
  simpl in Hanswer.
  assert (Hended : ended
                   = {| SearchTab.tab :=
                          snd (SearchTab.dispatch (es', SearchTab.tab streaming) last);
                        SearchTab.sources :=
                          (SearchTab.sources s
                           ++ [fst (SearchTab.dispatch (es', SearchTab.tab streaming) last)])%list;
                        SearchTab.awaited := SearchTab.awaited streaming |}).
  { unfold ended. simpl. rewrite Hn. simpl. rewrite Hsrc. unfold i.
    now rewrite set_nth_snoc. }
  split; [rewrite Hended; simpl; now rewrite Hanswer, Htext|].
  split; [rewrite Hended; exact Hloading|].
  apply quiet_running. rewrite Hended. simpl. split.
  - intros es0 Hin. apply in_app_iff in Hin. destruct Hin as [Hin|[<-|[]]].
    + now apply (proj1 Hquiet).
    + exact Hclosed.
  - intros o Hin. rewrite Haw, Hs1 in Hin. simpl in Hin. now apply (proj2 Hquiet).
Qed.

Lemma streamed_answer_by_button_is_the_fragments_witness :
  SearchTab.displayed_answer
    (SearchTab.tab
       (SearchTab.ui_run Sample.no_env Sample.no_mock_stream
          [SearchTab.Form (SearchTab.TypeQuery "cats"); SearchTab.Click;
           SearchTab.Channel 0 (Sample.chunk "Cats "); SearchTab.Click;
           SearchTab.Channel 0 (Sample.chunk "are mammals.")]
          SearchTab.start))
  = Js.Ok (Js.VStr "Cats are mammals.").
Proof.
  exact (proj1 (proj2
    (streamed_answer_by_button_is_the_fragments Sample.no_env Sample.no_mock_stream
       [SearchTab.Form (SearchTab.TypeQuery "cats")]
       [SearchTab.Channel 0 (Sample.chunk "Cats "); SearchTab.Click;
        SearchTab.Channel 0 (Sample.chunk "are mammals.")]
       eq_refl eq_refl eq_refl eq_refl ltac:(discriminate) eq_refl eq_refl eq_refl))).
Defined.

(** ** The tabs of the page, further *)

(** X5.  Whatever tab buttons are clicked, the page renders exactly one of
    its four tab components, the one that belongs to the current tab, and
    draws exactly one button as active, the one of that tab; a click on a
    button makes its tab the current one and its component the one
    rendered. *)
Theorem exactly_one_tab_is_shown :
  forall picks : list nat,
    let currentTab := Layout.clicks picks in
    ((currentTab = "search" /\ Layout.panels currentTab = ["SearchTab"]
      /\ Layout.active currentTab = [("search", "Search & Query")])
     \/ (currentTab = "data" /\ Layout.panels currentTab = ["DataTab"]
         /\ Layout.active currentTab = [("data", "Data Browser")])
     \/ (currentTab = "upload" /\ Layout.panels currentTab = ["UploadTab"]
         /\ Layout.active currentTab = [("upload", "Upload")])
     \/ (currentTab = "settings" /\ Layout.panels currentTab = ["SettingsTab"]
         /\ Layout.active currentTab = [("settings", "Settings")]))
    /\ map (fun i => (Layout.click currentTab i,
                      Layout.panels (Layout.click currentTab i)))
         [0; 1; 2; 3]%nat
       = [("search", ["SearchTab"]); ("data", ["DataTab"]);
          ("upload", ["UploadTab"]); ("settings", ["SettingsTab"])]
    /\ (forall i, (4 <= i)%nat -> Layout.click currentTab i = currentTab).
Proof.
  intros picks currentTab.
  assert (H : In currentTab (map fst Layout.tabs)).
  { apply clicks_is_a_tab. simpl. auto. }
  split; [|split].
  - simpl in H. destruct H as [<-|[<-|[<-|[<-|[]]]]]; auto 10.
  - reflexivity.
  - intros i Hi. unfold Layout.click.
    do 4 (destruct i as [|i]; [lia|]). now destruct i.
Qed.

(** ** Settled requests and open streams *)

(** X7.  When the request of a RAG query that is not streamed resolves, the
    response is kept as the answer, the loading state ends and no toast is
    added; the result list is left as it is at that moment, so the sources
    of the response are never drawn as cards.  When the request of a
    search-only query resolves, the response becomes the result list and
    the answer is left as it is.  A promise settles once.  Submitted in a
    quiet moment, with nothing else happening before the request resolves,
    a RAG response is shown with no source card and search results with no
    answer text. *)
Theorem resolved_queries_show_answer_or_results :
  forall Date_parse e ms s j op v,
    nth_error (SearchTab.awaited s) j = Some (Some op) ->
    let s' := SearchTab.ui_step e ms s (SearchTab.Settled j (Js.Ok v)) in
    (forall request, op = Api.query request ->
       SearchTab.ragResponse (SearchTab.tab s') = v
       /\ SearchTab.searchResults (SearchTab.tab s') = SearchTab.searchResults (SearchTab.tab s)
       /\ SearchTab.streamingAnswer (SearchTab.tab s')
          = SearchTab.streamingAnswer (SearchTab.tab s))
    /\ (forall query k, op = Api.search query k ->
          SearchTab.searchResults (SearchTab.tab s') = v
          /\ SearchTab.ragResponse (SearchTab.tab s') = SearchTab.ragResponse (SearchTab.tab s)
          /\ SearchTab.streamingAnswer (SearchTab.tab s')
             = SearchTab.streamingAnswer (SearchTab.tab s))
    /\ SearchTab.loading (SearchTab.tab s') = false
    /\ SearchTab.toasts (SearchTab.tab s') = SearchTab.toasts (SearchTab.tab s)
    /\ SearchTab.sources s' = SearchTab.sources s
    /\ (forall outcome, SearchTab.ui_step e ms s' (SearchTab.Settled j outcome) = s')
    /\ (forall s0,
          s = SearchTab.ui_step e ms s0 SearchTab.Enter ->
          j = length (SearchTab.awaited s0) ->
          (forall request, op = Api.query request ->
             SearchTab.render_results Date_parse (SearchTab.tab s') = Js.Ok [])
          /\ (forall query k, op = Api.search query k ->
                SearchTab.ragResponse (SearchTab.tab s') = Js.VNull
                /\ SearchTab.displayed_answer (SearchTab.tab s') = Js.Ok (Js.VStr ""))).
Proof.
  intros Date_parse e ms s j op v Hn s'.
  assert (Hs' : s' = {| SearchTab.tab := SearchTab.handleSearch_resume (SearchTab.tab s) op
                                            (Js.Ok v);
                        SearchTab.sources := SearchTab.sources s;
                        SearchTab.awaited := SearchTab.set_nth j None (SearchTab.awaited s) |}).
  { unfold s'. simpl. now rewrite Hn. }
  split; [intros request ->; rewrite Hs'; repeat split; reflexivity|].
  split; [intros query k ->; rewrite Hs'; repeat split; reflexivity|].
  split; [rewrite Hs'; apply handleSearch_resume_loading|].
  split; [rewrite Hs'; destruct op; reflexivity|].
  split; [rewrite Hs'; reflexivity|].
  split.
  { intros outcome. apply settled_of_none. intros o Ho. rewrite Hs' in Ho. simpl in Ho.
    clear - Hn Ho. revert j Hn Ho.
    induction (SearchTab.awaited s) as [|x l IH]; intros [|j] Hn Ho; simpl in *;
      try discriminate.
    - now inversion Ho.
    - now apply (IH j). }
  intros s0 Hs0 Hj.
  assert (Hsub : exists st,
             SearchTab.handleSearch e ms (SearchTab.tab s0) = (st, SearchTab.Awaiting op)
             /\ SearchTab.tab s = st).
  { rewrite Hs0 in Hn |- *. simpl in Hn |- *. unfold SearchTab.submit in *.
    destruct (SearchTab.handleSearch e ms (SearchTab.tab s0)) as [st [|es|op']];
      simpl in Hn |- *.
    - rewrite Hj in Hn.
      assert (Hnone : nth_error (SearchTab.awaited s0) (length (SearchTab.awaited s0)) = None)
        by (apply nth_error_None; lia).
      rewrite Hnone in Hn. discriminate.
    - rewrite Hj in Hn.
      assert (Hnone : nth_error (SearchTab.awaited s0) (length (SearchTab.awaited s0)) = None)
        by (apply nth_error_None; lia).
      rewrite Hnone in Hn. discriminate.
    - rewrite Hj, nth_error_snoc_new in Hn. inversion Hn; subst op'. eauto. }
  destruct Hsub as [st [Hh Htab]].
  assert (Hfresh : SearchTab.searchResults st = Js.VArr []
                   /\ SearchTab.ragResponse st = Js.VNull
                   /\ SearchTab.streamingAnswer st = "").
  { unfold SearchTab.handleSearch in Hh.
    destruct (negb (Js.truthy (Js.VStr (Js.trim (SearchTab.query (SearchTab.tab s0))))));
      [discriminate|].
    simpl in Hh. destruct (SearchTab.useRag (SearchTab.tab s0));
      [destruct (SearchTab.streamEnabled (SearchTab.tab s0)); [discriminate|]|];
      inversion Hh; subst; auto. }
  destruct Hfresh as [Hres [Hrag Htext]].
  split.
  - intros request ->. unfold SearchTab.render_results. rewrite Hs'. simpl.
    rewrite Htab, Hres. reflexivity.
  - intros query k ->. rewrite Hs'. simpl. rewrite Htab.
    split; [exact Hrag|].
    unfold SearchTab.displayed_answer. simpl. now rewrite Hrag, Htext.
Qed.

Lemma resolved_queries_show_answer_or_results_witness :
  SearchTab.ragResponse
    (SearchTab.tab
       (SearchTab.ui_run Sample.no_env Sample.no_mock_stream
          [SearchTab.Form (SearchTab.TypeQuery "cats");
           SearchTab.Form (SearchTab.SwitchStream false);
           SearchTab.Enter;
           SearchTab.Settled 0
             (Js.Ok (Js.VObj [("answer", Js.VStr "Cats are mammals.");
                              ("sources", Js.VArr [Sample.a_result])]))]
          SearchTab.start))
  = Js.VObj [("answer", Js.VStr "Cats are mammals.");
             ("sources", Js.VArr [Sample.a_result])].
Proof.
  exact (proj1 (proj1
    (resolved_queries_show_answer_or_results Sample.Date_parse
       Sample.no_env Sample.no_mock_stream
       (SearchTab.ui_run Sample.no_env Sample.no_mock_stream
          [SearchTab.Form (SearchTab.TypeQuery "cats");
           SearchTab.Form (SearchTab.SwitchStream false); SearchTab.Enter]
          SearchTab.start)
       0%nat _
       (Js.VObj [("answer", Js.VStr "Cats are mammals.");
                 ("sources", Js.VArr [Sample.a_result])])
       eq_refl) _ eq_refl)).
Defined.

Lemma existsb_same {A} (f g : A -> bool) (l : list A) :
  (forall x, f x = g x) -> existsb f l = existsb g l.
Proof.
  intros H. induction l as [|x l IH]; [reflexivity|]. simpl. now rewrite H, IH.
Qed.

Lemma ui_run_cons e ms ev evs s :
  SearchTab.ui_run e ms (ev :: evs) s = SearchTab.ui_run e ms evs (SearchTab.ui_step e ms s ev).
Proof. reflexivity. Qed.

Lemma dispatch_loading_stays_off c ev :
  SearchTab.loading (snd c) = false ->
  SearchTab.loading (snd (SearchTab.dispatch c ev)) = false.
Proof.
  intros Hl. destruct (Api.closed (fst c)) eqn:Hc.
  - now rewrite dispatch_closed.
  - destruct (Stream.is_terminal ev) eqn:Ht.
    + now destruct (dispatch_terminal c ev Hc Ht) as [_ [H _]].
    + destruct (dispatch_nonterminal_keeps c ev Hc Ht) as [H _]. now rewrite H.
Qed.

Lemma open_at_set_nth sources : forall i es es' j,
  nth_error sources i = Some es ->
  Api.closed es' = Api.closed es ->
  Notions.open_at (SearchTab.set_nth i es' sources) j = Notions.open_at sources j.
Proof.
  unfold Notions.open_at.
  induction sources as [|x l IH]; intros [|i] es es' [|j] Hn Hc; simpl in *;
    try discriminate; try reflexivity.
  - inversion Hn; subst x. now rewrite Hc.
  - now apply (IH i es es' j).
Qed.

Lemma dispatching_loading e ms evs : forall s,
  SearchTab.loading (SearchTab.tab (SearchTab.ui_run e ms (Notions.dispatching evs) s))
  = SearchTab.loading (SearchTab.tab s)
    && negb (existsb (fun p => Stream.is_terminal (snd p)
                               && Notions.open_at (SearchTab.sources s) (fst p)) evs).
Proof.
  induction evs as [|[i cev] evs IH]; intros s; [simpl; now rewrite andb_true_r|].
  change (Notions.dispatching ((i, cev) :: evs))
    with (SearchTab.Channel i cev :: Notions.dispatching evs).
  rewrite ui_run_cons, IH. cbn [existsb fst snd].
  unfold Notions.open_at at 2.
  cbn [SearchTab.ui_step].
  destruct (nth_error (SearchTab.sources s) i) as [es|] eqn:Hn.
  - destruct (Api.closed es) eqn:Hc.
    + rewrite dispatch_closed by exact Hc. cbn [fst snd SearchTab.tab SearchTab.sources].
      rewrite (set_nth_same _ _ _ Hn). now rewrite andb_false_r.
    + cbn [negb]. rewrite andb_true_r.
      cbn [SearchTab.tab SearchTab.sources].
      destruct (Stream.is_terminal cev) eqn:Ht.
      * destruct (dispatch_terminal (es, SearchTab.tab s) cev Hc Ht) as [_ [Hl _]].
        rewrite Hl. cbn [orb negb]. now rewrite andb_false_r.
      * destruct (dispatch_nonterminal (es, SearchTab.tab s) cev Hc Ht) as [Hc' _].
        destruct (dispatch_nonterminal_keeps (es, SearchTab.tab s) cev Hc Ht) as [Hl _].
        rewrite Hl. cbn [orb snd]. f_equal. f_equal.
        apply existsb_same. intros [j cev']. cbn [fst snd]. f_equal.
        apply (open_at_set_nth _ i es); [exact Hn | now rewrite Hc', Hc].
  - now rewrite andb_false_r.
Qed.

(** X9.  While nothing happens but event sources dispatching, the loading
    state ends exactly at the first terminal event (a done message, an error
    message or a failure of the connection) of an event source that is
    open, whichever query opened it, and never starts again; such an event
    closes its own source and no other.  A request that settles ends the
    loading state as well, and leaves every event source as it is, open
    ones included. *)
Theorem loading_lasts_until_the_terminal_event :
  forall e ms s (evs : list (nat * SearchTab.channel_event)),
    SearchTab.loading
      (SearchTab.tab (SearchTab.ui_run e ms (Notions.dispatching evs) s))
    = SearchTab.loading (SearchTab.tab s)
      && negb (existsb (fun p => Stream.is_terminal (snd p)
                                 && Notions.open_at (SearchTab.sources s) (fst p)) evs)
    /\ (forall i cev j,
          Notions.open_at (SearchTab.sources s) i = true ->
          Notions.open_at
            (SearchTab.sources (SearchTab.ui_step e ms s (SearchTab.Channel i cev))) j
          = Notions.open_at (SearchTab.sources s) j
            && negb (Nat.eqb j i && Stream.is_terminal cev))
    /\ (forall j op outcome,
          nth_error (SearchTab.awaited s) j = Some (Some op) ->
          let s' := SearchTab.ui_step e ms s (SearchTab.Settled j outcome) in
          SearchTab.loading (SearchTab.tab s') = false
          /\ SearchTab.sources s' = SearchTab.sources s).
Proof.
  intros e ms s evs. split; [apply dispatching_loading|]. split.
  - intros i cev j Hi. unfold Notions.open_at in Hi. simpl.
    destruct (nth_error (SearchTab.sources s) i) as [es|] eqn:Hn; [|discriminate].
    apply negb_true_iff in Hi. cbn [SearchTab.sources].
    destruct (Stream.is_terminal cev) eqn:Ht.
    + destruct (dispatch_terminal (es, SearchTab.tab s) cev Hi Ht) as [Hc _].
      rewrite andb_true_r.
      destruct (Nat.eqb_spec j i) as [->|Hji].
      * unfold Notions.open_at.
        assert (Hnew : nth_error (SearchTab.set_nth i
                          (fst (SearchTab.dispatch (es, SearchTab.tab s) cev))
                          (SearchTab.sources s)) i
                       = Some (fst (SearchTab.dispatch (es, SearchTab.tab s) cev))).
        { clear - Hn. revert i Hn.
          induction (SearchTab.sources s) as [|x l IH]; intros [|i] Hn; simpl in *;
            try discriminate; [reflexivity | now apply IH]. }
        rewrite Hnew, Hc. now rewrite andb_false_r.
      * rewrite andb_true_r. unfold Notions.open_at.
        assert (Hsame : nth_error (SearchTab.set_nth i
                           (fst (SearchTab.dispatch (es, SearchTab.tab s) cev))
                           (SearchTab.sources s)) j
                        = nth_error (SearchTab.sources s) j).
        { clear - Hn Hji. revert i j Hn Hji.
          induction (SearchTab.sources s) as [|x l IH]; intros [|i] [|j] Hn Hji;
            simpl in *; try discriminate; try reflexivity; try lia.
          apply (IH i j Hn). lia. }
        now rewrite Hsame.
    + destruct (dispatch_nonterminal (es, SearchTab.tab s) cev Hi Ht) as [Hc _].
      rewrite andb_false_r, andb_true_r.
      apply (open_at_set_nth _ i es); [exact Hn | now rewrite Hc, Hi].
  - intros j op outcome Hn s'. unfold s'. simpl. rewrite Hn. simpl.
    split; [apply handleSearch_resume_loading | reflexivity].
Qed.

(** ** The cards of the result list *)






